(** * Career-Copilot: the semantic matching engine and its collaborators

    A shallow embedding of
      - [src/analysis/resume_analyzer.py]  (vocabulary cache, chunker,
        similarity matcher, persistence of matches, gap query),
      - [src/etl/ingest_jobs_and_skills.py] (the job/skill linking loop),
      - [src/ai/generate_roadmap.py]        (roadmap fan-out),
    followed by the properties the specification states about them.

    Conventions.  Python [int] is [Z]; Python [str] is [string], each
    [ascii] read as the code point of that number (so the model covers
    text in the range 0..255); a numpy float is an IEEE 754 binary64 value
    of [spec_float]; an exception is the [Raise] branch of [result]. *)

From Stdlib Require Import ZArith List Bool Ascii String Lia Permutation.
From Stdlib Require Import Sorting.Sorted.
From Stdlib Require Import Floats.SpecFloat.
Import ListNotations.

Open Scope string_scope.
Open Scope list_scope.
Open Scope Z_scope.

(* ------------------------------------------------------------------ *)
(** ** Exceptions *)

(** The Python exceptions the modelled code can raise. *)
Inductive py_error : Type :=
| ValueError (msg : string)
| DatabaseError (msg : string)
| OtherError (msg : string).

(** [str(e)] *)
Definition str_of_error (e : py_error) : string :=
  match e with
  | ValueError msg | DatabaseError msg | OtherError msg => msg
  end.

Inductive result (A : Type) : Type :=
| Ok (a : A)
| Raise (e : py_error).

Arguments Ok {A} a.
Arguments Raise {A} e.

Definition bind {A B : Type} (r : result A) (k : A -> result B) : result B :=
  match r with
  | Ok a => k a
  | Raise e => Raise e
  end.

Notation "x <- r ;; k" := (bind r (fun x => k))
  (at level 61, r at next level, right associativity).

(* ------------------------------------------------------------------ *)
(** ** IEEE 754 binary64, as numpy's float64 *)

Module F64.

Definition prec : Z := 53.
Definition emax : Z := 1024.

Definition float : Type := spec_float.

Definition add : float -> float -> float := SFadd prec emax.
Definition mul : float -> float -> float := SFmul prec emax.
Definition div : float -> float -> float := SFdiv prec emax.
Definition sqrt : float -> float := SFsqrt prec emax.

Definition ltb : float -> float -> bool := SFltb.
Definition leb : float -> float -> bool := SFleb.
Definition eqb : float -> float -> bool := SFeqb.

(** Python's [a >= b] on floats. *)
Definition geb (a b : float) : bool := leb b a.

Definition is_nan (x : float) : bool :=
  match x with
  | S754_nan => true
  | _ => false
  end.

Definition is_zero (x : float) : bool :=
  match x with
  | S754_zero _ => true
  | _ => false
  end.

Definition zero : float := S754_zero false.

(** The float nearest to an integer, and to a ratio of two integers
    (what reading the decimal literal [n/d] gives when both are exactly
    representable). *)
Definition of_Z (n : Z) : float := binary_normalize prec emax n 0 false.
Definition ratio (n d : Z) : float := div (of_Z n) (of_Z d).

End F64.

Abbreviation float := F64.float.

(* ------------------------------------------------------------------ *)
(** ** The Python built-ins the code uses *)

Module Py.

(** [str.isspace] on one character, for code points below 256:
    TAB..CR, FS..US, SPACE, NEL and NBSP. *)
Definition isspace (c : ascii) : bool :=
  let n := Z.of_nat (nat_of_ascii c) in
  ((9 <=? n) && (n <=? 13)) || ((28 <=? n) && (n <=? 32))
  || (n =? 133) || (n =? 160).

(** [str.lower] on one character, for code points below 256: the
    letters A..Z and the Latin-1 capitals (192..222 but the sign 215). *)
Definition lower_char (c : ascii) : ascii :=
  let n := nat_of_ascii c in
  if (((65 <=? n) && (n <=? 90))
      || ((192 <=? n) && (n <=? 222) && negb (n =? 215)))%nat
  then ascii_of_nat (n + 32) else c.

Fixpoint lower (s : string) : string :=
  match s with
  | EmptyString => EmptyString
  | String c s' => String (lower_char c) (lower s')
  end.

(** [text.split()]: the maximal runs of non-whitespace characters.
    [w] is the word being read. *)
Fixpoint split_from (w : string) (s : string) : list string :=
  match s with
  | EmptyString => if String.eqb w "" then [] else [w]
  | String c s' =>
      if isspace c
      then (if String.eqb w "" then split_from "" s' else w :: split_from "" s')
      else split_from (w ++ String c "")%string s'
  end.

Definition split (s : string) : list string := split_from "" s.

(** [sep.join(words)] *)
Fixpoint join (sep : string) (words : list string) : string :=
  match words with
  | [] => ""
  | [w] => w
  | w :: rest => (w ++ sep ++ join sep rest)%string
  end.

(** [text.strip()] is empty exactly when every character is whitespace. *)
Fixpoint all_space (s : string) : bool :=
  match s with
  | EmptyString => true
  | String c s' => isspace c && all_space s'
  end.

(** A slice bound, as [PySlice_AdjustIndices] clips it for step 1. *)
Definition clip (len i : Z) : Z :=
  if i <? 0 then Z.max 0 (i + len) else Z.min i len.

(** [l[i:j]] *)
Definition slice {A : Type} (l : list A) (i j : Z) : list A :=
  let len := Z.of_nat (List.length l) in
  let lo := clip len i in
  let hi := clip len j in
  firstn (Z.to_nat (hi - lo)) (skipn (Z.to_nat lo) l).

(** [l[:k]] *)
Definition slice_to {A : Type} (l : list A) (k : Z) : list A :=
  firstn (Z.to_nat (clip (Z.of_nat (List.length l)) k)) l.

(** The values of [range(i, stop, step)] for [step > 0]; [fuel] bounds
    the number of values. *)
Fixpoint range_up (fuel : nat) (i stop step : Z) : list Z :=
  match fuel with
  | O => []
  | S fuel' =>
      if i <? stop then i :: range_up fuel' (i + step) stop step else []
  end.

(** The values of [range(i, stop, step)] for [step < 0]. *)
Fixpoint range_down (fuel : nat) (i stop step : Z) : list Z :=
  match fuel with
  | O => []
  | S fuel' =>
      if stop <? i then i :: range_down fuel' (i + step) stop step else []
  end.

(** [list(range(start, stop, step))]; a zero step raises [ValueError]. *)
Definition range (start stop step : Z) : result (list Z) :=
  if step =? 0 then Raise (ValueError "range() arg 3 must not be zero")
  else if 0 <? step then Ok (range_up (Z.to_nat (stop - start)) start stop step)
  else Ok (range_down (Z.to_nat (start - stop)) start stop step).

(** An insertion-ordered [dict] with [str] keys: assigning to a key that
    is present replaces its value where it stands, a new key goes last. *)
Definition dict (V : Type) : Type := list (string * V).

Fixpoint dict_set {V : Type} (k : string) (v : V) (d : dict V) : dict V :=
  match d with
  | [] => [(k, v)]
  | (k', v') :: d' =>
      if String.eqb k' k then (k', v) :: d' else (k', v') :: dict_set k v d'
  end.

Section Sorted.
Context {A : Type} (key : A -> float).

(** [sorted(l, key=key, reverse=True)]: a stable sort into descending key
    order that compares keys with [<] only.  [x] stood before every
    element of [l] in the input. *)
Fixpoint insert_desc (x : A) (l : list A) : list A :=
  match l with
  | [] => [x]
  | y :: l' =>
      if F64.ltb (key x) (key y) then y :: insert_desc x l' else x :: y :: l'
  end.

Fixpoint sorted_desc (l : list A) : list A :=
  match l with
  | [] => []
  | x :: l' => insert_desc x (sorted_desc l')
  end.

End Sorted.

End Py.

(* ------------------------------------------------------------------ *)
(** ** The numpy operations the code uses *)

Module Np.

(** A one-dimensional array, and a two-dimensional one as its rows.
    Sums are accumulated from the left in binary64; numpy's own order of
    summation and the float32 rows of the embedder may round differently,
    which none of the properties below depends on. *)
Definition vec : Type := list float.
Definition matrix : Type := list vec.

(** The inner product of two one-dimensional arrays of one length,
    accumulated from the left. *)
Fixpoint dot_from (acc : float) (a b : vec) : float :=
  match a, b with
  | x :: a', y :: b' => dot_from (F64.add acc (F64.mul x y)) a' b'
  | _, _ => acc
  end.

Definition dot1 (a b : vec) : float := dot_from F64.zero a b.

(** [np.linalg.norm(v)] of a one-dimensional array: [sqrt(v.dot(v))]. *)
Definition norm (v : vec) : float := F64.sqrt (dot1 v v).

(** [np.dot(m, v)]: the rows of [m] must be as long as [v]. *)
Definition dot (m : matrix) (v : vec) : result vec :=
  if forallb (fun row => Nat.eqb (List.length row) (List.length v)) m
  then Ok (map (fun row => dot1 row v) m)
  else Raise (ValueError "shapes not aligned").

(** [np.linalg.norm(m, axis=1)], each row as [norm] has it (see the note
    on rounding above). *)
Definition norm_rows (m : matrix) : vec := map norm m.

(** [a * s] for an array and a scalar, and [a / b] elementwise. *)
Definition scale (a : vec) (s : float) : vec := map (fun x => F64.mul x s) a.

Fixpoint divide (a b : vec) : vec :=
  match a, b with
  | x :: a', y :: b' => F64.div x y :: divide a' b'
  | _, _ => []
  end.

(** [np.maximum] on two scalars: a NaN on either side is the result. *)
Definition maximum (a b : float) : float :=
  if F64.is_nan a then a else if F64.ltb b a then a else b.

(** [np.max(a)]: [maximum] reduced from the left; an empty array has no
    maximum. *)
Definition max (a : vec) : result float :=
  match a with
  | [] => Raise (ValueError "zero-size array to reduction operation maximum")
  | x :: a' => Ok (fold_left maximum a' x)
  end.

End Np.

(* ------------------------------------------------------------------ *)
(** ** [src/analysis/resume_analyzer.py]: chunker and similarity matcher *)

Module Analyzer.

(** A row of the vocabulary as [get_skills_with_embeddings] returns it:
    [emb_array] is [None] when the stored embedding is absent or
    malformed. *)
Record skill : Type := mk_skill {
  skill_id : Z;
  name : string;
  emb_array : option Np.vec
}.

(** The value [{"skill_id": ..., "max_sim": ...}] kept per skill name. *)
Record sim_entry : Type := mk_entry {
  entry_skill_id : Z;
  max_sim : float
}.

(** A match: [(skill_id, name, score)]. *)
Definition match_t : Type := (Z * string * float)%type.

Definition match_id (m : match_t) : Z := fst (fst m).
Definition match_name (m : match_t) : string := snd (fst m).
Definition match_score (m : match_t) : float := snd m.

(** Lines 67-68: the words of the text and the windows over them. *)
Definition chunk_text (text : string) (chunk_size chunk_overlap : Z)
  : result (list string) :=
  let words := Py.split text in
  starts <- Py.range 0 (Z.of_nat (List.length words)) (chunk_size - chunk_overlap) ;;
  Ok (map (fun i => Py.join " " (Py.slice words i (i + chunk_size))) starts).

(** Line 83: the cosine similarity of one skill against every chunk. *)
Definition cosine_sims (chunk_embeddings : Np.matrix) (emb : Np.vec)
  : result Np.vec :=
  dots <- Np.dot chunk_embeddings emb ;;
  Ok (Np.divide dots (Np.scale (Np.norm_rows chunk_embeddings) (Np.norm emb))).

(** Lines 77-92: the loop over the vocabulary, filling
    [skill_similarities]. *)
Fixpoint score_skills (chunk_embeddings : Np.matrix) (sim_threshold : float)
  (skill_rows : list skill) (skill_similarities : Py.dict sim_entry)
  : result (Py.dict sim_entry) :=
  match skill_rows with
  | [] => Ok skill_similarities
  | skill :: rest =>
      match emb_array skill with
      | None => score_skills chunk_embeddings sim_threshold rest skill_similarities
      | Some [] => score_skills chunk_embeddings sim_threshold rest skill_similarities
      | Some emb =>
          sims <- cosine_sims chunk_embeddings emb ;;
          max_sim <- Np.max sims ;;
          if F64.geb max_sim sim_threshold
          then score_skills chunk_embeddings sim_threshold rest
                 (Py.dict_set (name skill)
                    (mk_entry (skill_id skill) max_sim) skill_similarities)
          else score_skills chunk_embeddings sim_threshold rest skill_similarities
      end
  end.

(** The sort key of line 94 and the tuple of line 96, on an item of
    [skill_similarities.items()]. *)
Definition item_sim (item : string * sim_entry) : float := max_sim (snd item).

Definition item_match (item : string * sim_entry) : match_t :=
  (entry_skill_id (snd item), fst item, max_sim (snd item)).

Section Matcher.

(** [embedder.encode(chunks, convert_to_numpy=True)]: the external
    embedding model, one row per chunk. *)
Variable encode : list string -> Np.matrix.

(** [extract_skills_from_text], with the rows that
    [get_skills_with_embeddings()] returned at line 63 as [skill_rows]. *)
Definition extract_skills_from_text (skill_rows : list skill) (text : string)
  (top_k : Z) (sim_threshold : float) (chunk_size chunk_overlap : Z)
  : result (list match_t) :=
  if String.eqb text "" then Ok [] else
  match skill_rows with
  | [] => Ok []
  | _ :: _ =>
      chunks <- chunk_text text chunk_size chunk_overlap ;;
      match chunks with
      | [] => Ok []
      | _ :: _ =>
          let chunk_embeddings := encode chunks in
          skill_similarities <-
            score_skills chunk_embeddings sim_threshold skill_rows [] ;;
          let sorted_skills := Py.sorted_desc item_sim skill_similarities in
          let matched := map item_match sorted_skills in
          Ok (Py.slice_to matched top_k)
      end
  end.

End Matcher.

End Analyzer.

(* ------------------------------------------------------------------ *)
(** ** [src/analysis/resume_analyzer.py]: the vocabulary cache *)

Module Cache.

(** A row of [SELECT skill_id, name, embedding FROM skills]. *)
Record skill_row : Type := mk_row {
  row_skill_id : Z;
  row_name : string;
  row_embedding : option string
}.

(** The list object a load builds: [object_id] tells two loads apart
    even when their rows are equal. *)
Record loaded : Type := mk_loaded {
  object_id : nat;
  rows : list Analyzer.skill
}.

(** The process: the single slot of [lru_cache(maxsize=1)] and the
    number of [SELECT]s sent so far. *)
Record process : Type := mk_process {
  cache : option loaded;
  fetches : nat
}.

Definition fresh : process := mk_process None 0.

(** One call of the wrapper, cut where control can pass to another
    thread: the cache lookup, the body's query and row processing, the
    store into the cache. *)
Inductive call : Type :=
| Start
| Missed
| Computed (r : result loaded)
| Returned (r : result loaded).

Section Datastore.

(** [np.array(json.loads(s))]; [None] when [json.loads] raises. *)
Variable json_loads : string -> option Np.vec.

(** The answer of the datastore to the [n]-th [SELECT] of the process. *)
Variable datastore : nat -> result (list skill_row).

(** Lines 35-44. *)
Definition process_row (row : skill_row) : Analyzer.skill :=
  Analyzer.mk_skill (row_skill_id row) (row_name row)
    match row_embedding row with
    | Some s => if String.eqb s "" then None else json_loads s
    | None => None
    end.

(** The body of [get_skills_with_embeddings], lines 30-47. *)
Definition load (st : process) : result loaded * process :=
  let st' := mk_process (cache st) (S (fetches st)) in
  match datastore (fetches st) with
  | Ok rs => (Ok (mk_loaded (fetches st) (map process_row rs)), st')
  | Raise e => (Raise e, st')
  end.

(** The store after the body returned: a result is kept unless the slot
    was filled meanwhile; an exception is never kept. *)
Definition store (r : result loaded) (st : process) : process :=
  match r, cache st with
  | Ok v, None => mk_process (Some v) (fetches st)
  | _, _ => st
  end.

(** One step of one call. *)
Definition step_call (c : call) (st : process) : call * process :=
  match c with
  | Start =>
      match cache st with
      | Some v => (Returned (Ok v), st)
      | None => (Missed, st)
      end
  | Missed => let (r, st') := load st in (Computed r, st')
  | Computed r => (Returned r, store r st)
  | Returned r => (Returned r, st)
  end.

(** [get_skills_with_embeddings()] run without interruption. *)
Definition get_skills_with_embeddings (st : process)
  : result loaded * process :=
  match cache st with
  | Some v => (Ok v, st)
  | None => let (r, st') := load st in (r, store r st')
  end.

(** Line 63 inside [extract_skills_from_text]: the rows come from the
    cache, and a failed load is the failure of the call. *)
Definition extract_skills_in_process (encode : list string -> Np.matrix)
  (text : string) (top_k : Z) (sim_threshold : float)
  (chunk_size chunk_overlap : Z) (st : process)
  : result (list Analyzer.match_t) * process :=
  let (r, st') := get_skills_with_embeddings st in
  (v <- r ;;
   Analyzer.extract_skills_from_text encode (rows v) text top_k sim_threshold
     chunk_size chunk_overlap,
   st').

(** Calls one after the other; the results in call order. *)
Fixpoint call_n (n : nat) (st : process) : list (result loaded) * process :=
  match n with
  | O => ([], st)
  | S n' =>
      let (r, st') := get_skills_with_embeddings st in
      let (rs, st'') := call_n n' st' in
      (r :: rs, st'')
  end.

(** Several threads, each inside one call; [schedule] names the thread
    that takes the next step. *)
Definition step_thread (i : nat) (cfg : list call * process)
  : list call * process :=
  let (threads, st) := cfg in
  match nth_error threads i with
  | None => cfg
  | Some c =>
      let (c', st') := step_call c st in
      (firstn i threads ++ c' :: skipn (S i) threads, st')
  end.

Definition run (schedule : list nat) (cfg : list call * process)
  : list call * process :=
  fold_left (fun cfg i => step_thread i cfg) schedule cfg.

End Datastore.

End Cache.

(* ------------------------------------------------------------------ *)
(** ** [src/etl/ingest_jobs_and_skills.py]: linking a posting to skills *)

Module Ingest.

(** A row written by [INSERT IGNORE INTO job_skills]:
    [(job_id, skill_id, weight)]. *)
Definition link : Type := (Z * Z * float)%type.

Section Linker.

Variable encode : list string -> Np.matrix.

(** [np.dot] and [np.linalg.norm] on one-dimensional arrays, as line 138
    calls them.  numpy does not promise that they round as the matrix
    routines of line 83 do, so they are taken as they come. *)
Variable vdot : Np.vec -> Np.vec -> float.
Variable vnorm : Np.vec -> float.

(** Line 138, with the shape check of [np.dot] on two vectors. *)
Definition cosine (job_emb skill_emb : Np.vec) : result float :=
  if Nat.eqb (List.length job_emb) (List.length skill_emb)
  then Ok (F64.div (vdot job_emb skill_emb)
             (F64.mul (vnorm job_emb) (vnorm skill_emb)))
  else Raise (ValueError "shapes not aligned").

(** Lines 132-146: the inner loop; an exception of one skill is caught
    and the loop goes on. *)
Fixpoint link_skills (job_id : Z) (job_emb : Np.vec) (sim_threshold : float)
  (processed_skills : list Analyzer.skill) : list link :=
  match processed_skills with
  | [] => []
  | skill :: rest =>
      match Analyzer.emb_array skill with
      | None => link_skills job_id job_emb sim_threshold rest
      | Some [] => link_skills job_id job_emb sim_threshold rest
      | Some skill_emb =>
          match cosine job_emb skill_emb with
          | Ok sim =>
              if F64.geb sim sim_threshold
              then (job_id, Analyzer.skill_id skill, sim)
                     :: link_skills job_id job_emb sim_threshold rest
              else link_skills job_id job_emb sim_threshold rest
          | Raise _ => link_skills job_id job_emb sim_threshold rest
          end
      end
  end.

(** Line 120. *)
Definition job_text (title description : string) : string :=
  Py.lower (title ++ " " ++ description)%string.

(** Lines 120-146 of [ingest_jobs] for one posting: the links written
    for it, in the order of the [INSERT]s. *)
Definition link_job (processed_skills : list Analyzer.skill) (job_id : Z)
  (title description : string) (sim_threshold : float) : list link :=
  let text := job_text title description in
  if Py.all_space text then []
  else
    match encode [text] with
    | [] => []
    | job_emb :: _ => link_skills job_id job_emb sim_threshold processed_skills
    end.

(** What the specification says of the same step: the matching engine of
    the resume path, run on the posting's text with its own parameters. *)
Definition link_job_spec (processed_skills : list Analyzer.skill) (job_id : Z)
  (title description : string) (sim_threshold : float)
  (top_k chunk_size chunk_overlap : Z) : result (list link) :=
  matched <- Analyzer.extract_skills_from_text encode processed_skills
               (job_text title description) top_k sim_threshold
               chunk_size chunk_overlap ;;
  Ok (map (fun m => (job_id, Analyzer.match_id m, Analyzer.match_score m)) matched).

End Linker.

End Ingest.

(* ------------------------------------------------------------------ *)
(** ** [src/analysis/resume_analyzer.py]: the datastore side *)

Module Db.

Record skill_rec : Type := mk_skill_rec { s_skill_id : Z; s_name : string }.
(** [jobs.title] can be [NULL]: [ingest_jobs] passes the missing cells
    of the file on as [None]. *)
Record job : Type := mk_job { job_id : Z; title : option string }.
Record job_skill : Type := mk_job_skill { js_job_id : Z; js_skill_id : Z }.
Record user_skill : Type := mk_user_skill {
  us_user_id : Z;
  us_skill_id : Z;
  us_confidence : float
}.

(** The committed content of the tables the two functions touch. *)
Record database : Type := mk_database {
  skills : list skill_rec;
  jobs : list job;
  job_skills : list job_skill;
  user_skills : list user_skill
}.

(** *** [save_user_skills] *)

(** The two statements of [save_user_skills]. *)
Inductive statement : Type :=
| DeleteUserSkills (u : Z)
| InsertUserSkill (row : user_skill).

Section Transaction.

(** Whether the datastore carries out a statement on the table as the
    transaction sees it (a constraint or the connection can refuse). *)
Variable accepts : statement -> list user_skill -> bool.

Definition execute (stmt : statement) (t : list user_skill)
  : result (list user_skill) :=
  if accepts stmt t then
    match stmt with
    | DeleteUserSkills u => Ok (filter (fun r => negb (us_user_id r =? u)) t)
    | InsertUserSkill row => Ok (t ++ [row])
    end
  else Raise (DatabaseError "statement refused").

(** The body of a [with engine.begin() as conn:] block, statement by
    statement on the transaction's own view [working].  [committed] is
    what every other connection reads; it is recorded after each
    statement. *)
Fixpoint run_statements (stmts : list statement)
  (committed working : list user_skill)
  : result (list user_skill) * list (list user_skill) :=
  match stmts with
  | [] => (Ok working, [])
  | stmt :: rest =>
      match execute stmt working with
      | Raise e => (Raise e, [committed])
      | Ok working' =>
          let (r, seen) := run_statements rest committed working' in
          (r, committed :: seen)
      end
  end.

(** [engine.begin()]: commit when the block ends, roll back when it
    raises.  Returns the outcome, the committed table afterwards and the
    committed tables other connections could read while it ran. *)
Definition transaction (stmts : list statement) (committed : list user_skill)
  : result unit * list user_skill * list (list user_skill) :=
  match run_statements stmts committed committed with
  | (Ok working, seen) => (Ok tt, working, seen)
  | (Raise e, seen) => (Raise e, committed, seen)
  end.

(** Lines 104-108: the row and the [INSERT] of one match
    [(sid, name, sim)]. *)
Definition row_of (user_id : Z) (m : Analyzer.match_t) : user_skill :=
  mk_user_skill user_id (Analyzer.match_id m) (Analyzer.match_score m).

Definition insert_of (user_id : Z) (m : Analyzer.match_t) : statement :=
  InsertUserSkill (row_of user_id m).

Definition save_user_skills (user_id : Z) (matched_skills : list Analyzer.match_t)
  (committed : list user_skill)
  : result unit * list user_skill * list (list user_skill) :=
  transaction
    (DeleteUserSkills user_id :: map (insert_of user_id) matched_skills)
    committed.

End Transaction.

(** The table after a complete replacement of the user's rows. *)
Definition replaced (user_id : Z) (matched_skills : list Analyzer.match_t)
  (t : list user_skill) : list user_skill :=
  filter (fun r => negb (us_user_id r =? user_id)) t
  ++ map (row_of user_id) matched_skills.

(** *** [compute_gap] *)

(** SQL [text LIKE pattern]: [%] is any run of characters, [_] any one
    character, a backslash takes the next character literally. *)
Fixpoint like (pattern text : string) : bool :=
  match pattern with
  | EmptyString =>
      match text with
      | EmptyString => true
      | String _ _ => false
      end
  | String c p' =>
      if Ascii.eqb c "%" then
        (fix any_run (t : string) : bool :=
           like p' t
           || match t with
              | EmptyString => false
              | String _ t' => any_run t'
              end) text
      else if Ascii.eqb c "_" then
        match text with
        | EmptyString => false
        | String _ t' => like p' t'
        end
      else if Ascii.eqb c "\" then
        match p' with
        | EmptyString =>
            match text with
            | String d EmptyString => Ascii.eqb d "\"
            | _ => false
            end
        | String c2 p'' =>
            match text with
            | EmptyString => false
            | String d t' => Ascii.eqb c2 d && like p'' t'
            end
        end
      else
        match text with
        | EmptyString => false
        | String d t' => Ascii.eqb c d && like p' t'
        end
  end.

(** [needle] occurs in [hay]. *)
Fixpoint contains (needle hay : string) : bool :=
  String.prefix needle hay
  || match hay with
     | EmptyString => false
     | String _ hay' => contains needle hay'
     end.

(** [(skill_id, name, freq)] *)
Definition gap_entry : Type := (Z * string * Z)%type.

Definition gap_id (g : gap_entry) : Z := fst (fst g).
Definition gap_name (g : gap_entry) : string := snd (fst g).
Definition gap_freq (g : gap_entry) : Z := snd g.

(** [FROM skills s JOIN job_skills js ON ... JOIN jobs j ON ...] *)
Definition joined (db : database) : list (skill_rec * job_skill * job) :=
  flat_map (fun s =>
    flat_map (fun js =>
      if s_skill_id s =? js_skill_id js then
        flat_map (fun j =>
          if js_job_id js =? job_id j then [(s, js, j)] else []) (jobs db)
      else []) (job_skills db)) (skills db).

(** [s.skill_id NOT IN (SELECT us.skill_id FROM user_skills us WHERE
    us.user_id = :user_id)] *)
Definition not_recorded (db : database) (user_id sid : Z) : bool :=
  negb (existsb (fun us => (us_user_id us =? user_id) && (us_skill_id us =? sid))
          (user_skills db)).

(** [LOWER(j.title) LIKE :pattern], which is not true of a [NULL]
    title. *)
Definition title_like (pattern : string) (j : job) : bool :=
  match title j with
  | Some t => like pattern (Py.lower t)
  | None => false
  end.

(** The [WHERE] clause. *)
Definition selected (db : database) (pattern : string) (user_id : Z)
  (r : skill_rec * job_skill * job) : bool :=
  title_like pattern (snd r)
  && not_recorded db user_id (s_skill_id (fst (fst r))).

(** [GROUP BY s.skill_id, s.name] with [COUNT(js.job_id)]: one more row
    for the group of [(sid, nm)]. *)
Fixpoint count_row (sid : Z) (nm : string) (groups : list gap_entry)
  : list gap_entry :=
  match groups with
  | [] => [(sid, nm, 1)]
  | g :: groups' =>
      if (gap_id g =? sid) && String.eqb (gap_name g) nm
      then (sid, nm, gap_freq g + 1) :: groups'
      else g :: count_row sid nm groups'
  end.

Definition group_count (rs : list (skill_rec * job_skill * job)) : list gap_entry :=
  fold_left (fun groups r =>
               count_row (s_skill_id (fst (fst r))) (s_name (fst (fst r))) groups)
    rs [].

Section Query.

(** [ORDER BY freq DESC] leaves the order of rows of one frequency to
    the datastore: [tie_first h g] tells whether it puts [h] before [g]
    when the group of [g] was built first.  The choice can differ from
    one execution to the next. *)
Variable tie_first : gap_entry -> gap_entry -> bool.

Fixpoint insert_freq (g : gap_entry) (l : list gap_entry) : list gap_entry :=
  match l with
  | [] => [g]
  | h :: l' =>
      if gap_freq g <? gap_freq h then h :: insert_freq g l'
      else if (gap_freq g =? gap_freq h) && tie_first h g
           then h :: insert_freq g l'
           else g :: h :: l'
  end.

Fixpoint order_by_freq (l : list gap_entry) : list gap_entry :=
  match l with
  | [] => []
  | g :: l' => insert_freq g (order_by_freq l')
  end.

(** [compute_gap]; the datastore refuses a negative [LIMIT].  The second
    component is the database after the call. *)
Definition compute_gap (db : database) (user_id : Z) (role_pattern : string)
  (top_n : Z) : result (list gap_entry) * database :=
  let pattern := ("%" ++ Py.lower role_pattern ++ "%")%string in
  if top_n <? 0 then (Raise (DatabaseError "syntax error near LIMIT"), db)
  else
    let rows :=
      order_by_freq (group_count (filter (selected db pattern user_id) (joined db))) in
    (Ok (firstn (Z.to_nat top_n) rows), db).

End Query.

End Db.

(* ------------------------------------------------------------------ *)
(** ** [src/ai/generate_roadmap.py] *)

Module Roadmap.

(** The pydantic models of the structured output. *)
Record Goal : Type := mk_goal { goal : string; resources : list string }.
Record PlanPeriod : Type := mk_period {
  period : string;
  focus : string;
  tasks : list Goal
}.
Record Roadmap : Type := mk_roadmap { skill : string; plan : list PlanPeriod }.

(** What one slot of the aggregate holds: a plan, or the payload
    [{"error": ..., "details": ...}]. *)
Inductive slot : Type :=
| Plan (r : Roadmap)
| ErrorPayload (error details : string).

(** The arguments of one [chain.invoke]. *)
Record request : Type := mk_request {
  skill_name : string;
  importance : Z;
  user_summary : string;
  duration : string
}.

(** [executor] hands the futures back in the order they complete:
    [schedule] picks, at each turn, which pending future completes next. *)
Fixpoint remove_nth {A : Type} (i : nat) (l : list A) : list A :=
  match l, i with
  | [], _ => []
  | _ :: l', O => l'
  | x :: l', S i' => x :: remove_nth i' l'
  end.

Fixpoint as_completed {A : Type} (schedule : list nat) (pending : list A)
  : list A :=
  match schedule with
  | [] => pending
  | n :: schedule' =>
      match pending with
      | [] => []
      | x :: _ =>
          let i := Nat.modulo n (List.length pending) in
          nth i pending x :: as_completed schedule' (remove_nth i pending)
      end
  end.

Section Llm.

(** [chain.invoke]: prompt, model and output parser; raises on a failed
    request or an unparsable answer. *)
Variable invoke : request -> result Roadmap.

(** Lines 54-77; [sent] is the log of the requests made to the model. *)
Definition create_single_roadmap (skill_name : string) (importance : Z)
  (user_summary duration : string) (sent : list request)
  : slot * list request :=
  let req := mk_request skill_name importance user_summary duration in
  (match invoke req with
   | Ok r => Plan r
   | Raise e =>
       ErrorPayload ("Failed to generate roadmap for " ++ skill_name)%string
         (str_of_error e)
   end,
   sent ++ [req]).

(** Lines 88-91: one task per skill; the results in submission order. *)
Fixpoint submit_all (user_summary duration : string)
  (skills_to_plan : list (string * Z)) (sent : list request)
  : list slot * list request :=
  match skills_to_plan with
  | [] => ([], sent)
  | (name, imp) :: rest =>
      let (s, sent') := create_single_roadmap name imp user_summary duration sent in
      let (ss, sent'') := submit_all user_summary duration rest sent' in
      (s :: ss, sent'')
  end.

(** Lines 79-95.  A pool of zero workers cannot be created. *)
Definition generate_roadmap (schedule : list nat) (user_summary : string)
  (missing_skills : list (string * Z)) (duration : string)
  (sent : list request) : result (list slot) * list request :=
  let skills_to_plan := Py.slice_to missing_skills 3 in
  match skills_to_plan with
  | [] => (Raise (ValueError "max_workers must be greater than 0"), sent)
  | _ :: _ =>
      let (futures, sent') := submit_all user_summary duration skills_to_plan sent in
      (Ok (as_completed schedule futures), sent')
  end.

End Llm.

End Roadmap.

(* ------------------------------------------------------------------ *)
(** ** The notions the specification speaks in *)

Module Notions.

Import Analyzer.

(** [a] stands before [b] in [l]. *)
Definition before {A : Type} (a b : A) (l : list A) : Prop :=
  exists l1 l2 l3, l = l1 ++ a :: l2 ++ b :: l3.

(** The maximum chunk similarity of a skill, where it is defined. *)
Definition best_sim (chunk_embeddings : Np.matrix) (s : skill) : option float :=
  match emb_array s with
  | None => None
  | Some [] => None
  | Some emb =>
      match cosine_sims chunk_embeddings emb with
      | Ok sims =>
          match Np.max sims with
          | Ok m => Some m
          | Raise _ => None
          end
      | Raise _ => None
      end
  end.

(** A skill whose maximum chunk similarity is at least the threshold. *)
Definition qualifies (chunk_embeddings : Np.matrix) (sim_threshold : float)
  (s : skill) : bool :=
  match best_sim chunk_embeddings s with
  | Some m => F64.geb m sim_threshold
  | None => false
  end.

(** The match a qualifying skill gives. *)
Definition match_of (chunk_embeddings : Np.matrix) (s : skill) : match_t :=
  (skill_id s, name s,
   match best_sim chunk_embeddings s with
   | Some m => m
   | None => S754_nan
   end).

(** The dictionary item a qualifying skill writes. *)
Definition entry_of (chunk_embeddings : Np.matrix) (s : skill) : sim_entry :=
  mk_entry (skill_id s) (match_score (match_of chunk_embeddings s)).

(** The loop of lines 77-92 when no similarity raises. *)
Definition fill (chunk_embeddings : Np.matrix) (sim_threshold : float)
  (skill_rows : list skill) (d : Py.dict sim_entry) : Py.dict sim_entry :=
  fold_left (fun d s =>
               if qualifies chunk_embeddings sim_threshold s
               then Py.dict_set (name s) (entry_of chunk_embeddings s) d
               else d)
    skill_rows d.

(** The last qualifying row of a name. *)
Definition last_qualifying (chunk_embeddings : Np.matrix) (sim_threshold : float)
  (skill_rows : list skill) (k : string) : option skill :=
  find (fun s => qualifies chunk_embeddings sim_threshold s && String.eqb (name s) k)
    (rev skill_rows).

(** Lines 94-96 on the dictionary of [fill]: the ranking before the cut
    to [top_k]. *)
Definition ranked (chunk_embeddings : Np.matrix) (sim_threshold : float)
  (skill_rows : list skill) : list match_t :=
  map item_match
    (Py.sorted_desc item_sim (fill chunk_embeddings sim_threshold skill_rows [])).

(** The number of qualifying skills of a call (none when there is no
    chunk to compare with). *)
Definition qualifying_count (encode : list string -> Np.matrix)
  (skill_rows : list skill) (text : string) (sim_threshold : float)
  (chunk_size chunk_overlap : Z) : Z :=
  match chunk_text text chunk_size chunk_overlap with
  | Ok (c :: chunks) =>
      Z.of_nat (List.length
                  (filter (qualifies (encode (c :: chunks)) sim_threshold) skill_rows))
  | _ => 0
  end.

(** [a] may stand before [b] in descending key order. *)
Definition desc {A : Type} (key : A -> float) (a b : A) : Prop :=
  F64.geb (key a) (key b) = true.

(** Non-increasing scores. *)
Definition sorted_by_score (out : list match_t) : Prop :=
  StronglySorted (desc match_score) out.

(** Matches of equal score stand in the order of their vocabulary rows. *)
Definition ties_in_vocabulary_order (skill_rows : list skill)
  (out : list match_t) : Prop :=
  forall a b,
    before a b out ->
    F64.eqb (match_score a) (match_score b) = true ->
    exists sa sb,
      before sa sb skill_rows
      /\ skill_id sa = match_id a /\ name sa = match_name a
      /\ skill_id sb = match_id b /\ name sb = match_name b.

(** The guarantee of the matcher as the specification words it. *)
Definition matcher_guarantee (encode : list string -> Np.matrix)
  (skill_rows : list skill) (text : string) (top_k : Z) (sim_threshold : float)
  (chunk_size chunk_overlap : Z) : Prop :=
  forall out,
    extract_skills_from_text encode skill_rows text top_k sim_threshold
      chunk_size chunk_overlap = Ok out ->
    NoDup (map match_id out)
    /\ sorted_by_score out
    /\ ties_in_vocabulary_order skill_rows out
    /\ Z.of_nat (List.length out)
       <= Z.min top_k
            (qualifying_count encode skill_rows text sim_threshold
               chunk_size chunk_overlap).

(** An embedding of magnitude zero: every component is a zero. *)
Definition zero_magnitude (emb : Np.vec) : bool := forallb F64.is_zero emb.

(** A float that is a zero or a NaN. *)
Definition zero_or_nan (x : float) : bool := F64.is_zero x || F64.is_nan x.

(** Rejecting chunk parameters, as the specification words it. *)
Definition rejects_chunk_parameters (encode : list string -> Np.matrix)
  (skill_rows : list skill) (text : string) (top_k : Z) (sim_threshold : float)
  (chunk_size chunk_overlap : Z) : Prop :=
  chunk_overlap >= chunk_size ->
  exists e,
    extract_skills_from_text encode skill_rows text top_k sim_threshold
      chunk_size chunk_overlap = Raise e.


(** What the linking loop computes for one row of the vocabulary against
    the embedding of the posting: the similarity, [None] where the loop
    passes the row over; whether it links the row; and the link. *)
Definition link_sim (vdot : Np.vec -> Np.vec -> float) (vnorm : Np.vec -> float)
  (job_emb : Np.vec) (s : skill) : option float :=
  match emb_array s with
  | None => None
  | Some [] => None
  | Some emb =>
      match Ingest.cosine vdot vnorm job_emb emb with
      | Ok sim => Some sim
      | Raise _ => None
      end
  end.

Definition linked (vdot : Np.vec -> Np.vec -> float) (vnorm : Np.vec -> float)
  (job_emb : Np.vec) (sim_threshold : float) (s : skill) : bool :=
  match link_sim vdot vnorm job_emb s with
  | Some sim => F64.geb sim sim_threshold
  | None => false
  end.

Definition link_of (vdot : Np.vec -> Np.vec -> float) (vnorm : Np.vec -> float)
  (job_id : Z) (job_emb : Np.vec) (s : skill) : Ingest.link :=
  (job_id, skill_id s,
   match link_sim vdot vnorm job_emb s with
   | Some sim => sim
   | None => S754_nan
   end).


(** The calls of a run that raised. *)
Definition count_raised {A : Type} (rs : list (result A)) : nat :=
  List.length (filter (fun r => match r with Raise _ => true | Ok _ => false end) rs).

Definition some_ok {A : Type} (rs : list (result A)) : bool :=
  existsb (fun r => match r with Ok _ => true | Raise _ => false end) rs.

(** The request of one planned skill and the slot its outcome fills. *)
Definition request_of (user_summary duration : string) (s : string * Z)
  : Roadmap.request :=
  Roadmap.mk_request (fst s) (snd s) user_summary duration.

Definition slot_of (invoke : Roadmap.request -> result Roadmap.Roadmap)
  (user_summary duration : string) (s : string * Z) : Roadmap.slot :=
  match invoke (request_of user_summary duration s) with
  | Ok r => Roadmap.Plan r
  | Raise e =>
      Roadmap.ErrorPayload ("Failed to generate roadmap for " ++ fst s)%string
        (str_of_error e)
  end.

(** The grouping key [(skill_id, name)] of a joined row and of a result
    row, and their comparison. *)
Definition row_key (r : Db.skill_rec * Db.job_skill * Db.job) : Z * string :=
  (Db.s_skill_id (fst (fst r)), Db.s_name (fst (fst r))).

Definition gap_key (g : Db.gap_entry) : Z * string := (Db.gap_id g, Db.gap_name g).

Definition key_eqb (a b : Z * string) : bool :=
  (fst a =? fst b) && String.eqb (snd a) (snd b).

(** The number of rows of a key. *)
Definition rows_of_key (k : Z * string)
  (rs : list (Db.skill_rec * Db.job_skill * Db.job)) : nat :=
  List.length (filter (fun r => key_eqb (row_key r) k) rs).

(** What the groups are after the rows [p] have been counted. *)
Definition counted (groups : list Db.gap_entry)
  (p : list (Db.skill_rec * Db.job_skill * Db.job)) : Prop :=
  NoDup (map gap_key groups)
  /\ (forall g, In g groups ->
        Db.gap_freq g = Z.of_nat (rows_of_key (gap_key g) p)
        /\ (1 <= rows_of_key (gap_key g) p)%nat)
  /\ (forall r, In r p -> In (row_key r) (map gap_key groups)).

(** Descending frequency. *)
Definition by_freq (a b : Db.gap_entry) : Prop := Db.gap_freq b <= Db.gap_freq a.

(** A text without the metacharacters of [LIKE]. *)
Fixpoint plain (s : string) : bool :=
  match s with
  | EmptyString => true
  | String c s' =>
      negb (Ascii.eqb c "%") && negb (Ascii.eqb c "_") && negb (Ascii.eqb c "\")
      && plain s'
  end.


(** An integer quotient rounded up, for a positive divisor. *)
Definition ceil_div (a b : Z) : Z := (a + b - 1) / b.

End Notions.

(* ------------------------------------------------------------------ *)
(** ** Concrete inputs *)

Module Sample.

Import Analyzer.

Definition one : float := F64.of_Z 1.
Definition half : float := F64.ratio 1 2.

(** The default thresholds of the two call sites. *)
Definition resume_threshold : float := F64.ratio 35 100.
Definition job_threshold : float := F64.ratio 25 100.

(** An embedder that maps every chunk to [(1, 0)]. *)
Definition encode_east (chunks : list string) : Np.matrix :=
  map (fun _ => [one; F64.zero]) chunks.

Definition python_java : list skill :=
  [mk_skill 1 "python" (Some [one; F64.zero]);
   mk_skill 2 "java" (Some [F64.zero; one])].

(** Two rows of one skill id under two names. *)
Definition two_names_one_id : list skill :=
  [mk_skill 7 "python" (Some [one; F64.zero]);
   mk_skill 7 "py" (Some [one; F64.zero])].

(** Two rows of one name; the earlier one is the closer. *)
Definition one_name_two_ids : list skill :=
  [mk_skill 1 "sql" (Some [one; F64.zero]);
   mk_skill 2 "sql" (Some [one; one])].

(** A tie between rows 3 and 2, where row 3 shares its name with row 1. *)
Definition tie_after_rename : list skill :=
  [mk_skill 1 "sql" (Some [one; F64.zero]);
   mk_skill 2 "docker" (Some [one; F64.zero]);
   mk_skill 3 "sql" (Some [one; F64.zero])].

(** A row whose stored embedding is the zero vector. *)
Definition with_zero_row : list skill :=
  [mk_skill 1 "python" (Some [one; F64.zero]);
   mk_skill 9 "nothing" (Some [F64.zero; F64.zero])].

(** The smallest positive binary64 number, [2^-1074]: its square rounds
    to zero. *)
Definition tiny : float := S754_finite false 1 (-1074).

(** Two rows whose similarity to [(1, 0)] rises in vocabulary order. *)
Definition rising : list skill :=
  [mk_skill 1 "sql" (Some [one; one]);
   mk_skill 2 "python" (Some [one; F64.zero])].

(** Three rows that all lie along [(1, 0)]. *)
Definition three_east : list skill :=
  [mk_skill 1 "python" (Some [one; F64.zero]);
   mk_skill 2 "sql" (Some [one; F64.zero]);
   mk_skill 3 "docker" (Some [one; F64.zero])].

(** An embedder that tells the chunk [python sql] from every other
    text. *)
Definition encode_python_sql (chunks : list string) : Np.matrix :=
  map (fun c => if String.eqb c "python sql"
                then [F64.zero; one] else [one; F64.zero]) chunks.

Definition north : list skill := [mk_skill 4 "python" (Some [F64.zero; one])].


(** A datastore that always answers with one row, one that is down for
    the first query only, and a parser that rejects every text. *)
Definition one_row : list Cache.skill_row := [Cache.mk_row 1 "python" None].


Definition datastore_down_once (n : nat) : result (list Cache.skill_row) :=
  match n with
  | O => Raise (DatabaseError "connection refused")
  | S _ => Ok one_row
  end.

Definition no_json (s : string) : option Np.vec := None.

(** A datastore whose only constraint is the primary key
    [(user_id, skill_id)] of [user_skills]. *)
Definition primary_key (stmt : Db.statement) (t : list Db.user_skill) : bool :=
  match stmt with
  | Db.DeleteUserSkills _ => true
  | Db.InsertUserSkill row =>
      negb (existsb (fun r => (Db.us_user_id r =? Db.us_user_id row)
                              && (Db.us_skill_id r =? Db.us_skill_id row)) t)
  end.

Definition stored : list Db.user_skill :=
  [Db.mk_user_skill 5 1 half; Db.mk_user_skill 6 2 one; Db.mk_user_skill 5 3 one].

(** A model that answers every request but the one for [docker]. *)
Definition plan_for (name : string) : Roadmap.Roadmap :=
  Roadmap.mk_roadmap name
    [Roadmap.mk_period "Week 1" "foundations"
       [Roadmap.mk_goal "read the tutorial" ["official documentation"]]].

Definition invoke_but_docker (req : Roadmap.request) : result Roadmap.Roadmap :=
  if String.eqb (Roadmap.skill_name req) "docker"
  then Raise (OtherError "rate limit exceeded")
  else Ok (plan_for (Roadmap.skill_name req)).

Definition four_missing : list (string * Z) :=
  [("sql", 3); ("docker", 1); ("aws", 1); ("kafka", 1)].

(** A datastore that returns rows of one frequency in the order their
    groups were built, and one that returns them the other way round. *)
Definition group_order (h g : Db.gap_entry) : bool := false.
Definition reverse_order (h g : Db.gap_entry) : bool := true.

(** The scenario of the specification: [sql] in three engineering
    postings, [docker] in one, and user 5 without recorded skills. *)
Definition postings : Db.database :=
  Db.mk_database
    [Db.mk_skill_rec 1 "docker"; Db.mk_skill_rec 2 "sql"; Db.mk_skill_rec 3 "excel"]
    [Db.mk_job 10 (Some "Data Engineer"); Db.mk_job 11 (Some "Software ENGINEER");
     Db.mk_job 12 (Some "engineering manager"); Db.mk_job 13 (Some "Accountant")]
    [Db.mk_job_skill 10 2; Db.mk_job_skill 10 1; Db.mk_job_skill 11 2;
     Db.mk_job_skill 12 2; Db.mk_job_skill 13 3; Db.mk_job_skill 13 2]
    [Db.mk_user_skill 6 2 one].

(** The same with one more posting, stored without a title and linked
    to [docker]. *)
Definition with_untitled : Db.database :=
  Db.mk_database (Db.skills postings) (Db.jobs postings ++ [Db.mk_job 14 None])
    (Db.job_skills postings ++ [Db.mk_job_skill 14 1]) (Db.user_skills postings).

End Sample.

(* ------------------------------------------------------------------ *)
(** ** Further notions *)

Module Terms.

Import Analyzer.

(** A vocabulary row the matcher can score: its embedding is present and
    not empty. *)
Definition usable (s : skill) : bool :=
  match emb_array s with
  | Some (_ :: _) => true
  | _ => false
  end.

(** The window of words the [k]-th chunk is made of. *)
Definition window (words : list string) (chunk_size chunk_overlap : Z) (k : nat)
  : list string :=
  Py.slice words (Z.of_nat k * (chunk_size - chunk_overlap))
    (Z.of_nat k * (chunk_size - chunk_overlap) + chunk_size).

(** A word as [str.split] gives it: not empty, no whitespace inside. *)
Fixpoint no_space (w : string) : bool :=
  match w with
  | EmptyString => true
  | String c w' => negb (Py.isspace c) && no_space w'
  end.

Definition is_word (w : string) : Prop := w <> "" /\ no_space w = true.

End Terms.

(* ------------------------------------------------------------------ *)
(** ** [src/etl/ingest_jobs_and_skills.py]: seeding the vocabulary *)

Module Etl.

(** [s.lstrip()], [s.rstrip()] and [s.strip()] *)
Fixpoint lstrip (s : string) : string :=
  match s with
  | EmptyString => EmptyString
  | String c s' => if Py.isspace c then lstrip s' else s
  end.

Fixpoint rstrip (s : string) : string :=
  match s with
  | EmptyString => EmptyString
  | String c s' =>
      match rstrip s' with
      | EmptyString => if Py.isspace c then EmptyString else String c EmptyString
      | r => String c r
      end
  end.

Definition strip (s : string) : string := rstrip (lstrip s).

(** [Series.unique()]: the values in order of first appearance; [seen]
    holds the values met so far. *)
Fixpoint unique_from (seen : list string) (l : list string) : list string :=
  match l with
  | [] => []
  | x :: l' =>
      if existsb (String.eqb x) seen then unique_from seen l'
      else x :: unique_from (x :: seen) l'
  end.

Definition unique (l : list string) : list string := unique_from [] l.

(** [Series.dropna()] on a column whose missing cells are [None]. *)
Fixpoint dropna (cells : list (option string)) : list string :=
  match cells with
  | [] => []
  | Some s :: cells' => s :: dropna cells'
  | None :: cells' => dropna cells'
  end.

(** Line 45: [skills_df["skill"].dropna().str.strip().str.lower()
    .unique().tolist()] *)
Definition clean_skills (cells : list (option string)) : list string :=
  unique (map Py.lower (map strip (dropna cells))).

(** A column as [pd.read_csv] types it: of object dtype, its cells
    strings or missing, or of another dtype (numbers only, or nothing but
    missing cells), where the [.str] accessor raises. *)
Inductive column : Type :=
| Objects (cells : list (option string))
| OtherDtype.

(** What [pd.read_csv(skills_csv)] finds: no file, or a table with or
    without a [skill] column. *)
Inductive skills_csv : Type :=
| NoFile
| Table (skill_column : option column).

(** The [skills] table: the columns the code reads back
    ([canonical_name] is written equal to [name]) and the counter of the
    auto-increment key. *)
Record skills_table : Type := mk_table {
  table_rows : list Cache.skill_row;
  next_skill_id : Z
}.

(** The statements of the seeding transaction. *)
Inductive statement : Type :=
| DeleteSkills
| InsertIgnoreSkill (name : string) (embedding : string).

Section Seeding.

(** [embedder.encode(skills, show_progress_bar=True)], which may raise,
    and [json.dumps(emb.tolist())]. *)
Variable encode : list string -> result Np.matrix.
Variable json_dumps : Np.vec -> string.

(** Whether the datastore carries out a statement (a foreign key or the
    connection can refuse it), and whether it skips an [INSERT IGNORE]
    (a duplicate key). *)
Variable accepts : statement -> skills_table -> bool.
Variable ignores : string -> skills_table -> bool.

(** Whether a skipped [INSERT IGNORE] uses up a value of the key all the
    same (it depends on the storage engine). *)
Variable burns_id : bool.

Definition execute (stmt : statement) (t : skills_table) : result skills_table :=
  if accepts stmt t then
    match stmt with
    | DeleteSkills => Ok (mk_table [] (next_skill_id t))
    | InsertIgnoreSkill name embedding =>
        if ignores name t
        then Ok (mk_table (table_rows t)
                   (if burns_id then next_skill_id t + 1 else next_skill_id t))
        else Ok (mk_table
                   (table_rows t
                    ++ [Cache.mk_row (next_skill_id t) name (Some embedding)])
                   (next_skill_id t + 1))
    end
  else Raise (DatabaseError "statement refused").

Fixpoint execute_all (stmts : list statement) (t : skills_table)
  : result skills_table :=
  match stmts with
  | [] => Ok t
  | stmt :: rest => t' <- execute stmt t ;; execute_all rest t'
  end.

(** Lines 60-64: one [INSERT IGNORE] per pair of [zip(skills,
    embeddings)]. *)
Definition inserts (skills : list string) (embeddings : Np.matrix)
  : list statement :=
  map (fun p => InsertIgnoreSkill (fst p) (json_dumps (snd p)))
    (combine skills embeddings).

(** [seed_skills]: the outcome and the committed table afterwards.  An
    exception inside the [with engine.begin()] block becomes
    [SystemExit] and the block rolls back. *)
Definition seed_skills (csv : skills_csv) (committed : skills_table)
  : result unit * skills_table :=
  match csv with
  | NoFile => (Raise (OtherError "[ERROR] Skills CSV file not found"), committed)
  | Table None =>
      (Raise (ValueError "[ERROR] 'skill' column not found in skills CSV"), committed)
  | Table (Some OtherDtype) =>
      (Raise (OtherError "Can only use .str accessor with string values!"),
       committed)
  | Table (Some (Objects cells)) =>
      match clean_skills cells with
      | [] => (Ok tt, committed)
      | skills =>
          match encode skills with
          | Raise e =>
              (Raise (OtherError ("[ERROR] Failed to generate embeddings: "
                                  ++ str_of_error e)), committed)
          | Ok embeddings =>
              match execute_all (DeleteSkills :: inserts skills embeddings) committed with
              | Ok t => (Ok tt, t)
              | Raise e =>
                  (Raise (OtherError ("[ERROR] Failed to seed skills table: "
                                      ++ str_of_error e)), committed)
              end
          end
      end
  end.

End Seeding.

End Etl.

(* ------------------------------------------------------------------ *)
(** ** [src/api/app.py] and [parse_pdf_text] *)

Module App.

(** The defaults of [extract_skills_from_text] and [compute_gap]. *)
Definition default_sim_threshold : float := F64.ratio 35 100.
Definition default_chunk_size : Z := 100.
Definition default_chunk_overlap : Z := 20.
Definition default_top_n : Z := 15.

(** [parse_pdf_text]: [pages] is what opening the file and reading the
    text of its pages gives; any exception there gives the empty
    string. *)
Definition parse_pdf_text (pages : result (list string)) : string :=
  match pages with
  | Ok texts => Py.lower (String.concat "" texts)
  | Raise _ => ""
  end.

Record user : Type := mk_user { user_id : Z; user_name : string; email : string }.

Record resume : Type := mk_resume {
  resume_user_id : Z;
  filename : string;
  parsed_text : string
}.

Record recommendation : Type := mk_recommendation {
  rec_user_id : Z;
  rec_summary : string;
  rec_details : list Roadmap.slot
}.

(** The committed tables the endpoints write, the counter of the
    [users] key, the cache of the process and the log of the requests
    made to the language model. *)
Record state : Type := mk_state {
  users : list user;
  next_user_id : Z;
  resumes : list resume;
  user_skills : list Db.user_skill;
  recommendations : list recommendation;
  process : Cache.process;
  sent : list Roadmap.request
}.

(** The body of a response. *)
Inductive response : Type :=
| Uploaded (uid : Z) (matched_skills : list (string * float))
| MissingSkills (missing : list (string * Z))
| NoRoadmap
| RoadmapMade (plan : list Roadmap.slot).

(** [SELECT user_id FROM users WHERE email=:e], [.first()] *)
Definition find_user (e : string) (us : list user) : option user :=
  find (fun u => String.eqb (email u) e) us.

Section Endpoints.

Variable encode : list string -> Np.matrix.
Variable json_loads : string -> option Np.vec.
Variable datastore : nat -> result (list Cache.skill_row).
Variable accepts : Db.statement -> list Db.user_skill -> bool.
Variable invoke : Roadmap.request -> result Roadmap.Roadmap.

(** Whether [INSERT IGNORE INTO users] skips the row (an email that is
    already there, under a unique key), and whether a skipped row uses up
    a value of the key all the same (it depends on the storage engine). *)
Variable ignores_user : string -> list user -> bool.
Variable burns_user_id : bool.

(** Whether the datastore carries out the statements of step 1 and the
    [INSERT INTO resumes] of step 3 (the connection or a constraint can
    refuse them). *)
Variable accepts_user : string -> string -> list user -> bool.
Variable accepts_resume : resume -> list resume -> bool.

(** Step 1 of [upload_resume], lines 29-38, one transaction: the users
    table afterwards and the id found; no row under the email is a
    [TypeError] on [row["user_id"]].  A failure rolls the block back. *)
Definition create_or_find_user (name e : string) (st : state)
  : result Z * state :=
  if accepts_user name e (users st) then
    let st1 :=
      if ignores_user e (users st)
      then mk_state (users st)
             (if burns_user_id then next_user_id st + 1 else next_user_id st)
             (resumes st) (user_skills st) (recommendations st) (process st)
             (sent st)
      else mk_state (users st ++ [mk_user (next_user_id st) name e])
             (next_user_id st + 1) (resumes st) (user_skills st)
             (recommendations st) (process st) (sent st) in
    match find_user e (users st1) with
    | Some u => (Ok (user_id u), st1)
    | None => (Raise (OtherError "'NoneType' object is not subscriptable"), st)
    end
  else (Raise (DatabaseError "statement refused"), st).

(** Steps 1 to 3 of [upload_resume], lines 29-54: the user, the
    temporary file ([temp_file] is what writing the upload to it and
    removing it again gives, an [OSError] included) and the row of
    [resumes], which is a transaction of its own. *)
Definition store_resume (name e fname : string) (temp_file : result unit)
  (pages : result (list string)) (st : state) : result Z * state :=
  match create_or_find_user name e st with
  | (Raise err, st1) => (Raise err, st1)
  | (Ok uid, st1) =>
      match temp_file with
      | Raise err => (Raise err, st1)
      | Ok _ =>
          let row := mk_resume uid fname (parse_pdf_text pages) in
          if accepts_resume row (resumes st1)
          then (Ok uid,
                mk_state (users st1) (next_user_id st1) (resumes st1 ++ [row])
                  (user_skills st1) (recommendations st1) (process st1)
                  (sent st1))
          else (Raise (DatabaseError "statement refused"), st1)
      end
  end.

(** [upload_resume], lines 27-60.  Each [with engine.begin()] block is a
    transaction of its own: what an earlier block committed stays when a
    later step raises. *)
Definition upload_resume (name e fname : string) (temp_file : result unit)
  (pages : result (list string)) (st : state) : result response * state :=
  match store_resume name e fname temp_file pages st with
  | (Raise err, st1) => (Raise err, st1)
  | (Ok uid, st2) =>
      let (r, proc') :=
        Cache.extract_skills_in_process json_loads datastore encode
          (parse_pdf_text pages) 30
          default_sim_threshold default_chunk_size default_chunk_overlap
          (process st2) in
      let st3 :=
        mk_state (users st2) (next_user_id st2) (resumes st2) (user_skills st2)
          (recommendations st2) proc' (sent st2) in
      match r with
      | Raise err => (Raise err, st3)
      | Ok matched =>
          match Db.save_user_skills accepts uid matched (user_skills st3) with
          | (Raise err, _, _) => (Raise err, st3)
          | (Ok _, saved, _) =>
              (Ok (Uploaded uid
                     (map (fun m => (Analyzer.match_name m, Analyzer.match_score m))
                        matched)),
               mk_state (users st3) (next_user_id st3) (resumes st3) saved
                 (recommendations st3) (process st3) (sent st3))
          end
      end
  end.

(** The order in which the datastore returns gap rows of one
    frequency. *)
Variable tie_first : Db.gap_entry -> Db.gap_entry -> bool.

(** The tables [compute_gap] reads, with the user skills of the state. *)
Definition gap_database (catalog : Db.database) (st : state) : Db.database :=
  Db.mk_database (Db.skills catalog) (Db.jobs catalog) (Db.job_skills catalog)
    (user_skills st).

(** [gap], lines 62-65. *)
Definition gap (catalog : Db.database) (uid : Z) (role : string) (st : state)
  : result response :=
  missing <- fst (Db.compute_gap tie_first (gap_database catalog st) uid role
                    default_top_n) ;;
  Ok (MissingSkills (map (fun m => (Db.gap_name m, Db.gap_freq m)) missing)).

(** [summary or f"A user targeting the role of {role}"] *)
Definition summary_or_default (summary role : string) : string :=
  if String.eqb summary "" then ("A user targeting the role of " ++ role)%string
  else summary.

(** Whether the datastore takes the row of [recommendations] (its
    foreign key can refuse an unknown user). *)
Variable accepts_recommendation : recommendation -> bool.

(** [roadmap], lines 67-94; [schedule] is the order in which the
    requests complete. *)
Definition roadmap (schedule : list nat) (catalog : Db.database) (uid : Z)
  (role summary duration : string) (st : state) : result response * state :=
  match fst (Db.compute_gap tie_first (gap_database catalog st) uid role
               default_top_n) with
  | Raise err => (Raise err, st)
  | Ok [] => (Ok NoRoadmap, st)
  | Ok missing =>
      let missing_formatted :=
        map (fun m => (Db.gap_name m, Db.gap_freq m)) (Py.slice_to missing 3) in
      let user_summary := summary_or_default summary role in
      let (r, sent') :=
        Roadmap.generate_roadmap invoke schedule user_summary missing_formatted
          duration (sent st) in
      let st1 :=
        mk_state (users st) (next_user_id st) (resumes st) (user_skills st)
          (recommendations st) (process st) sent' in
      match r with
      | Raise err => (Raise err, st1)
      | Ok plan =>
          let row :=
            mk_recommendation uid
              ("Roadmap for " ++ role ++ " (" ++ duration ++ ")")%string plan in
          if accepts_recommendation row
          then (Ok (RoadmapMade plan),
                mk_state (users st1) (next_user_id st1) (resumes st1)
                  (user_skills st1) (recommendations st1 ++ [row]) (process st1)
                  (sent st1))
          else (Raise (DatabaseError "statement refused"), st1)
      end
  end.

End Endpoints.

End App.

(* ------------------------------------------------------------------ *)
(** ** The tables as the functions hand them to one another *)

Module Tables.

(** The database with another content of [user_skills]. *)
Definition with_user_skills (db : Db.database) (t : list Db.user_skill)
  : Db.database :=
  Db.mk_database (Db.skills db) (Db.jobs db) (Db.job_skills db) t.

(** The rows of one user. *)
Definition skills_of (user_id : Z) (t : list Db.user_skill) : list Db.user_skill :=
  filter (fun r => Db.us_user_id r =? user_id) t.

(** A joined row whose posting has a title. *)
Definition titled (r : Db.skill_rec * Db.job_skill * Db.job) : bool :=
  match Db.title (snd r) with
  | Some _ => true
  | None => false
  end.

(** The skill id and the weight of a link. *)
Definition link_job_id (l : Ingest.link) : Z := fst (fst l).
Definition link_skill_id (l : Ingest.link) : Z := snd (fst l).
Definition link_weight (l : Ingest.link) : float := snd l.

End Tables.

(* ------------------------------------------------------------------ *)
(** ** Sample data for seeding and for the endpoints *)

Module Fixture.

(** A column with a missing cell and two spellings of one name. *)
Definition skills_column : list (option string) :=
  [Some " Python "; None; Some "SQL"; Some "python"].

(** An embedder that puts [python] on one axis and the rest on the
    other. *)
Definition encode_axes (names : list string) : result Np.matrix :=
  Ok (map (fun n => if String.eqb n "python"
                    then [Sample.one; F64.zero] else [F64.zero; Sample.one]) names).

(** A serializer for vectors of zeros and ones, and its parser. *)
Definition show (x : float) : string :=
  if F64.eqb x Sample.one then "1.0" else "0.0".

Definition dumps (v : Np.vec) : string :=
  ("[" ++ String.concat ", " (map show v) ++ "]")%string.

Definition loads (s : string) : option Np.vec :=
  if String.eqb s "[1.0, 0.0]" then Some [Sample.one; F64.zero]
  else if String.eqb s "[0.0, 1.0]" then Some [F64.zero; Sample.one]
  else None.

(** A datastore that carries out every statement. *)
Definition willing (stmt : Etl.statement) (t : Etl.skills_table) : bool := true.

Definition never_ignores (name : string) (t : Etl.skills_table) : bool := false.

(** A table seeded before. *)
Definition old_table : Etl.skills_table :=
  Etl.mk_table [Cache.mk_row 1 "cobol" None] 2.

End Fixture.

(* ------------------------------------------------------------------ *)
(** ** A sample deployment of the endpoints *)

Module Scenario.

(** A [users] table with a unique key on [email]. *)
Definition unique_email (e : string) (us : list App.user) : bool :=
  existsb (fun u => String.eqb (App.email u) e) us.

Definition vocabulary_rows : list Cache.skill_row :=
  [Cache.mk_row 2 "python" (Some "[1.0, 0.0]");
   Cache.mk_row 3 "sql" (Some "[0.0, 1.0]")].

Definition datastore (n : nat) : result (list Cache.skill_row) := Ok vocabulary_rows.

(** One user, with one skill recorded by an earlier upload. *)
Definition start : App.state :=
  App.mk_state [App.mk_user 1 "Ada" "ada@example.org"] 2 []
    [Db.mk_user_skill 1 3 Sample.half; Db.mk_user_skill 6 2 Sample.one] []
    Cache.fresh [].

Definition any_recommendation (r : App.recommendation) : bool := true.
Definition any_user (name e : string) (us : list App.user) : bool := true.
Definition any_resume (r : App.resume) (rs : list App.resume) : bool := true.

(** A [resumes] table that is read-only. *)
Definition no_resume (r : App.resume) (rs : list App.resume) : bool := false.

(** The upload endpoint of the deployment with a working temporary
    directory; the same with a datastore that is down for the first
    query of the vocabulary; and the same with a read-only [resumes]
    table. *)
Definition upload (name e fname : string) (pages : result (list string))
  (st : App.state) : result App.response * App.state :=
  App.upload_resume Sample.encode_east Fixture.loads datastore Sample.primary_key
    unique_email true any_user any_resume name e fname (Ok tt) pages st.

Definition upload_offline (name e fname : string) (pages : result (list string))
  (st : App.state) : result App.response * App.state :=
  App.upload_resume Sample.encode_east Fixture.loads Sample.datastore_down_once
    Sample.primary_key unique_email true any_user any_resume name e fname (Ok tt)
    pages st.

Definition upload_read_only (name e fname : string) (pages : result (list string))
  (st : App.state) : result App.response * App.state :=
  App.upload_resume Sample.encode_east Fixture.loads datastore Sample.primary_key
    unique_email true any_user no_resume name e fname (Ok tt) pages st.

(** A resume of two pages, and a scan without text. *)
Definition cv : result (list string) := Ok ["Python "; "Developer"].
Definition scan : result (list string) := Ok ["  "; ""].

Definition after_upload : App.state :=
  snd (upload "Ada" "ada@example.org" "cv.pdf" cv start).

Definition after_scan : App.state :=
  snd (upload "Ada L." "ada@example.org" "scan.pdf" scan after_upload).

Definition after_failure : App.state :=
  snd (upload_offline "Ada" "ada@example.org" "cv.pdf" cv start).

Definition after_refusal : App.state :=
  snd (upload_read_only "Ada" "ada@example.org" "cv.pdf" cv start).

(** The roadmap endpoint of the deployment, where the second request to
    complete is reported first. *)
Definition roadmap : Db.database -> Z -> string -> string -> string ->
                     App.state -> result App.response * App.state :=
  App.roadmap Sample.invoke_but_docker Sample.group_order any_recommendation
    [1%nat].

Definition after_roadmap : App.state :=
  snd (roadmap Sample.postings 1 "engineer" "" "90 days" start).

End Scenario.

(* ================================================================== *)
(** * Properties *)

(** ** Order facts of binary64 *)

Ltac fold_pos_compare :=
  repeat match goal with
    | |- context [PosDef.Pos.compare_cont Eq ?x ?y] =>
        change (PosDef.Pos.compare_cont Eq x y) with (Pos.compare x y)
    end.

Lemma compare_antisym (a b : float) :
  SFcompare b a = option_map CompOpp (SFcompare a b).
Proof.
  destruct a as [sa|sa| |sa ma ea], b as [sb|sb| |sb mb eb]; cbn;
    try reflexivity;
    try (destruct sa; reflexivity);
    try (destruct sb; reflexivity);
    try (destruct sa, sb; reflexivity).
  fold_pos_compare.
  rewrite (Pos.compare_antisym ma mb), (Z.compare_antisym ea eb).
  destruct sa, sb; try reflexivity;
    destruct (ea ?= eb); cbn; try reflexivity;
    destruct (ma ?= mb)%positive; reflexivity.
Qed.

Lemma leb_trans (a b c : float) :
  F64.leb a b = true -> F64.leb b c = true -> F64.leb a c = true.
Proof.
  unfold F64.leb, SFleb.
  destruct a as [sa|sa| |sa ma ea], b as [sb|sb| |sb mb eb],
           c as [sc|sc| |sc mc ec];
    cbn; try discriminate; try reflexivity;
    try (destruct sa; try discriminate; try reflexivity);
    try (destruct sb; try discriminate; try reflexivity);
    try (destruct sc; try discriminate; try reflexivity);
    fold_pos_compare.
  all: destruct (Z.compare_spec ea eb), (Z.compare_spec eb ec),
         (Z.compare_spec ea ec);
       try discriminate; try reflexivity; try lia.
  all: destruct (Pos.compare_spec ma mb), (Pos.compare_spec mb mc),
         (Pos.compare_spec ma mc);
       cbn; try discriminate; try reflexivity; lia.
Qed.

Lemma ltb_leb (a b : float) : F64.ltb a b = true -> F64.leb a b = true.
Proof.
  unfold F64.ltb, F64.leb, SFltb, SFleb.
  destruct (SFcompare a b) as [[]|]; congruence.
Qed.

Lemma compare_not_nan (a b : float) :
  F64.is_nan a = false -> F64.is_nan b = false -> SFcompare a b <> None.
Proof.
  destruct a as [sa|sa| |sa ma ea], b as [sb|sb| |sb mb eb]; cbn;
    try discriminate; try (destruct sa; discriminate);
    try (destruct sb; discriminate); congruence.
Qed.

Lemma not_ltb_leb (a b : float) :
  F64.is_nan a = false -> F64.is_nan b = false ->
  F64.ltb a b = false -> F64.leb b a = true.
Proof.
  intros Ha Hb. unfold F64.ltb, F64.leb, SFltb, SFleb.
  rewrite (compare_antisym a b).
  pose proof (compare_not_nan a b Ha Hb) as Hc.
  destruct (SFcompare a b) as [[]|]; cbn; congruence.
Qed.

Lemma eqb_not_ltb (a b : float) : F64.eqb a b = true -> F64.ltb b a = false.
Proof.
  unfold F64.eqb, F64.ltb, SFeqb, SFltb. rewrite (compare_antisym a b).
  destruct (SFcompare a b) as [[]|]; cbn; congruence.
Qed.

Lemma leb_not_nan (a b : float) :
  F64.leb a b = true -> F64.is_nan a = false /\ F64.is_nan b = false.
Proof.
  unfold F64.leb, SFleb.
  destruct a, b; cbn; try discriminate; auto.
Qed.

Lemma geb_not_nan (a t : float) : F64.geb a t = true -> F64.is_nan a = false.
Proof. intros H. apply leb_not_nan in H. tauto. Qed.

(* ------------------------------------------------------------------ *)
(** ** The chunker *)

Import Analyzer Notions.

Lemma ceil_div_step (d s : Z) :
  0 < s -> 0 < d -> ceil_div d s = 1 + ceil_div (d - s) s /\ 0 <= ceil_div (d - s) s.
Proof.
  intros Hs Hd. unfold ceil_div. split.
  - replace (d + s - 1) with ((d - s + s - 1) + 1 * s) by lia.
    rewrite Z.div_add by lia. lia.
  - apply Z.div_pos; lia.
Qed.

Lemma ceil_div_nonpos (d s : Z) : 0 < s -> d <= 0 -> ceil_div d s <= 0.
Proof.
  intros Hs Hd. unfold ceil_div.
  assert ((d + s - 1) / s < 1); [|lia].
  apply Z.div_lt_upper_bound; lia.
Qed.

(** [ceil_div] is the ceiling of the quotient. *)
Lemma ceil_div_is_ceiling (a b : Z) :
  0 < b -> (ceil_div a b - 1) * b < a <= ceil_div a b * b.
Proof.
  intros Hb. unfold ceil_div.
  pose proof (Z.div_mod (a + b - 1) b ltac:(lia)) as Hdm.
  pose proof (Z.mod_pos_bound (a + b - 1) b Hb) as Hm.
  nia.
Qed.

(** The values of an ascending range, in closed form. *)
Lemma range_up_closed (fuel : nat) :
  forall i stop step,
    0 < step -> stop - i <= Z.of_nat fuel ->
    Py.range_up fuel i stop step
    = map (fun k => i + Z.of_nat k * step)
        (seq 0 (Z.to_nat (ceil_div (stop - i) step))).
Proof.
  induction fuel as [|fuel IH]; intros i stop step Hs Hf.
  - cbn [Py.range_up].
    pose proof (ceil_div_nonpos (stop - i) step Hs ltac:(lia)).
    replace (Z.to_nat (ceil_div (stop - i) step)) with 0%nat by lia.
    reflexivity.
  - cbn [Py.range_up]. destruct (i <? stop) eqn:Hlt.
    + apply Z.ltb_lt in Hlt.
      destruct (ceil_div_step (stop - i) step Hs ltac:(lia)) as [Hc Hpos].
      rewrite Hc.
      replace (Z.to_nat (1 + ceil_div (stop - i - step) step))
        with (S (Z.to_nat (ceil_div (stop - i - step) step))) by lia.
      cbn [seq map]. f_equal; [lia|].
      rewrite IH by lia.
      replace (stop - (i + step)) with (stop - i - step) by lia.
      rewrite <- seq_shift, map_map.
      apply map_ext. intros k. lia.
    + apply Z.ltb_ge in Hlt.
      pose proof (ceil_div_nonpos (stop - i) step Hs ltac:(lia)).
      replace (Z.to_nat (ceil_div (stop - i) step)) with 0%nat by lia.
      reflexivity.
Qed.

Lemma range_positive_step (n : nat) (step : Z) :
  0 < step ->
  Py.range 0 (Z.of_nat n) step
  = Ok (map (fun k => Z.of_nat k * step)
          (seq 0 (Z.to_nat (ceil_div (Z.of_nat n) step)))).
Proof.
  intros Hs. unfold Py.range.
  replace (step =? 0) with false by (symmetry; apply Z.eqb_neq; lia).
  replace (0 <? step) with true by (symmetry; apply Z.ltb_lt; lia).
  rewrite range_up_closed by lia.
  replace (Z.of_nat n - 0) with (Z.of_nat n) by lia.
  reflexivity.
Qed.

(** A descending range that starts at its bound or below is empty. *)
Lemma range_down_empty (fuel : nat) (i stop step : Z) :
  i <= stop -> Py.range_down fuel i stop step = [].
Proof.
  intros H. destruct fuel; cbn; [reflexivity|].
  replace (stop <? i) with false by (symmetry; apply Z.ltb_ge; lia).
  reflexivity.
Qed.

Lemma range_negative_step (n : nat) (step : Z) :
  step < 0 -> Py.range 0 (Z.of_nat n) step = Ok [].
Proof.
  intros Hs. unfold Py.range.
  replace (step =? 0) with false by (symmetry; apply Z.eqb_neq; lia).
  replace (0 <? step) with false by (symmetry; apply Z.ltb_ge; lia).
  rewrite range_down_empty by lia. reflexivity.
Qed.

Lemma split_from_all_space (s : string) :
  Py.all_space s = true -> Py.split_from "" s = [].
Proof.
  induction s as [|c s IH]; cbn; [reflexivity|].
  intros H. apply andb_prop in H. destruct H as [Hc Hs].
  rewrite Hc. cbn. auto.
Qed.

(** A slice that starts inside the list and has a positive width is the
    window of that width. *)
Lemma slice_window {A : Type} (l : list A) (i c : Z) :
  0 <= i <= Z.of_nat (List.length l) -> 0 < c ->
  Py.slice l i (i + c) = firstn (Z.to_nat c) (skipn (Z.to_nat i) l).
Proof.
  intros Hi Hc. unfold Py.slice, Py.clip.
  replace (i <? 0) with false by (symmetry; apply Z.ltb_ge; lia).
  replace (i + c <? 0) with false by (symmetry; apply Z.ltb_ge; lia).
  rewrite (Z.min_l i) by lia.
  destruct (Z.le_ge_cases (i + c) (Z.of_nat (List.length l))) as [Hle|Hge].
  - rewrite Z.min_l by lia. f_equal. lia.
  - rewrite Z.min_r by lia.
    rewrite !firstn_all2; try reflexivity; rewrite length_skipn; lia.
Qed.

Lemma nth_map_seq {A : Type} (f : nat -> A) (n k : nat) (d : A) :
  (k < n)%nat -> nth k (map f (seq 0 n)) d = f k.
Proof.
  intros Hk.
  rewrite nth_indep with (d' := f 0%nat) by (rewrite length_map, length_seq; exact Hk).
  rewrite map_nth, seq_nth by exact Hk. reflexivity.
Qed.

Lemma chunk_text_closed (text : string) (chunk_size chunk_overlap : Z) :
  chunk_overlap < chunk_size ->
  chunk_text text chunk_size chunk_overlap
  = Ok (map (fun k =>
               Py.join " "
                 (Py.slice (Py.split text)
                    (Z.of_nat k * (chunk_size - chunk_overlap))
                    (Z.of_nat k * (chunk_size - chunk_overlap) + chunk_size)))
          (seq 0 (Z.to_nat (ceil_div (Z.of_nat (List.length (Py.split text)))
                              (chunk_size - chunk_overlap))))).
Proof.
  intros H. unfold chunk_text.
  rewrite range_positive_step by lia. cbn [bind].
  rewrite map_map. reflexivity.
Qed.

Lemma extract_no_chunks (encode : list string -> Np.matrix)
  (skill_rows : list skill) (text : string) (top_k : Z) (thr : float)
  (chunk_size chunk_overlap : Z) :
  chunk_text text chunk_size chunk_overlap = Ok [] ->
  extract_skills_from_text encode skill_rows text top_k thr chunk_size chunk_overlap
  = Ok [].
Proof.
  intros H. unfold extract_skills_from_text.
  destruct (String.eqb text ""); [reflexivity|].
  destruct skill_rows; [reflexivity|].
  rewrite H. reflexivity.
Qed.

(** C2.  With [chunk_overlap < chunk_size], a document of [w] words gives
    exactly [ceil(w / (chunk_size - chunk_overlap))] chunks; the [k]-th
    is the words of the window that starts at word
    [k * (chunk_size - chunk_overlap)], joined by single spaces (for a
    positive [chunk_size] the window is the next [chunk_size] words); a
    document that is empty or all whitespace gives no chunk, and the
    matcher then returns the empty list. *)
Theorem chunk_count_and_windows
  (text : string) (chunk_size chunk_overlap : Z) :
  chunk_overlap < chunk_size ->
  let words := Py.split text in
  let step := chunk_size - chunk_overlap in
  exists chunks,
    chunk_text text chunk_size chunk_overlap = Ok chunks
    /\ Z.of_nat (List.length chunks) = ceil_div (Z.of_nat (List.length words)) step
    /\ (forall k, (k < List.length chunks)%nat ->
          nth k chunks ""
          = Py.join " " (Py.slice words (Z.of_nat k * step)
                           (Z.of_nat k * step + chunk_size)))
    /\ (0 < chunk_size ->
        forall k, (k < List.length chunks)%nat ->
          nth k chunks ""
          = Py.join " " (firstn (Z.to_nat chunk_size)
                           (skipn (k * Z.to_nat step) words)))
    /\ (Py.all_space text = true ->
        chunks = []
        /\ forall encode skill_rows top_k thr,
             extract_skills_from_text encode skill_rows text top_k thr
               chunk_size chunk_overlap = Ok []).
Proof.
  intros Hlt words step.
  pose proof (chunk_text_closed text chunk_size chunk_overlap Hlt) as Hc.
  fold words step in Hc.
  set (n := Z.to_nat (ceil_div (Z.of_nat (List.length words)) step)) in Hc.
  assert (Hstep : 0 < step) by (unfold step; lia).
  assert (Hn : Z.of_nat n = ceil_div (Z.of_nat (List.length words)) step).
  { unfold n. rewrite Z2Nat.id; [reflexivity|].
    unfold ceil_div. apply Z.div_pos; lia. }
  eexists. split; [exact Hc|].
  rewrite length_map, length_seq.
  assert (Hnth : forall k, (k < n)%nat ->
            nth k (map (fun k0 => Py.join " " (Py.slice words (Z.of_nat k0 * step)
                                      (Z.of_nat k0 * step + chunk_size)))
                     (seq 0 n)) ""
            = Py.join " " (Py.slice words (Z.of_nat k * step)
                             (Z.of_nat k * step + chunk_size))).
  { intros k Hk. rewrite nth_map_seq by exact Hk. reflexivity. }
  split; [exact Hn|]. split; [exact Hnth|]. split.
  - intros Hcs k Hk. rewrite Hnth by exact Hk.
    pose proof (ceil_div_is_ceiling (Z.of_nat (List.length words)) step Hstep) as Hce.
    rewrite slice_window; [| nia | lia].
    do 3 f_equal. nia.
  - intros Hsp.
    assert (Hw : words = []) by (apply split_from_all_space; exact Hsp).
    assert (Hn0 : n = 0%nat).
    { unfold n. rewrite Hw. cbn [List.length Z.of_nat].
      unfold ceil_div. rewrite Z.div_small by lia. reflexivity. }
    rewrite Hn0. cbn [seq map]. split; [reflexivity|].
    intros encode skill_rows top_k thr. apply extract_no_chunks.
    rewrite Hc, Hn0. reflexivity.
Qed.

Lemma chunk_count_and_windows_witness :
  exists chunks,
    chunk_text "python django sql" 100 20 = Ok chunks
    /\ Z.of_nat (List.length chunks) = 1.
Proof.
  destruct (chunk_count_and_windows "python django sql" 100 20 ltac:(lia))
    as (chunks & H1 & H2 & _).
  exists chunks. split; [exact H1|]. rewrite H2. reflexivity.
Defined.

(** The scenario of the specification: three words, size 100, overlap 20. *)
Example chunk_three_words :
  chunk_text "python django sql" 100 20 = Ok ["python django sql"].
Proof. reflexivity. Qed.

(* ------------------------------------------------------------------ *)
(** ** Lists, dictionaries and the sort *)

Lemma before_cons {A : Type} (x a b : A) (l : list A) :
  before a b l -> before a b (x :: l).
Proof.
  intros (l1 & l2 & l3 & ->). exists (x :: l1), l2, l3. reflexivity.
Qed.

Lemma before_head {A : Type} (a b : A) (l : list A) :
  In b l -> before a b (a :: l).
Proof.
  intros H. apply in_split in H. destruct H as (l2 & l3 & ->).
  exists [], l2, l3. reflexivity.
Qed.

Lemma before_inv {A : Type} (x a b : A) (l : list A) :
  before a b (x :: l) -> (a = x /\ In b l) \/ before a b l.
Proof.
  intros (l1 & l2 & l3 & H). destruct l1 as [|y l1]; cbn in H.
  - injection H as -> ->. left. split; [reflexivity|].
    apply in_or_app. right. left. reflexivity.
  - injection H as -> ->. right. exists l1, l2, l3. reflexivity.
Qed.

Lemma before_firstn {A : Type} (n : nat) (a b : A) (l : list A) :
  before a b (firstn n l) -> before a b l.
Proof.
  intros (l1 & l2 & l3 & H).
  exists l1, l2, (l3 ++ skipn n l).
  rewrite <- (firstn_skipn n l) at 1. rewrite H.
  rewrite <- !app_assoc. cbn. rewrite <- !app_assoc. reflexivity.
Qed.

Lemma before_filter {A : Type} (p : A -> bool) (a b : A) (l : list A) :
  before a b (filter p l) -> before a b l.
Proof.
  induction l as [|x l IH]; cbn.
  - intros (l1 & l2 & l3 & H). destruct l1; discriminate.
  - destruct (p x).
    + intros H. apply before_inv in H. destruct H as [[-> Hb]|H].
      * apply before_head. apply filter_In in Hb. tauto.
      * apply before_cons. auto.
    + intros H. apply before_cons. auto.
Qed.

Lemma before_map {A B : Type} (f : A -> B) (a b : B) (l : list A) :
  before a b (map f l) ->
  exists x y, before x y l /\ f x = a /\ f y = b.
Proof.
  induction l as [|z l IH]; cbn.
  - intros (l1 & l2 & l3 & H). destruct l1; discriminate.
  - intros H. apply before_inv in H. destruct H as [[-> Hb]|H].
    + apply in_map_iff in Hb. destruct Hb as (y & Hy & Hin).
      exists z, y. split; [apply before_head; exact Hin|]. auto.
    + destruct (IH H) as (x & y & Hxy & Hx & Hy).
      exists x, y. split; [apply before_cons; exact Hxy|]. auto.
Qed.

Lemma NoDup_map_eq {A B : Type} (f : A -> B) (l : list A) (a b : A) :
  NoDup (map f l) -> In a l -> In b l -> f a = f b -> a = b.
Proof.
  induction l as [|x l IH]; cbn; [tauto|].
  intros Hnd Ha Hb Hf. inversion Hnd as [|? ? Hx Hnd']; subst.
  destruct Ha as [->|Ha], Hb as [->|Hb]; auto.
  - exfalso. apply Hx. rewrite Hf. apply in_map. exact Hb.
  - exfalso. apply Hx. rewrite <- Hf. apply in_map. exact Ha.
Qed.

(** Distinct [h]-values give distinct [g]-values when [g] determines [h]
    on the list. *)
Lemma NoDup_map_transfer {A B C : Type} (g : A -> B) (h : A -> C) (l : list A) :
  NoDup (map h l) ->
  (forall x y, In x l -> In y l -> g x = g y -> h x = h y) ->
  NoDup (map g l).
Proof.
  induction l as [|x l IH]; cbn; intros Hnd Hgh; [constructor|].
  inversion Hnd as [|? ? Hx Hnd']; subst. constructor.
  - intros Hin. apply in_map_iff in Hin. destruct Hin as (y & Hy & Hin).
    apply Hx. rewrite (Hgh x y); auto. apply in_map. exact Hin.
  - apply IH; auto.
Qed.

Lemma in_firstn {A : Type} (n : nat) (x : A) (l : list A) :
  In x (firstn n l) -> In x l.
Proof.
  revert n. induction l as [|y l IH]; intros [|n]; cbn; try tauto.
  intros [H|H]; eauto.
Qed.

Lemma filter_none {A : Type} (p : A -> bool) (l : list A) :
  (forall x, In x l -> p x = false) -> filter p l = [].
Proof.
  induction l as [|x l IH]; cbn; intros H; [reflexivity|].
  rewrite (H x) by auto. auto.
Qed.

Lemma find_app {A : Type} (p : A -> bool) (l1 l2 : list A) :
  find p (l1 ++ l2)
  = match find p l1 with
    | Some x => Some x
    | None => find p l2
    end.
Proof.
  induction l1 as [|x l1 IH]; cbn; [reflexivity|].
  destruct (p x); auto.
Qed.

Lemma NoDup_firstn {A : Type} (n : nat) (l : list A) :
  NoDup l -> NoDup (firstn n l).
Proof.
  revert n. induction l as [|x l IH]; intros [|n] H; cbn; try constructor.
  - inversion H; subst. intros Hin. apply in_firstn in Hin. contradiction.
  - inversion H; subst. auto.
Qed.

Lemma StronglySorted_firstn {A : Type} (R : A -> A -> Prop) (n : nat) (l : list A) :
  StronglySorted R l -> StronglySorted R (firstn n l).
Proof.
  revert n. induction l as [|x l IH]; intros [|n] H; cbn; try constructor.
  - inversion H; subst. auto.
  - inversion H; subst. rewrite Forall_forall in *.
    intros y Hy. apply in_firstn in Hy. auto.
Qed.

Lemma StronglySorted_map {A B : Type} (R : B -> B -> Prop) (f : A -> B) (l : list A) :
  StronglySorted (fun x y => R (f x) (f y)) l -> StronglySorted R (map f l).
Proof.
  induction 1 as [|x l Hs IH Hx]; cbn; constructor; auto.
  rewrite Forall_forall in *. intros y Hy.
  apply in_map_iff in Hy. destruct Hy as (z & <- & Hz). auto.
Qed.

Lemma filter_by_key_length {A : Type} (f : A -> string) (k : string) (l : list A) :
  NoDup (map f l) ->
  (List.length (filter (fun x => String.eqb (f x) k) l) <= 1)%nat.
Proof.
  induction l as [|x l IH]; cbn; intros Hnd; [lia|].
  inversion Hnd as [|? ? Hx Hnd']; subst.
  destruct (String.eqb (f x) k) eqn:E; [|auto].
  apply String.eqb_eq in E. cbn.
  replace (filter (fun y => String.eqb (f y) k) l) with (@nil A); [cbn; lia|].
  symmetry. apply filter_none. intros y Hy. apply String.eqb_neq.
  intros Hk. apply Hx. rewrite E, <- Hk. apply in_map. exact Hy.
Qed.

(** *** The dictionary *)

Section DictFacts.
Context {V : Type}.
Implicit Types (d : Py.dict V) (k : string) (v : V).

Lemma dict_set_keys k v d :
  map fst (Py.dict_set k v d)
  = if in_dec string_dec k (map fst d) then map fst d else map fst d ++ [k].
Proof.
  induction d as [|[k' v'] d IH]; cbn [Py.dict_set].
  - destruct (in_dec string_dec k (map fst [])) as [[]|]; reflexivity.
  - destruct (String.eqb k' k) eqn:E.
    + apply String.eqb_eq in E. subst k'.
      destruct (in_dec string_dec k (map fst ((k, v') :: d))) as [|n];
        [reflexivity|]. exfalso. apply n. left. reflexivity.
    + apply String.eqb_neq in E. cbn [map fst]. rewrite IH.
      destruct (in_dec string_dec k (map fst d)) as [i|n],
               (in_dec string_dec k (k' :: map fst d)) as [i'|n'];
        try reflexivity.
      * exfalso. apply n'. right. exact i.
      * exfalso. destruct i' as [->|i']; [apply E; reflexivity|contradiction].
Qed.

Lemma dict_set_nodup k v d :
  NoDup (map fst d) -> NoDup (map fst (Py.dict_set k v d)).
Proof.
  intros H. rewrite dict_set_keys.
  destruct (in_dec string_dec k (map fst d)) as [i|n]; [exact H|].
  apply NoDup_app; auto.
  - constructor; [tauto|constructor].
  - intros x Hx [<-|[]]. contradiction.
Qed.

Lemma dict_set_new k v d :
  ~ In k (map fst d) -> Py.dict_set k v d = d ++ [(k, v)].
Proof.
  induction d as [|[k' v'] d IH]; cbn; intros H; [reflexivity|].
  destruct (String.eqb k' k) eqn:E.
  - apply String.eqb_eq in E. tauto.
  - rewrite IH by tauto. reflexivity.
Qed.

Lemma dict_set_length k v d :
  (List.length (Py.dict_set k v d) <= S (List.length d))%nat.
Proof.
  induction d as [|[k' v'] d IH]; cbn; [lia|].
  destruct (String.eqb k' k); cbn; lia.
Qed.

(** What a dictionary with distinct keys holds after an assignment. *)
Lemma dict_set_in k v d k' v' :
  NoDup (map fst d) ->
  In (k', v') (Py.dict_set k v d)
  <-> (if String.eqb k k' then v' = v else In (k', v') d).
Proof.
  induction d as [|[k0 v0] d IH]; cbn [Py.dict_set map fst]; intros Hnd.
  - cbn. destruct (String.eqb k k') eqn:E.
    + apply String.eqb_eq in E. subst. split.
      * intros [H|[]]. congruence.
      * intros ->. auto.
    + apply String.eqb_neq in E. split; [|tauto].
      intros [H|[]]. congruence.
  - inversion Hnd as [|? ? Hk0 Hnd']; subst.
    destruct (String.eqb k0 k) eqn:E0.
    + apply String.eqb_eq in E0. subst k0. cbn [In].
      destruct (String.eqb k k') eqn:E.
      * apply String.eqb_eq in E. subst k'. split.
        -- intros [H|H]; [congruence|].
           exfalso. apply Hk0. apply (in_map fst) in H. exact H.
        -- intros ->. auto.
      * apply String.eqb_neq in E. split.
        -- intros [H|H]; [congruence|auto].
        -- intros [H|H]; [congruence|auto].
    + apply String.eqb_neq in E0. cbn [In]. rewrite (IH Hnd').
      destruct (String.eqb k k') eqn:E.
      * apply String.eqb_eq in E. subst k'. split.
        -- intros [H|H]; [congruence|exact H].
        -- auto.
      * tauto.
Qed.

End DictFacts.

(** *** The descending stable sort *)

Section SortFacts.
Context {A : Type} (key : A -> float).

Lemma insert_desc_perm (x : A) (l : list A) :
  Permutation (Py.insert_desc key x l) (x :: l).
Proof.
  induction l as [|y l IH]; cbn; [reflexivity|].
  destruct (F64.ltb (key x) (key y)); [|reflexivity].
  rewrite IH. apply perm_swap.
Qed.

Lemma sorted_desc_perm (l : list A) : Permutation (Py.sorted_desc key l) l.
Proof.
  induction l as [|x l IH]; cbn; [reflexivity|].
  rewrite insert_desc_perm. constructor. exact IH.
Qed.

Lemma insert_desc_sorted (x : A) (l : list A) :
  F64.is_nan (key x) = false ->
  Forall (fun y => F64.is_nan (key y) = false) l ->
  StronglySorted (desc key) l -> StronglySorted (desc key) (Py.insert_desc key x l).
Proof.
  intros Hx Hl Hs. induction Hs as [|y l Hs IH Hy]; cbn.
  - constructor; constructor.
  - inversion Hl as [|? ? Hny Hl']; subst.
    destruct (F64.ltb (key x) (key y)) eqn:E.
    + constructor; [auto|].
      rewrite Forall_forall in *. intros z Hz.
      apply (Permutation_in _ (insert_desc_perm x l)) in Hz.
      destruct Hz as [<-|Hz]; [|auto].
      unfold desc, F64.geb. apply ltb_leb. exact E.
    + assert (Hyx : desc key x y).
      { unfold desc, F64.geb. apply not_ltb_leb; assumption. }
      constructor; [constructor; assumption|].
      constructor; [exact Hyx|].
      rewrite Forall_forall in *. intros z Hz.
      unfold desc, F64.geb in *. eapply leb_trans; [apply Hy; exact Hz|exact Hyx].
Qed.

Lemma sorted_desc_sorted (l : list A) :
  Forall (fun y => F64.is_nan (key y) = false) l ->
  StronglySorted (desc key) (Py.sorted_desc key l).
Proof.
  induction l as [|x l IH]; cbn; intros H; [constructor|].
  inversion H; subst. apply insert_desc_sorted; auto.
  rewrite Forall_forall in *. intros y Hy.
  apply (Permutation_in _ (sorted_desc_perm l)) in Hy. auto.
Qed.

(** Where two elements of [insert_desc x l] can stand. *)
Lemma insert_desc_before (x a b : A) (l : list A) :
  before a b (Py.insert_desc key x l) ->
  (a = x /\ In b l)
  \/ (b = x /\ In a l /\ F64.ltb (key x) (key a) = true)
  \/ before a b l.
Proof.
  induction l as [|y l IH]; cbn.
  - intros (l1 & l2 & l3 & H). destruct l1 as [|? [|? ?]]; try discriminate.
    destruct l2; discriminate.
  - destruct (F64.ltb (key x) (key y)) eqn:E.
    + intros H. apply before_inv in H. destruct H as [[-> Hb]|H].
      * apply (Permutation_in _ (insert_desc_perm x l)) in Hb.
        destruct Hb as [<-|Hb].
        -- right. left. split; [reflexivity|]. split; [left; reflexivity|exact E].
        -- right. right. apply before_head. exact Hb.
      * destruct (IH H) as [[-> Hb]|[(-> & Ha & Hlt)|Hab]].
        -- left. split; [reflexivity|right; exact Hb].
        -- right. left. split; [reflexivity|]. split; [right; exact Ha|exact Hlt].
        -- right. right. apply before_cons. exact Hab.
    + intros H. apply before_inv in H. destruct H as [[-> Hb]|H].
      * left. split; [reflexivity|exact Hb].
      * right. right. exact H.
Qed.

(** Stability: elements of equal key keep the order of the input. *)
Lemma sorted_desc_stable (a b : A) (l : list A) :
  before a b (Py.sorted_desc key l) ->
  F64.eqb (key a) (key b) = true ->
  before a b l.
Proof.
  induction l as [|x l IH]; cbn; intros H Heq.
  - destruct H as (l1 & l2 & l3 & H). destruct l1; discriminate.
  - apply insert_desc_before in H.
    destruct H as [[-> Hb]|[(-> & Ha & Hlt)|Hab]].
    + apply before_head. apply (Permutation_in _ (sorted_desc_perm l)). exact Hb.
    + apply eqb_not_ltb in Heq. congruence.
    + apply before_cons. auto.
Qed.

End SortFacts.

(* ------------------------------------------------------------------ *)
(** ** The similarity matcher *)

Section MatcherFacts.
Variable chunk_embeddings : Np.matrix.
Variable sim_threshold : float.

Local Abbreviation qual := (qualifies chunk_embeddings sim_threshold).
Local Abbreviation fill_ := (fill chunk_embeddings sim_threshold).

Lemma fill_cons (s : skill) (rows : list skill) (d : Py.dict sim_entry) :
  fill_ (s :: rows) d
  = fill_ rows (if qual s
                then Py.dict_set (name s) (entry_of chunk_embeddings s) d
                else d).
Proof. reflexivity. Qed.

(** The loop either raises or computes [fill]. *)
Lemma score_skills_fill (skill_rows : list skill) :
  forall d d',
    score_skills chunk_embeddings sim_threshold skill_rows d = Ok d' ->
    d' = fill_ skill_rows d.
Proof.
  induction skill_rows as [|s rows IH]; cbn [score_skills]; intros d d' H.
  - injection H as <-. reflexivity.
  - rewrite fill_cons.
    assert (Hrest : forall d1,
               score_skills chunk_embeddings sim_threshold rows d1 = Ok d' ->
               d' = fill_ rows d1) by (intros; auto).
    clear IH. revert Hrest. generalize (fill_ rows). intros F Hrest.
    unfold qualifies, entry_of, match_of, best_sim.
    destruct (emb_array s) as [[|x emb]|]; cbn [match_score snd]; auto.
    destruct (cosine_sims chunk_embeddings (x :: emb)) as [sims|e];
      cbn [bind] in H; [|discriminate].
    destruct (Np.max sims) as [m|e]; cbn [bind] in H; [|discriminate].
    destruct (F64.geb m sim_threshold); auto.
Qed.

Lemma fill_nodup (skill_rows : list skill) :
  forall d, NoDup (map fst d) -> NoDup (map fst (fill_ skill_rows d)).
Proof.
  induction skill_rows as [|s rows IH]; intros d H; [exact H|].
  rewrite fill_cons. apply IH.
  destruct (qual s); [apply dict_set_nodup|]; exact H.
Qed.

Lemma fill_length (skill_rows : list skill) :
  forall d,
    (List.length (fill_ skill_rows d)
     <= List.length d + List.length (filter qual skill_rows))%nat.
Proof.
  induction skill_rows as [|s rows IH]; intros d; [cbn; lia|].
  rewrite fill_cons. cbn [filter].
  destruct (qual s).
  - etransitivity; [apply IH|]. pose proof (dict_set_length (name s)
      (entry_of chunk_embeddings s) d). cbn [List.length]. lia.
  - apply IH.
Qed.

(** What the dictionary holds in the end: per name, the entry of the last
    qualifying row of that name. *)
Lemma fill_in (skill_rows : list skill) :
  forall d k v,
    NoDup (map fst d) ->
    In (k, v) (fill_ skill_rows d)
    <-> match last_qualifying chunk_embeddings sim_threshold skill_rows k with
        | Some s => v = entry_of chunk_embeddings s
        | None => In (k, v) d
        end.
Proof.
  induction skill_rows as [|s rows IH]; intros d k v Hnd; [reflexivity|].
  rewrite fill_cons.
  unfold last_qualifying. cbn [rev]. rewrite find_app.
  fold (last_qualifying chunk_embeddings sim_threshold rows k).
  rewrite IH by (destruct (qual s); [apply dict_set_nodup|]; exact Hnd).
  destruct (last_qualifying chunk_embeddings sim_threshold rows k); [reflexivity|].
  cbn [find]. destruct (qual s); cbn [andb]; [|reflexivity].
  rewrite dict_set_in by exact Hnd.
  destruct (String.eqb (name s) k); reflexivity.
Qed.

Lemma last_qualifying_some (skill_rows : list skill) (k : string) (s : skill) :
  last_qualifying chunk_embeddings sim_threshold skill_rows k = Some s ->
  In s skill_rows /\ qual s = true /\ name s = k.
Proof.
  unfold last_qualifying. intros H. apply find_some in H.
  destruct H as [Hin H]. apply andb_prop in H. destruct H as [Hq Hn].
  apply in_rev in Hin. apply String.eqb_eq in Hn. auto.
Qed.

(** With distinct names in the vocabulary the dictionary is the list of
    the qualifying rows, in vocabulary order. *)
Lemma fill_distinct_names (skill_rows : list skill) :
  forall d,
    NoDup (map name skill_rows) ->
    (forall s, In s skill_rows -> ~ In (name s) (map fst d)) ->
    fill_ skill_rows d
    = d ++ map (fun s => (name s, entry_of chunk_embeddings s))
             (filter qual skill_rows).
Proof.
  induction skill_rows as [|s rows IH]; intros d Hnd Hd.
  - cbn. rewrite app_nil_r. reflexivity.
  - rewrite fill_cons. cbn [filter].
    cbn [map] in Hnd. inversion Hnd as [|? ? Hs Hnd']; subst.
    destruct (qual s).
    + rewrite dict_set_new by (apply Hd; left; reflexivity).
      rewrite IH; [cbn [map]; rewrite <- app_assoc; reflexivity|exact Hnd'|].
      intros s' Hs' Hin. rewrite map_app in Hin. apply in_app_or in Hin.
      destruct Hin as [Hin|[Hin|[]]].
      * apply (Hd s'); [right; exact Hs'|exact Hin].
      * cbn in Hin. apply Hs. rewrite Hin. apply in_map. exact Hs'.
    + apply IH; [exact Hnd'|]. intros s' Hs'. apply Hd. right. exact Hs'.
Qed.

End MatcherFacts.

Section RankedFacts.
Variable chunk_embeddings : Np.matrix.
Variable sim_threshold : float.
Variable skill_rows : list skill.

Local Abbreviation qual := (qualifies chunk_embeddings sim_threshold).
Local Abbreviation dict_ := (fill chunk_embeddings sim_threshold skill_rows []).
Local Abbreviation ranked_ := (ranked chunk_embeddings sim_threshold skill_rows).

Lemma dict_nodup : NoDup (map fst dict_).
Proof. apply fill_nodup. constructor. Qed.

(** Every item of the dictionary is the entry of the last qualifying row
    of its name. *)
Lemma dict_item (k : string) (v : sim_entry) :
  In (k, v) dict_ <->
  exists s,
    last_qualifying chunk_embeddings sim_threshold skill_rows k = Some s
    /\ v = entry_of chunk_embeddings s.
Proof.
  rewrite fill_in by constructor.
  destruct (last_qualifying chunk_embeddings sim_threshold skill_rows k) as [s|].
  - split; [intros ->; eauto|]. intros (s' & [= <-] & ->). reflexivity.
  - split; [intros []|]. intros (s' & [=] & _).
Qed.

Lemma qualifies_score (s : skill) :
  qual s = true ->
  F64.is_nan (match_score (match_of chunk_embeddings s)) = false.
Proof.
  unfold qualifies, match_of, match_score. cbn [snd].
  destruct (best_sim chunk_embeddings s) as [m|]; [|discriminate].
  apply geb_not_nan.
Qed.

(** Every match of the ranking is the match of the last qualifying row
    of its name. *)
Lemma ranked_in (m : match_t) :
  In m ranked_ <->
  exists s,
    last_qualifying chunk_embeddings sim_threshold skill_rows (match_name m) = Some s
    /\ m = match_of chunk_embeddings s.
Proof.
  unfold ranked. rewrite in_map_iff. split.
  - intros ([k v] & <- & Hin).
    apply (Permutation_in _ (sorted_desc_perm item_sim _)) in Hin.
    apply dict_item in Hin. destruct Hin as (s & Hs & ->).
    exists s. split; [exact Hs|].
    apply last_qualifying_some in Hs. destruct Hs as (_ & _ & <-). reflexivity.
  - intros (s & Hs & ->).
    exists (name s, entry_of chunk_embeddings s). split; [reflexivity|].
    apply (Permutation_in _ (Permutation_sym (sorted_desc_perm item_sim _))).
    apply dict_item. exists s. split; [|reflexivity].
    cbn in Hs. exact Hs.
Qed.

Lemma ranked_source (m : match_t) :
  In m ranked_ ->
  exists s, In s skill_rows /\ qual s = true /\ m = match_of chunk_embeddings s.
Proof.
  intros H. apply ranked_in in H. destruct H as (s & Hs & ->).
  apply last_qualifying_some in Hs. exists s. tauto.
Qed.

Lemma ranked_names : map match_name ranked_ = map fst (Py.sorted_desc item_sim dict_).
Proof. unfold ranked. rewrite map_map. reflexivity. Qed.

Lemma ranked_nodup_names : NoDup (map match_name ranked_).
Proof.
  rewrite ranked_names.
  eapply Permutation_NoDup; [|apply dict_nodup].
  apply Permutation_map, Permutation_sym, sorted_desc_perm.
Qed.

Lemma ranked_nodup_ids :
  NoDup (map skill_id skill_rows) -> NoDup (map match_id ranked_).
Proof.
  intros Hids.
  apply NoDup_map_transfer with (h := match_name); [apply ranked_nodup_names|].
  intros x y Hx Hy Hxy.
  apply ranked_source in Hx, Hy.
  destruct Hx as (sx & Hsx & _ & ->), Hy as (sy & Hsy & _ & ->).
  cbn in Hxy. rewrite (NoDup_map_eq skill_id skill_rows sx sy); auto.
Qed.

Lemma ranked_sorted : sorted_by_score ranked_.
Proof.
  unfold sorted_by_score, ranked. apply StronglySorted_map.
  apply (sorted_desc_sorted item_sim).
  rewrite Forall_forall. intros [k v] Hin.
  apply dict_item in Hin. destruct Hin as (s & Hs & ->).
  apply last_qualifying_some in Hs. destruct Hs as (_ & Hq & _).
  apply (qualifies_score s Hq).
Qed.

Lemma ranked_length :
  (List.length ranked_ <= List.length (filter qual skill_rows))%nat.
Proof.
  unfold ranked. rewrite length_map.
  rewrite (Permutation_length (sorted_desc_perm item_sim _)).
  pose proof (fill_length chunk_embeddings sim_threshold skill_rows []) as H.
  cbn [List.length] in H. lia.
Qed.

Lemma ranked_ties :
  NoDup (map name skill_rows) -> ties_in_vocabulary_order skill_rows ranked_.
Proof.
  intros Hnames a b Hab Heq.
  unfold ranked in Hab. apply before_map in Hab.
  destruct Hab as (x & y & Hxy & <- & <-).
  apply sorted_desc_stable in Hxy; [|exact Heq].
  rewrite (fill_distinct_names chunk_embeddings sim_threshold skill_rows [])
    in Hxy by (auto; intros ? ? []).
  cbn [app] in Hxy. apply before_map in Hxy.
  destruct Hxy as (sa & sb & Hs & <- & <-).
  apply before_filter in Hs. exists sa, sb. cbn. auto.
Qed.

End RankedFacts.

(** *** The cut to [top_k] *)

Lemma slice_to_firstn {A : Type} (l : list A) (k : Z) :
  exists n, Py.slice_to l k = firstn n l.
Proof. unfold Py.slice_to. eauto. Qed.

Lemma slice_to_length {A : Type} (l : list A) (k : Z) :
  0 <= k -> Z.of_nat (List.length (Py.slice_to l k)) <= k.
Proof.
  intros Hk. unfold Py.slice_to, Py.clip.
  replace (k <? 0) with false by (symmetry; apply Z.ltb_ge; lia).
  rewrite length_firstn. lia.
Qed.

Lemma slice_to_all {A : Type} (l : list A) (k : Z) :
  Z.of_nat (List.length l) <= k -> Py.slice_to l k = l.
Proof.
  intros Hk. unfold Py.slice_to, Py.clip.
  replace (k <? 0) with false by (symmetry; apply Z.ltb_ge; lia).
  rewrite Z.min_r by lia. rewrite Nat2Z.id. apply firstn_all.
Qed.

(** What a call that returns has computed. *)
Lemma extract_inv (encode : list string -> Np.matrix) (skill_rows : list skill)
  (text : string) (top_k : Z) (thr : float) (chunk_size chunk_overlap : Z)
  (out : list match_t) :
  extract_skills_from_text encode skill_rows text top_k thr chunk_size chunk_overlap
  = Ok out ->
  out = []
  \/ exists c chunks,
       chunk_text text chunk_size chunk_overlap = Ok (c :: chunks)
       /\ out = Py.slice_to (ranked (encode (c :: chunks)) thr skill_rows) top_k.
Proof.
  unfold extract_skills_from_text.
  destruct (String.eqb text ""); [intros [= <-]; auto|].
  destruct skill_rows as [|s rows]; [intros [= <-]; auto|].
  destruct (chunk_text text chunk_size chunk_overlap) as [[|c chunks]|e];
    cbn [bind]; [intros [= <-]; auto| |discriminate].
  destruct (score_skills (encode (c :: chunks)) thr (s :: rows) []) as [d|e] eqn:E;
    cbn [bind]; [|discriminate].
  intros [= <-]. right. exists c, chunks. split; [reflexivity|].
  apply score_skills_fill in E. subst d. reflexivity.
Qed.

Lemma find_none_all {A : Type} (p : A -> bool) (l : list A) :
  (forall x, In x l -> p x = false) -> find p l = None.
Proof.
  induction l as [|x l IH]; cbn; intros H; [reflexivity|].
  rewrite (H x) by auto. auto.
Qed.

(** A call that has chunks to compare returns the cut ranking. *)
Lemma extract_with_chunks (encode : list string -> Np.matrix)
  (skill_rows : list skill) (text : string) (top_k : Z) (thr : float)
  (chunk_size chunk_overlap : Z) (c : string) (chunks : list string)
  (out : list match_t) :
  chunk_text text chunk_size chunk_overlap = Ok (c :: chunks) ->
  skill_rows <> [] ->
  extract_skills_from_text encode skill_rows text top_k thr chunk_size chunk_overlap
  = Ok out ->
  out = Py.slice_to (ranked (encode (c :: chunks)) thr skill_rows) top_k.
Proof.
  intros Hc Hrows H.
  assert (Htext : String.eqb text "" = false).
  { destruct (String.eqb text "") eqn:E; [|reflexivity].
    apply String.eqb_eq in E. subst text. exfalso.
    unfold chunk_text, Py.range in Hc. cbn in Hc.
    destruct (chunk_size - chunk_overlap =? 0); [discriminate|].
    destruct (0 <? chunk_size - chunk_overlap); discriminate. }
  unfold extract_skills_from_text in H. rewrite Htext in H.
  destruct skill_rows as [|s rows]; [congruence|].
  rewrite Hc in H. cbn [bind] in H.
  destruct (score_skills (encode (c :: chunks)) thr (s :: rows) []) as [d|e] eqn:E;
    cbn [bind] in H; [|discriminate].
  injection H as <-. apply score_skills_fill in E. subst d. reflexivity.
Qed.

(** C1, as the code has it.  The list a call returns has no two matches
    of one name, and no two of one skill id when the ids of the
    vocabulary are distinct; its scores never increase; matches of equal
    score stand in vocabulary order when the names of the vocabulary are
    distinct; it is no longer than the number of qualifying skills, and
    no longer than [top_k] when [top_k] is not negative. *)
Theorem matcher_output_guarantee
  (encode : list string -> Np.matrix) (skill_rows : list skill) (text : string)
  (top_k : Z) (sim_threshold : float) (chunk_size chunk_overlap : Z)
  (out : list match_t) :
  extract_skills_from_text encode skill_rows text top_k sim_threshold
    chunk_size chunk_overlap = Ok out ->
  NoDup (map match_name out)
  /\ (NoDup (map skill_id skill_rows) -> NoDup (map match_id out))
  /\ sorted_by_score out
  /\ (NoDup (map name skill_rows) -> ties_in_vocabulary_order skill_rows out)
  /\ Z.of_nat (List.length out)
     <= qualifying_count encode skill_rows text sim_threshold chunk_size chunk_overlap
  /\ (0 <= top_k -> Z.of_nat (List.length out) <= top_k).
Proof.
  intros H. apply extract_inv in H.
  destruct H as [->|(c & chunks & Hc & ->)].
  - repeat split; try constructor; try (intros; cbn; lia).
    + intros _ a b (l1 & l2 & l3 & E). destruct l1; discriminate.
    + cbn. unfold qualifying_count.
      destruct (chunk_text text chunk_size chunk_overlap) as [[|? ?]|]; lia.
  - destruct (slice_to_firstn (ranked (encode (c :: chunks)) sim_threshold skill_rows)
                top_k) as [n Hn].
    rewrite Hn. repeat split.
    + rewrite <- firstn_map. apply NoDup_firstn, ranked_nodup_names.
    + intros Hids. rewrite <- firstn_map. apply NoDup_firstn, ranked_nodup_ids, Hids.
    + apply StronglySorted_firstn, ranked_sorted.
    + intros Hnames a b Hab Heq. apply before_firstn in Hab.
      exact (ranked_ties _ _ _ Hnames a b Hab Heq).
    + unfold qualifying_count. rewrite Hc.
      pose proof (ranked_length (encode (c :: chunks)) sim_threshold skill_rows).
      rewrite length_firstn. lia.
    + intros Hk. rewrite <- Hn. apply slice_to_length, Hk.
Qed.

Lemma matcher_output_guarantee_witness :
  NoDup (map match_name [(1, "python", Sample.one)])
  /\ NoDup (map match_id [(1, "python", Sample.one)])
  /\ sorted_by_score [(1, "python", Sample.one)]
  /\ ties_in_vocabulary_order Sample.python_java [(1, "python", Sample.one)]
  /\ Z.of_nat (List.length [(1, "python", Sample.one)]) <= 20.
Proof.
  assert (Hrun : extract_skills_from_text Sample.encode_east Sample.python_java
                   "python django sql" 20 Sample.resume_threshold 100 20
                 = Ok [(1, "python", Sample.one)]) by (vm_compute; reflexivity).
  destruct (matcher_output_guarantee _ _ _ _ _ _ _ _ Hrun)
    as (H1 & H2 & H3 & H4 & _ & H6).
  assert (Hids : NoDup (map skill_id Sample.python_java)).
  { cbn. repeat constructor; cbn; intuition discriminate. }
  assert (Hnames : NoDup (map name Sample.python_java)).
  { cbn. repeat constructor; cbn; intuition discriminate. }
  split; [exact H1|]. split; [exact (H2 Hids)|]. split; [exact H3|].
  split; [exact (H4 Hnames)|]. apply H6. lia.
Defined.

(** The scenario of the specification: [python] matches with score 1.0,
    [java] (similarity 0.0) is left out. *)
Example match_python_not_java :
  extract_skills_from_text Sample.encode_east Sample.python_java
    "python django sql" 20 Sample.resume_threshold 100 20
  = Ok [(1, "python", S754_finite false 4503599627370496 (-52))].
Proof. vm_compute. reflexivity. Qed.

(** C1, as stated, fails: two vocabulary rows of one skill id under two
    names both reach the output. *)
Lemma matcher_guarantee_fails_on_shared_id :
  ~ matcher_guarantee Sample.encode_east Sample.two_names_one_id
      "python django sql" 20 Sample.resume_threshold 100 20.
Proof.
  intros H.
  destruct (H [(7, "python", Sample.one); (7, "py", Sample.one)]) as (Hnd & _).
  - vm_compute. reflexivity.
  - cbn in Hnd. inversion Hnd as [|? ? Hin _]; subst. apply Hin. left. reflexivity.
Qed.

(** A negative [top_k] drops matches from the end instead of bounding the
    length: the list is longer than [top_k]. *)
Example negative_top_k_drops_last :
  extract_skills_from_text Sample.encode_east Sample.two_names_one_id
    "python django sql" (-1) Sample.resume_threshold 100 20
  = Ok [(7, "python", Sample.one)].
Proof. vm_compute. reflexivity. Qed.

(** With a name that occurs twice, a tie is not in the order of the rows
    the matches carry: row 3 comes out before row 2. *)
Example tie_order_with_repeated_name :
  extract_skills_from_text Sample.encode_east Sample.tie_after_rename
    "python django sql" 20 Sample.resume_threshold 100 20
  = Ok [(3, "sql", Sample.one); (2, "docker", Sample.one)].
Proof. vm_compute. reflexivity. Qed.

(** C10.  When two rows of the vocabulary carry one name and both
    qualify, the later of them being the last qualifying row of that
    name, every match of that name in the output is the match of the
    later row (its skill id and its score), there is at most one such
    match, and there is exactly that one when [top_k] does not cut the
    list. *)
Theorem later_row_of_a_name_wins
  (encode : list string -> Np.matrix) (l1 l2 l3 : list skill) (a b : skill)
  (text : string) (top_k : Z) (sim_threshold : float)
  (chunk_size chunk_overlap : Z) (c : string) (chunks : list string)
  (out : list match_t) :
  chunk_text text chunk_size chunk_overlap = Ok (c :: chunks) ->
  extract_skills_from_text encode (l1 ++ a :: l2 ++ b :: l3) text top_k
    sim_threshold chunk_size chunk_overlap = Ok out ->
  name a = name b ->
  qualifies (encode (c :: chunks)) sim_threshold a = true ->
  qualifies (encode (c :: chunks)) sim_threshold b = true ->
  (forall s, In s l3 -> name s = name b ->
             qualifies (encode (c :: chunks)) sim_threshold s = false) ->
  (forall m, In m out -> match_name m = name b ->
             m = match_of (encode (c :: chunks)) b)
  /\ (List.length (filter (fun m => String.eqb (match_name m) (name b)) out) <= 1)%nat
  /\ (Z.of_nat (List.length (l1 ++ a :: l2 ++ b :: l3)) <= top_k ->
      In (match_of (encode (c :: chunks)) b) out).
Proof.
  intros Hc Hrun Hname Ha Hb Hlast.
  set (rows := l1 ++ a :: l2 ++ b :: l3) in *.
  assert (Hrows : rows <> []) by (unfold rows; destruct l1; discriminate).
  pose proof (extract_with_chunks _ _ _ _ _ _ _ _ _ _ Hc Hrows Hrun) as Hout.
  assert (Hwin : last_qualifying (encode (c :: chunks)) sim_threshold rows (name b)
                 = Some b).
  { unfold last_qualifying, rows.
    replace (l1 ++ a :: l2 ++ b :: l3) with ((l1 ++ a :: l2) ++ [b] ++ l3)
      by (rewrite <- app_assoc; reflexivity).
    rewrite !rev_app_distr, <- app_assoc, find_app.
    rewrite find_none_all.
    - cbn. rewrite Hb, String.eqb_refl. reflexivity.
    - intros s Hs. apply in_rev in Hs.
      destruct (String.eqb (name s) (name b)) eqn:E.
      + apply String.eqb_eq in E. rewrite (Hlast s Hs E). reflexivity.
      + apply andb_false_r. }
  destruct (slice_to_firstn (ranked (encode (c :: chunks)) sim_threshold rows) top_k)
    as [n Hn].
  split; [|split].
  - intros m Hm Hmn. rewrite Hout, Hn in Hm. apply in_firstn in Hm.
    apply ranked_in in Hm. destruct Hm as (s & Hs & ->).
    cbn in Hmn. cbn in Hs. rewrite Hmn in Hs. congruence.
  - apply filter_by_key_length. rewrite Hout, Hn, <- firstn_map.
    apply NoDup_firstn, ranked_nodup_names.
  - intros Hk. rewrite Hout, slice_to_all.
    + apply ranked_in. exists b. split; [exact Hwin|reflexivity].
    + pose proof (ranked_length (encode (c :: chunks)) sim_threshold rows) as Hl.
      pose proof (filter_length_le (qualifies (encode (c :: chunks)) sim_threshold) rows).
      lia.
Qed.

Lemma later_row_of_a_name_wins_witness :
  let later := (2, "sql", S754_finite false 6369051672525772 (-53)) in
  (forall m, In m [later] -> match_name m = "sql" -> m = later)
  /\ (List.length (filter (fun m => String.eqb (match_name m) "sql") [later]) <= 1)%nat
  /\ In later [later].
Proof.
  intros later.
  pose proof (later_row_of_a_name_wins Sample.encode_east [] [] []
                (mk_skill 1 "sql" (Some [Sample.one; F64.zero]))
                (mk_skill 2 "sql" (Some [Sample.one; Sample.one]))
                "python django sql" 20 Sample.resume_threshold 100 20
                "python django sql" [] [later]) as H.
  assert (Hc : chunk_text "python django sql" 100 20 = Ok ["python django sql"])
    by reflexivity.
  assert (Hrun : extract_skills_from_text Sample.encode_east
                   ([] ++ mk_skill 1 "sql" (Some [Sample.one; F64.zero])
                       :: [] ++ mk_skill 2 "sql" (Some [Sample.one; Sample.one]) :: [])
                   "python django sql" 20 Sample.resume_threshold 100 20
                 = Ok [later]) by (vm_compute; reflexivity).
  specialize (H Hc Hrun eq_refl).
  assert (Ha : qualifies (Sample.encode_east ["python django sql"])
                 Sample.resume_threshold
                 (mk_skill 1 "sql" (Some [Sample.one; F64.zero])) = true)
    by (vm_compute; reflexivity).
  assert (Hb : qualifies (Sample.encode_east ["python django sql"])
                 Sample.resume_threshold
                 (mk_skill 2 "sql" (Some [Sample.one; Sample.one])) = true)
    by (vm_compute; reflexivity).
  specialize (H Ha Hb (fun s (Hs : In s []) _ => match Hs with end)).
  assert (Hm : match_of (Sample.encode_east ["python django sql"])
                 (mk_skill 2 "sql" (Some [Sample.one; Sample.one])) = later)
    by (vm_compute; reflexivity).
  rewrite Hm in H. cbn [name] in H.
  destruct H as (H1 & H2 & H3).
  split; [exact H1|]. split; [exact H2|]. apply H3. cbn. lia.
Defined.

(** The earlier row of the name scored 1.0, the later one about 0.707:
    the output carries the later one. *)
Example earlier_higher_score_is_lost :
  extract_skills_from_text Sample.encode_east Sample.one_name_two_ids
    "python django sql" 20 Sample.resume_threshold 100 20
  = Ok [(2, "sql", S754_finite false 6369051672525772 (-53))]
  /\ match_of (Sample.encode_east ["python django sql"])
       (mk_skill 1 "sql" (Some [Sample.one; F64.zero]))
     = (1, "sql", S754_finite false 4503599627370496 (-52)).
Proof. split; vm_compute; reflexivity. Qed.

(* ------------------------------------------------------------------ *)
(** ** Embeddings of magnitude zero *)

Lemma mul_zero_r (x y : float) :
  F64.is_zero y = true -> zero_or_nan (F64.mul x y) = true.
Proof. destruct y; try discriminate. destruct x; reflexivity. Qed.

Lemma mul_zero_zero (x y : float) :
  F64.is_zero x = true -> F64.is_zero y = true -> F64.is_zero (F64.mul x y) = true.
Proof. destruct x, y; try discriminate. reflexivity. Qed.

Lemma add_zero_or_nan (x y : float) :
  zero_or_nan x = true -> zero_or_nan y = true -> zero_or_nan (F64.add x y) = true.
Proof.
  destruct x as [sx| | |], y as [sy| | |]; try discriminate; try reflexivity.
  destruct sx, sy; reflexivity.
Qed.

Lemma add_zero_zero (x y : float) :
  F64.is_zero x = true -> F64.is_zero y = true -> F64.is_zero (F64.add x y) = true.
Proof.
  destruct x as [sx| | |], y as [sy| | |]; try discriminate.
  destruct sx, sy; reflexivity.
Qed.

Lemma div_zero_or_nan (x y : float) :
  zero_or_nan x = true -> zero_or_nan y = true -> F64.div x y = S754_nan.
Proof. destruct x, y; try discriminate; reflexivity. Qed.

Lemma dot_from_zeros (a b : Np.vec) :
  forall acc,
    zero_or_nan acc = true -> zero_magnitude b = true ->
    zero_or_nan (Np.dot_from acc a b) = true.
Proof.
  revert b. induction a as [|x a IH]; intros [|y b] acc Hacc Hb; cbn; auto.
  cbn in Hb. apply andb_prop in Hb. destruct Hb as [Hy Hb].
  apply IH; [|exact Hb]. apply add_zero_or_nan; [exact Hacc|].
  apply mul_zero_r, Hy.
Qed.

Lemma dot_from_zeros_self (v : Np.vec) :
  forall acc,
    F64.is_zero acc = true -> zero_magnitude v = true ->
    F64.is_zero (Np.dot_from acc v v) = true.
Proof.
  induction v as [|x v IH]; intros acc Hacc Hv; cbn; auto.
  cbn in Hv. apply andb_prop in Hv. destruct Hv as [Hx Hv].
  apply IH; [|exact Hv]. apply add_zero_zero; [exact Hacc|].
  apply mul_zero_zero; exact Hx.
Qed.

(** The computed norm of the zero vector is a zero. *)
Lemma norm_zeros (v : Np.vec) :
  zero_magnitude v = true -> F64.is_zero (Np.norm v) = true.
Proof.
  intros Hv. unfold Np.norm, Np.dot1.
  pose proof (dot_from_zeros_self v F64.zero eq_refl Hv) as H.
  destruct (Np.dot_from F64.zero v v); try discriminate. reflexivity.
Qed.

Lemma divide_all_nan (dots denoms : Np.vec) :
  Forall (fun x => zero_or_nan x = true) dots ->
  Forall (fun x => zero_or_nan x = true) denoms ->
  Forall (fun x => x = S754_nan) (Np.divide dots denoms).
Proof.
  intros Hd. revert denoms. induction Hd as [|x dots Hx Hd IH];
    intros [|y denoms] Hn; cbn; try constructor.
  - inversion Hn; subst. apply div_zero_or_nan; assumption.
  - inversion Hn; subst. auto.
Qed.

Lemma fold_maximum_nan (l : Np.vec) : fold_left Np.maximum l S754_nan = S754_nan.
Proof. induction l as [|x l IH]; cbn; auto. Qed.

Lemma max_all_nan (l : Np.vec) (m : float) :
  Forall (fun x => x = S754_nan) l -> Np.max l = Ok m -> m = S754_nan.
Proof.
  intros H. destruct l as [|x l]; cbn; [discriminate|].
  inversion H; subst. intros [= <-]. apply fold_maximum_nan.
Qed.

(** Every similarity against the zero vector is NaN. *)
Lemma cosine_sims_zero_vector (chunk_embeddings : Np.matrix) (emb sims : Np.vec) :
  zero_magnitude emb = true ->
  cosine_sims chunk_embeddings emb = Ok sims ->
  Forall (fun x => x = S754_nan) sims.
Proof.
  intros Hz. unfold cosine_sims, Np.dot.
  destruct (forallb (fun row => Nat.eqb (List.length row) (List.length emb))
              chunk_embeddings); cbn [bind]; [|discriminate].
  intros [= <-]. apply divide_all_nan.
  - rewrite Forall_forall. intros x Hx. apply in_map_iff in Hx.
    destruct Hx as (row & <- & _). apply dot_from_zeros; [reflexivity|exact Hz].
  - rewrite Forall_forall. intros x Hx. unfold Np.scale in Hx.
    apply in_map_iff in Hx. destruct Hx as (n & <- & _).
    apply mul_zero_r, norm_zeros, Hz.
Qed.

(** A row whose embedding is the zero vector never qualifies, whatever
    the threshold. *)
Lemma zero_vector_never_qualifies (chunk_embeddings : Np.matrix)
  (sim_threshold : float) (s : skill) (emb : Np.vec) :
  emb_array s = Some emb -> zero_magnitude emb = true ->
  qualifies chunk_embeddings sim_threshold s = false.
Proof.
  intros He Hz. unfold qualifies, best_sim. rewrite He.
  destruct emb as [|x emb]; [reflexivity|].
  destruct (cosine_sims chunk_embeddings (x :: emb)) as [sims|e] eqn:Hs;
    [|reflexivity].
  destruct (Np.max sims) as [m|e] eqn:Hm; [|reflexivity].
  rewrite (max_all_nan sims m (cosine_sims_zero_vector _ _ _ Hz Hs) Hm).
  unfold F64.geb, F64.leb, SFleb. destruct sim_threshold; reflexivity.
Qed.

Lemma qualifies_has_embedding (chunk_embeddings : Np.matrix)
  (sim_threshold : float) (s : skill) :
  qualifies chunk_embeddings sim_threshold s = true ->
  exists emb, emb_array s = Some emb /\ zero_magnitude emb = false.
Proof.
  intros Hq. destruct (emb_array s) as [emb|] eqn:He.
  - exists emb. split; [reflexivity|].
    destruct (zero_magnitude emb) eqn:Hz; [|reflexivity].
    rewrite (zero_vector_never_qualifies _ _ s emb He Hz) in Hq. discriminate.
  - unfold qualifies, best_sim in Hq. rewrite He in Hq. discriminate.
Qed.

(** C4.  Whatever the threshold, every match of a returned list has a
    score that is not NaN and comes from a vocabulary row whose embedding
    is present and not of magnitude zero; so a row with a zero-magnitude
    embedding, whose id (or name) no other row carries, has its id (or
    name) in no match list. *)
Theorem zero_embedding_never_matches
  (encode : list string -> Np.matrix) (skill_rows : list skill) (text : string)
  (top_k : Z) (sim_threshold : float) (chunk_size chunk_overlap : Z)
  (out : list match_t) :
  extract_skills_from_text encode skill_rows text top_k sim_threshold
    chunk_size chunk_overlap = Ok out ->
  (forall m, In m out ->
     F64.is_nan (match_score m) = false
     /\ exists s emb,
          In s skill_rows /\ emb_array s = Some emb
          /\ zero_magnitude emb = false
          /\ skill_id s = match_id m /\ name s = match_name m)
  /\ (forall s emb,
        In s skill_rows -> emb_array s = Some emb -> zero_magnitude emb = true ->
        ((forall s', In s' skill_rows -> skill_id s' = skill_id s -> s' = s) ->
         ~ In (skill_id s) (map match_id out))
        /\ ((forall s', In s' skill_rows -> name s' = name s -> s' = s) ->
            ~ In (name s) (map match_name out))).
Proof.
  intros H.
  assert (Hsrc : forall m, In m out ->
            F64.is_nan (match_score m) = false
            /\ exists s emb,
                 In s skill_rows /\ emb_array s = Some emb
                 /\ zero_magnitude emb = false
                 /\ skill_id s = match_id m /\ name s = match_name m).
  { apply extract_inv in H. destruct H as [->|(c & chunks & _ & ->)];
      [intros m []|].
    intros m Hm.
    destruct (slice_to_firstn (ranked (encode (c :: chunks)) sim_threshold skill_rows)
                top_k) as [n Hn].
    rewrite Hn in Hm. apply in_firstn, ranked_source in Hm.
    destruct Hm as (s & Hs & Hq & ->).
    split; [apply (qualifies_score _ _ s Hq)|].
    destruct (qualifies_has_embedding _ _ s Hq) as (emb & He & Hz).
    exists s, emb. repeat split; assumption. }
  split; [exact Hsrc|].
  intros s emb Hs He Hz. split; intros Huniq Hin.
  - apply in_map_iff in Hin. destruct Hin as (m & Hid & Hm).
    destruct (Hsrc m Hm) as (_ & s' & emb' & Hs' & He' & Hz' & Hid' & _).
    rewrite (Huniq s' Hs') in He' by congruence. congruence.
  - apply in_map_iff in Hin. destruct Hin as (m & Hnm & Hm).
    destruct (Hsrc m Hm) as (_ & s' & emb' & Hs' & He' & Hz' & _ & Hnm').
    rewrite (Huniq s' Hs') in He' by congruence. congruence.
Qed.

Lemma zero_embedding_never_matches_witness :
  ~ In 9 (map match_id [(1, "python", Sample.one)])
  /\ ~ In "nothing" (map match_name [(1, "python", Sample.one)])
  /\ F64.is_nan (match_score (1, "python", Sample.one)) = false.
Proof.
  assert (Hrun : extract_skills_from_text Sample.encode_east Sample.with_zero_row
                   "python django sql" 20 (F64.ratio (-5) 1) 100 20
                 = Ok [(1, "python", Sample.one)]) by (vm_compute; reflexivity).
  destruct (zero_embedding_never_matches _ _ _ _ _ _ _ _ Hrun) as (Hsrc & Hzero).
  destruct (Hzero (mk_skill 9 "nothing" (Some [F64.zero; F64.zero]))
              [F64.zero; F64.zero] (or_intror (or_introl eq_refl)) eq_refl eq_refl)
    as (Hid & Hname).
  split; [|split].
  - apply Hid. intros s' [<-|[<-|[]]]; cbn; [discriminate|reflexivity].
  - apply Hname. intros s' [<-|[<-|[]]]; cbn; [discriminate|reflexivity].
  - apply (Hsrc _ (or_introl eq_refl)).
Defined.

(** An embedding that is not the zero vector but whose computed norm is
    zero (its square underflows) is another matter: the similarity is an
    infinity, which passes every finite threshold. *)
Example underflowing_norm_is_matched :
  Np.norm [Sample.tiny] = S754_zero false
  /\ extract_skills_from_text (fun chunks => map (fun _ => [Sample.one]) chunks)
       [mk_skill 3 "ghost" (Some [Sample.tiny])]
       "python django sql" 20 Sample.resume_threshold 100 20
     = Ok [(3, "ghost", S754_infinity false)].
Proof. split; vm_compute; reflexivity. Qed.

(* ------------------------------------------------------------------ *)
(** ** Chunk parameters with [chunk_overlap >= chunk_size] *)

Lemma chunk_text_negative_step (text : string) (chunk_size chunk_overlap : Z) :
  chunk_size < chunk_overlap -> chunk_text text chunk_size chunk_overlap = Ok [].
Proof.
  intros H. unfold chunk_text. rewrite range_negative_step by lia. reflexivity.
Qed.

Lemma chunk_text_zero_step (text : string) (chunk_size : Z) :
  chunk_text text chunk_size chunk_size
  = Raise (ValueError "range() arg 3 must not be zero").
Proof. unfold chunk_text, Py.range. rewrite Z.sub_diag. reflexivity. Qed.

(** C3, as the code has it.  With [chunk_overlap > chunk_size] the call
    returns the empty list; with [chunk_overlap = chunk_size] it raises
    the [ValueError] of [range] when the text and the vocabulary are not
    empty, and returns the empty list otherwise.  In both cases the
    outcome does not depend on the embedder, which is never consulted. *)
Theorem chunk_overlap_not_below_chunk_size
  (encode : list string -> Np.matrix) (skill_rows : list skill) (text : string)
  (top_k : Z) (sim_threshold : float) (chunk_size chunk_overlap : Z) :
  chunk_overlap >= chunk_size ->
  (chunk_size < chunk_overlap ->
   extract_skills_from_text encode skill_rows text top_k sim_threshold
     chunk_size chunk_overlap = Ok [])
  /\ (chunk_overlap = chunk_size ->
      (text = "" \/ skill_rows = [] ->
       extract_skills_from_text encode skill_rows text top_k sim_threshold
         chunk_size chunk_overlap = Ok [])
      /\ (text <> "" -> skill_rows <> [] ->
          extract_skills_from_text encode skill_rows text top_k sim_threshold
            chunk_size chunk_overlap
          = Raise (ValueError "range() arg 3 must not be zero")))
  /\ (forall encode',
        extract_skills_from_text encode' skill_rows text top_k sim_threshold
          chunk_size chunk_overlap
        = extract_skills_from_text encode skill_rows text top_k sim_threshold
            chunk_size chunk_overlap).
Proof.
  intros Hge.
  assert (Hneg : chunk_size < chunk_overlap ->
                 forall enc,
                   extract_skills_from_text enc skill_rows text top_k sim_threshold
                     chunk_size chunk_overlap = Ok []).
  { intros Hlt enc. apply extract_no_chunks, chunk_text_negative_step, Hlt. }
  assert (Hzero : chunk_overlap = chunk_size ->
                  forall enc,
                    extract_skills_from_text enc skill_rows text top_k sim_threshold
                      chunk_size chunk_overlap
                    = if String.eqb text "" then Ok []
                      else match skill_rows with
                           | [] => Ok []
                           | _ :: _ =>
                               Raise (ValueError "range() arg 3 must not be zero")
                           end).
  { intros -> enc. unfold extract_skills_from_text.
    rewrite chunk_text_zero_step. reflexivity. }
  split; [intros Hlt; apply Hneg, Hlt|]. split.
  - intros Heq. split.
    + intros Hor. rewrite (Hzero Heq). destruct Hor as [Ht | Hr].
      * subst text. reflexivity.
      * subst skill_rows. destruct (String.eqb text ""); reflexivity.
    + intros Ht Hr. rewrite (Hzero Heq).
      destruct (String.eqb text "") eqn:E; [apply String.eqb_eq in E; contradiction|].
      destruct skill_rows; [contradiction|reflexivity].
  - intros encode'.
    destruct (Z.eq_dec chunk_overlap chunk_size) as [Heq|Hne].
    + rewrite !(Hzero Heq). reflexivity.
    + rewrite !Hneg by lia. reflexivity.
Qed.

Lemma chunk_overlap_not_below_chunk_size_witness :
  extract_skills_from_text Sample.encode_east Sample.python_java
    "python django sql" 20 Sample.resume_threshold 20 100 = Ok []
  /\ extract_skills_from_text Sample.encode_east Sample.python_java
       "python django sql" 20 Sample.resume_threshold 20 20
     = Raise (ValueError "range() arg 3 must not be zero").
Proof.
  split.
  - destruct (chunk_overlap_not_below_chunk_size Sample.encode_east
                Sample.python_java "python django sql" 20 Sample.resume_threshold
                20 100 ltac:(lia)) as (H & _).
    apply H. lia.
  - destruct (chunk_overlap_not_below_chunk_size Sample.encode_east
                Sample.python_java "python django sql" 20 Sample.resume_threshold
                20 20 ltac:(lia)) as (_ & H & _).
    destruct (H eq_refl) as (_ & H'). apply H'; discriminate.
Defined.

(** C3, as stated, fails: an overlap above the chunk size is not
    rejected, the call succeeds with an empty list. *)
Lemma overlap_above_chunk_size_not_rejected :
  ~ rejects_chunk_parameters Sample.encode_east Sample.python_java
      "python django sql" 20 Sample.resume_threshold 20 100.
Proof.
  intros H. destruct (H ltac:(lia)) as [e He].
  vm_compute in He. discriminate.
Qed.

(* ------------------------------------------------------------------ *)
(** ** Job linking against the matching engine *)

Lemma extract_sorted (encode : list string -> Np.matrix) (skill_rows : list skill)
  (text : string) (top_k : Z) (thr : float) (chunk_size chunk_overlap : Z)
  (out : list match_t) :
  extract_skills_from_text encode skill_rows text top_k thr chunk_size chunk_overlap
  = Ok out ->
  sorted_by_score out.
Proof.
  intros H. apply extract_inv in H. destruct H as [->|(c & chunks & _ & ->)].
  - constructor.
  - destruct (slice_to_firstn (ranked (encode (c :: chunks)) thr skill_rows) top_k)
      as [n ->].
    apply StronglySorted_firstn, ranked_sorted.
Qed.

Section LinkFacts.

Variable vdot : Np.vec -> Np.vec -> float.
Variable vnorm : Np.vec -> float.

(** The linking loop keeps, in vocabulary order, the rows it links. *)
Lemma link_skills_filter (job_id : Z) (row : Np.vec) (thr : float)
  (skills : list skill) :
  Ingest.link_skills vdot vnorm job_id row thr skills
  = map (link_of vdot vnorm job_id row) (filter (linked vdot vnorm row thr) skills).
Proof.
  induction skills as [|s rows IH]; [reflexivity|].
  cbn [Ingest.link_skills filter]. rewrite IH.
  set (tail := map (link_of vdot vnorm job_id row)
                 (filter (linked vdot vnorm row thr) rows)).
  unfold linked, link_sim.
  destruct (emb_array s) as [[|x emb]|] eqn:He; try reflexivity.
  destruct (Ingest.cosine vdot vnorm row (x :: emb)) as [sim|e] eqn:Hc; [|reflexivity].
  destruct (F64.geb sim thr); [|reflexivity].
  cbn [map]. unfold link_of, link_sim. rewrite He, Hc. reflexivity.
Qed.

(** A linked row has a non-empty embedding of the posting's length, and
    its similarity reached the threshold. *)
Lemma linked_inv (row : Np.vec) (thr : float) (s : skill) :
  linked vdot vnorm row thr s = true ->
  exists x emb sim,
    emb_array s = Some (x :: emb)
    /\ List.length row = List.length (x :: emb)
    /\ link_sim vdot vnorm row s = Some sim
    /\ sim = F64.div (vdot row (x :: emb)) (F64.mul (vnorm row) (vnorm (x :: emb)))
    /\ F64.geb sim thr = true.
Proof.
  unfold linked, link_sim, Ingest.cosine.
  destruct (emb_array s) as [[|x emb]|]; try discriminate.
  destruct (Nat.eqb_spec (List.length row) (List.length (x :: emb))) as [Hl|Hl];
    [|discriminate].
  intros H. eexists x, emb, _. repeat split; [exact Hl|exact H].
Qed.


End LinkFacts.


Lemma chunk_text_all_space (text : string) (chunk_size chunk_overlap : Z)
  (c : string) (chunks : list string) :
  chunk_text text chunk_size chunk_overlap = Ok (c :: chunks) ->
  Py.all_space text = false.
Proof.
  intros H. destruct (Py.all_space text) eqn:E; [|reflexivity]. exfalso.
  unfold chunk_text, Py.split in H. rewrite (split_from_all_space text E) in H.
  unfold Py.range in H. cbn in H.
  destruct (chunk_size - chunk_overlap =? 0); [discriminate|].
  destruct (0 <? chunk_size - chunk_overlap); discriminate.
Qed.






(** The order differs too: the links of a posting are written in
    vocabulary order, the matches of the engine are ranked. *)
Example linking_is_in_vocabulary_order :
  Ingest.link_job Sample.encode_east Np.dot1 Np.norm Sample.rising 5
    "Data Engineer" "python and sql" Sample.job_threshold
  = [(5, 1, S754_finite false 6369051672525772 (-53));
     (5, 2, S754_finite false 4503599627370496 (-52))]
  /\ Ingest.link_job_spec Sample.encode_east Sample.rising 5 "Data Engineer"
       "python and sql" Sample.job_threshold 20 100 20
     = Ok [(5, 2, S754_finite false 4503599627370496 (-52));
           (5, 1, S754_finite false 6369051672525772 (-53))].
Proof. split; vm_compute; reflexivity. Qed.

(** Linking makes no cut: with [top_k = 2] the engine keeps two of three
    accepted skills, the linker links all three. *)
Example linking_has_no_top_k :
  Ingest.link_job Sample.encode_east Np.dot1 Np.norm Sample.three_east 5
    "Data Engineer" "python and sql" Sample.job_threshold
  = [(5, 1, Sample.one); (5, 2, Sample.one); (5, 3, Sample.one)]
  /\ Ingest.link_job_spec Sample.encode_east Sample.three_east 5 "Data Engineer"
       "python and sql" Sample.job_threshold 2 100 20
     = Ok [(5, 1, Sample.one); (5, 2, Sample.one)].
Proof. split; vm_compute; reflexivity. Qed.

(** Linking does not chunk: with windows of two words the engine finds a
    skill through the chunk [python sql], which the single embedding of
    the whole posting misses. *)
Example linking_does_not_chunk :
  Ingest.link_job Sample.encode_python_sql Np.dot1 Np.norm Sample.north 5
    "Data Engineer" "python sql" Sample.job_threshold
  = []
  /\ Ingest.link_job_spec Sample.encode_python_sql Sample.north 5 "Data Engineer"
       "python sql" Sample.job_threshold 20 2 0
     = Ok [(5, 4, Sample.one)].
Proof. split; vm_compute; reflexivity. Qed.

(** Two rows of one name are merged by the engine, while the linker
    links both: here too the links differ for every choice of [top_k],
    [chunk_size] and [chunk_overlap], the engine returning at most one
    match of the name. *)
Example linking_keeps_both_rows_of_a_name :
  Ingest.link_job Sample.encode_east Np.dot1 Np.norm Sample.one_name_two_ids 5
    "Data Engineer" "python and sql" Sample.job_threshold
  = [(5, 1, S754_finite false 4503599627370496 (-52));
     (5, 2, S754_finite false 6369051672525772 (-53))]
  /\ Ingest.link_job_spec Sample.encode_east Sample.one_name_two_ids 5
       "Data Engineer" "python and sql" Sample.job_threshold 20 100 20
     = Ok [(5, 2, S754_finite false 6369051672525772 (-53))].
Proof. split; vm_compute; reflexivity. Qed.

(* ------------------------------------------------------------------ *)
(** ** The vocabulary cache *)

Section CacheFacts.
Variable json_loads : string -> option Np.vec.
Variable datastore : nat -> result (list Cache.skill_row).

Local Abbreviation get_ := (Cache.get_skills_with_embeddings json_loads datastore).
Local Abbreviation call_n_ := (Cache.call_n json_loads datastore).
Local Abbreviation step_ := (Cache.step_call json_loads datastore).
Local Abbreviation run_ := (Cache.run json_loads datastore).

Lemma get_hit (st : Cache.process) (v : Cache.loaded) :
  Cache.cache st = Some v -> get_ st = (Ok v, st).
Proof. intros H. unfold Cache.get_skills_with_embeddings. rewrite H. reflexivity. Qed.

Lemma get_miss (st : Cache.process) :
  Cache.cache st = None ->
  get_ st
  = match datastore (Cache.fetches st) with
    | Ok rs =>
        let v := Cache.mk_loaded (Cache.fetches st)
                   (map (Cache.process_row json_loads) rs) in
        (Ok v, Cache.mk_process (Some v) (S (Cache.fetches st)))
    | Raise e => (Raise e, Cache.mk_process None (S (Cache.fetches st)))
    end.
Proof.
  intros H. unfold Cache.get_skills_with_embeddings, Cache.load, Cache.store.
  rewrite H. destruct (datastore (Cache.fetches st)); reflexivity.
Qed.

Lemma call_n_hit (n : nat) (st : Cache.process) (v : Cache.loaded) :
  Cache.cache st = Some v -> call_n_ n st = (repeat (Ok v) n, st).
Proof.
  intros H. induction n as [|n IH]; [reflexivity|].
  cbn [Cache.call_n repeat]. rewrite (get_hit st v H), IH. reflexivity.
Qed.

Lemma count_raised_repeat_ok {A : Type} (v : A) (n : nat) :
  count_raised (repeat (Ok v) n) = 0%nat.
Proof. induction n; [reflexivity|exact IHn]. Qed.

(** From an empty cache: every call before the first success queried and
    failed, the first success queried once, no later call queried. *)
Lemma call_n_miss (n : nat) :
  forall st rs st',
    Cache.cache st = None ->
    call_n_ n st = (rs, st') ->
    Cache.fetches st'
    = (Cache.fetches st + count_raised rs + (if some_ok rs then 1 else 0))%nat
    /\ (forall v w, In (Ok v) rs -> In (Ok w) rs -> v = w)
    /\ (forall v, In (Ok v) rs -> Cache.cache st' = Some v).
Proof.
  induction n as [|n IH]; intros st rs st' Hc H.
  - injection H as <- <-. cbn. repeat split; try tauto. lia.
  - cbn [Cache.call_n] in H. rewrite (get_miss st Hc) in H.
    destruct (datastore (Cache.fetches st)) as [rows|e].
    + cbn iota zeta in H.
      set (v0 := Cache.mk_loaded (Cache.fetches st)
                   (map (Cache.process_row json_loads) rows)) in *.
      rewrite (call_n_hit n (Cache.mk_process (Some v0) (S (Cache.fetches st))) v0
                 eq_refl) in H.
      injection H as <- <-.
      assert (Hcount : count_raised (Ok v0 :: repeat (Ok v0) n) = 0%nat)
        by apply (count_raised_repeat_ok v0 (S n)).
      rewrite Hcount. cbn [some_ok existsb orb Cache.fetches].
      repeat split.
      * lia.
      * intros v w [[= <-]|Hv] [[= <-]|Hw]; try reflexivity.
        -- apply repeat_spec in Hw. congruence.
        -- apply repeat_spec in Hv. congruence.
        -- apply repeat_spec in Hv, Hw. congruence.
      * intros v [[= <-]|Hv]; [reflexivity|].
        apply repeat_spec in Hv. injection Hv as ->. reflexivity.
    + destruct (call_n_ n (Cache.mk_process None (S (Cache.fetches st))))
        as [rs1 st1] eqn:E.
      injection H as <- <-.
      destruct (IH (Cache.mk_process None (S (Cache.fetches st))) rs1 st1 eq_refl E)
        as (Hf & Hsame & Hcache).
      unfold count_raised, some_ok in *.
      cbn [filter existsb orb List.length Cache.fetches] in *.
      repeat split.
      * rewrite Hf. lia.
      * intros v w [[=]|Hv] [[=]|Hw]. auto.
      * intros v [[=]|Hv]. auto.
Qed.

(** One step of any call leaves a filled cache as it is. *)
Lemma step_call_keeps_cache (c : Cache.call) (st : Cache.process) (v : Cache.loaded) :
  Cache.cache st = Some v -> Cache.cache (snd (step_ c st)) = Some v.
Proof.
  intros H. destruct c as [| |r|r]; cbn.
  - rewrite H. exact H.
  - unfold Cache.load. destruct (datastore (Cache.fetches st)); exact H.
  - unfold Cache.store. rewrite H. destruct r; exact H.
  - exact H.
Qed.

Lemma run_keeps_cache (schedule : list nat) :
  forall threads st v,
    Cache.cache st = Some v ->
    Cache.cache (snd (run_ schedule (threads, st))) = Some v.
Proof.
  induction schedule as [|i schedule IH]; intros threads st v H; [exact H|].
  cbn [Cache.run fold_left]. unfold Cache.step_thread at 2.
  destruct (nth_error threads i) as [c|]; [|apply IH; exact H].
  pose proof (step_call_keeps_cache c st v H) as Hk.
  destruct (Cache.step_call json_loads datastore c st) as [c' st'].
  apply IH. exact Hk.
Qed.

(** Calls that do not overlap.  A call that finds the cache filled returns
    the memoized object, sends no query and cannot fail; a call that
    finds it empty sends one query and memoizes the rows only when the
    query succeeds.  In a run of calls one after the other at most one
    query succeeds: the fetches are the failed calls plus one for the
    first success, and all successful calls return one and the same
    object.  However calls interleave, a filled cache is never replaced,
    and a call that starts on a filled cache returns it at once, while a
    call that starts on an empty cache goes on to send its own query. *)
Theorem cache_memoizes_first_success :
  (forall st v, Cache.cache st = Some v -> get_ st = (Ok v, st))
  /\ (forall st r st',
        Cache.cache st = None -> get_ st = (r, st') ->
        Cache.fetches st' = S (Cache.fetches st)
        /\ match r with
           | Ok v => Cache.cache st' = Some v
           | Raise _ => Cache.cache st' = None
           end)
  /\ (forall n rs st',
        call_n_ n Cache.fresh = (rs, st') ->
        Cache.fetches st' = (count_raised rs + (if some_ok rs then 1 else 0))%nat
        /\ (forall v w, In (Ok v) rs -> In (Ok w) rs -> v = w))
  /\ (forall schedule threads st v,
        Cache.cache st = Some v ->
        Cache.cache (snd (run_ schedule (threads, st))) = Some v
        /\ step_ Cache.Start st = (Cache.Returned (Ok v), st))
  /\ (forall st,
        Cache.cache st = None ->
        step_ Cache.Start st = (Cache.Missed, st)
        /\ Cache.fetches (snd (step_ Cache.Missed st)) = S (Cache.fetches st)).
Proof.
  split; [exact get_hit|]. split; [|split; [|split]].
  - intros st r st' Hc H. rewrite (get_miss st Hc) in H.
    destruct (datastore (Cache.fetches st)); injection H as <- <-; auto.
  - intros n rs st' H.
    destruct (call_n_miss n Cache.fresh rs st' eq_refl H) as (Hf & Hsame & _).
    split; [exact Hf|exact Hsame].
  - intros schedule threads st v H. split; [apply run_keeps_cache; exact H|].
    cbn. rewrite H. reflexivity.
  - intros st H. split; [cbn; rewrite H; reflexivity|].
    cbn. unfold Cache.load. destruct (datastore (Cache.fetches st)); reflexivity.
Qed.

End CacheFacts.

Lemma cache_memoizes_first_success_witness :
  let v := Cache.mk_loaded 1 [mk_skill 1 "python" None] in
  Cache.call_n Sample.no_json Sample.datastore_down_once 4 Cache.fresh
  = ([Raise (DatabaseError "connection refused"); Ok v; Ok v; Ok v],
     Cache.mk_process (Some v) 2)
  /\ Cache.get_skills_with_embeddings Sample.no_json Sample.datastore_down_once
       (Cache.mk_process (Some v) 2)
     = (Ok v, Cache.mk_process (Some v) 2).
Proof.
  intros v. split; [reflexivity|].
  apply (cache_memoizes_first_success Sample.no_json Sample.datastore_down_once).
  reflexivity.
Defined.



(* ------------------------------------------------------------------ *)
(** ** [save_user_skills] *)

Section TransactionFacts.
Variable accepts : Db.statement -> list Db.user_skill -> bool.

(** While the statements run, other connections read the committed table
    only. *)
Lemma run_statements_seen (stmts : list Db.statement) :
  forall committed working r seen,
    Db.run_statements accepts stmts committed working = (r, seen) ->
    Forall (fun t => t = committed) seen.
Proof.
  induction stmts as [|stmt rest IH]; intros committed working r seen H;
    cbn [Db.run_statements] in H.
  - injection H as <- <-. constructor.
  - destruct (Db.execute accepts stmt working) as [working'|e].
    + destruct (Db.run_statements accepts rest committed working') as [r1 seen1] eqn:E.
      injection H as <- <-. constructor; [reflexivity|]. eapply IH; exact E.
    + injection H as <- <-. constructor; [reflexivity|constructor].
Qed.

(** Inserts that all go through append their rows in order. *)
Lemma run_inserts_ok (user_id : Z) (matched : list match_t) :
  forall committed working working' seen,
    Db.run_statements accepts (map (Db.insert_of user_id) matched) committed working
    = (Ok working', seen) ->
    working' = working ++ map (Db.row_of user_id) matched.
Proof.
  induction matched as [|m rest IH]; intros committed working working' seen H;
    cbn [map Db.run_statements] in H.
  - injection H as <- _. rewrite app_nil_r. reflexivity.
  - unfold Db.execute in H. cbn [Db.insert_of] in H.
    destruct (accepts (Db.insert_of user_id m) working); [|discriminate].
    fold (Db.execute accepts) in H.
    destruct (Db.run_statements accepts (map (Db.insert_of user_id) rest) committed
                (working ++ [Db.row_of user_id m])) as [r1 seen1] eqn:E.
    injection H as -> _. rewrite (IH _ _ _ _ E), <- app_assoc. reflexivity.
Qed.

(** C7.  [save_user_skills] runs its [DELETE] and its [INSERT]s in one
    transaction: while it runs, every other connection reads the prior
    table; afterwards the table is either the prior one with the user's
    rows replaced by exactly the new matches (the rows of other users
    untouched), when every statement went through, or the prior table
    unchanged, when one was refused. *)
Theorem save_user_skills_all_or_nothing
  (user_id : Z) (matched_skills : list match_t) (committed : list Db.user_skill)
  (outcome : result unit) (committed' : list Db.user_skill)
  (seen : list (list Db.user_skill)) :
  Db.save_user_skills accepts user_id matched_skills committed
  = (outcome, committed', seen) ->
  Forall (fun t => t = committed) seen
  /\ match outcome with
     | Ok _ =>
         committed' = Db.replaced user_id matched_skills committed
         /\ filter (fun r => Db.us_user_id r =? user_id) committed'
            = map (Db.row_of user_id) matched_skills
         /\ filter (fun r => negb (Db.us_user_id r =? user_id)) committed'
            = filter (fun r => negb (Db.us_user_id r =? user_id)) committed
     | Raise _ => committed' = committed
     end.
Proof.
  unfold Db.save_user_skills, Db.transaction. intros H.
  destruct (Db.run_statements accepts
              (Db.DeleteUserSkills user_id :: map (Db.insert_of user_id) matched_skills)
              committed committed) as [r seen0] eqn:E.
  pose proof (run_statements_seen _ _ _ _ _ E) as Hseen.
  destruct r as [working|e]; injection H as <- <- <-; split; auto.
  cbn [Db.run_statements] in E. unfold Db.execute in E at 1.
  destruct (accepts (Db.DeleteUserSkills user_id) committed); [|discriminate].
  destruct (Db.run_statements accepts (map (Db.insert_of user_id) matched_skills)
              committed (filter (fun r => negb (Db.us_user_id r =? user_id)) committed))
    as [r1 seen1] eqn:E1.
  injection E as -> _. apply run_inserts_ok in E1. subst working.
  split; [reflexivity|]. rewrite !filter_app. split.
  - rewrite (filter_none _ (filter _ committed)).
    + cbn [app]. apply forallb_filter_id, forallb_forall.
      intros r Hr. apply in_map_iff in Hr.
      destruct Hr as (m & <- & _). cbn. apply Z.eqb_refl.
    + intros r Hr. apply filter_In in Hr. destruct Hr as [_ Hr].
      apply negb_true_iff in Hr. exact Hr.
  - rewrite (filter_none _ (map _ _)), app_nil_r.
    + apply forallb_filter_id, forallb_forall.
      intros r Hr. apply filter_In in Hr. tauto.
    + intros r Hr. apply in_map_iff in Hr. destruct Hr as (m & <- & _).
      cbn. rewrite Z.eqb_refl. reflexivity.
Qed.

End TransactionFacts.

Lemma save_user_skills_all_or_nothing_witness :
  Db.save_user_skills Sample.primary_key 5
    [(1, "python", Sample.one); (4, "sql", Sample.half)] Sample.stored
  = (Ok tt,
     [Db.mk_user_skill 6 2 Sample.one; Db.mk_user_skill 5 1 Sample.one;
      Db.mk_user_skill 5 4 Sample.half],
     [Sample.stored; Sample.stored; Sample.stored])
  /\ filter (fun r => Db.us_user_id r =? 5)
       [Db.mk_user_skill 6 2 Sample.one; Db.mk_user_skill 5 1 Sample.one;
        Db.mk_user_skill 5 4 Sample.half]
     = map (Db.row_of 5) [(1, "python", Sample.one); (4, "sql", Sample.half)].
Proof.
  assert (Hrun : Db.save_user_skills Sample.primary_key 5
                   [(1, "python", Sample.one); (4, "sql", Sample.half)] Sample.stored
                 = (Ok tt,
                    [Db.mk_user_skill 6 2 Sample.one; Db.mk_user_skill 5 1 Sample.one;
                     Db.mk_user_skill 5 4 Sample.half],
                    [Sample.stored; Sample.stored; Sample.stored]))
    by reflexivity.
  split; [exact Hrun|].
  destruct (save_user_skills_all_or_nothing _ _ _ _ _ _ _ Hrun) as (_ & _ & H & _).
  exact H.
Defined.

(** A refused [INSERT] (here the second row repeats the key of the
    first) rolls the whole replacement back. *)
Example save_user_skills_rolls_back :
  Db.save_user_skills Sample.primary_key 5
    [(1, "python", Sample.one); (1, "py", Sample.half)] Sample.stored
  = (Raise (DatabaseError "statement refused"), Sample.stored,
     [Sample.stored; Sample.stored; Sample.stored]).
Proof. reflexivity. Qed.

(* ------------------------------------------------------------------ *)
(** ** Roadmap generation *)

Lemma slice_to_3 {A : Type} (l : list A) : Py.slice_to l 3 = firstn 3 l.
Proof.
  unfold Py.slice_to, Py.clip. cbn [Z.ltb Z.compare].
  destruct (Z.le_ge_cases 3 (Z.of_nat (List.length l))) as [H|H].
  - rewrite Z.min_l by lia. reflexivity.
  - rewrite Z.min_r by lia. rewrite Nat2Z.id.
    rewrite !firstn_all2; [reflexivity|lia|lia].
Qed.

Lemma remove_nth_perm {A : Type} (d : A) (l : list A) :
  forall i, (i < List.length l)%nat ->
            Permutation (nth i l d :: Roadmap.remove_nth i l) l.
Proof.
  induction l as [|x l IH]; intros i Hi; cbn in Hi; [lia|].
  destruct i as [|i]; cbn; [reflexivity|].
  rewrite perm_swap. constructor. apply IH. lia.
Qed.

(** Whatever the order of completion, the futures handed back are the
    futures submitted. *)
Lemma as_completed_perm {A : Type} (schedule : list nat) :
  forall pending : list A, Permutation (Roadmap.as_completed schedule pending) pending.
Proof.
  induction schedule as [|n schedule IH]; intros pending; cbn; [reflexivity|].
  destruct pending as [|x rest]; [reflexivity|].
  set (l := x :: rest).
  assert (Hi : (Nat.modulo n (List.length l) < List.length l)%nat)
    by (apply Nat.mod_upper_bound; discriminate).
  rewrite IH. apply remove_nth_perm. exact Hi.
Qed.

Section RoadmapFacts.
Variable invoke : Roadmap.request -> result Roadmap.Roadmap.

Lemma submit_all_map (user_summary duration : string) (skills : list (string * Z)) :
  forall sent,
    Roadmap.submit_all invoke user_summary duration skills sent
    = (map (slot_of invoke user_summary duration) skills,
       sent ++ map (request_of user_summary duration) skills).
Proof.
  induction skills as [|[name imp] rest IH]; intros sent; cbn [Roadmap.submit_all map].
  - rewrite app_nil_r. reflexivity.
  - unfold Roadmap.create_single_roadmap. rewrite IH, <- app_assoc. reflexivity.
Qed.

(** C9.  For a non-empty list of missing skills, [generate_roadmap]
    sends one request per skill among the first three, so at most three,
    and returns normally with one slot per request, in some order: the
    plan when the request succeeded, the error payload naming the skill
    when it raised.  No failure of a request makes the batch fail or
    removes the slot of another. *)
Theorem roadmap_slots_are_independent
  (schedule : list nat) (user_summary : string)
  (missing_skills : list (string * Z)) (duration : string)
  (sent : list Roadmap.request) :
  missing_skills <> [] ->
  exists slots,
    Roadmap.generate_roadmap invoke schedule user_summary missing_skills duration sent
    = (Ok slots,
       sent ++ map (request_of user_summary duration) (firstn 3 missing_skills))
    /\ (List.length (firstn 3 missing_skills) <= 3)%nat
    /\ List.length slots = List.length (firstn 3 missing_skills)
    /\ Permutation slots
         (map (slot_of invoke user_summary duration) (firstn 3 missing_skills))
    /\ (forall s, In s (firstn 3 missing_skills) ->
          match invoke (request_of user_summary duration s) with
          | Ok r => In (Roadmap.Plan r) slots
          | Raise e =>
              In (Roadmap.ErrorPayload
                    ("Failed to generate roadmap for " ++ fst s)%string
                    (str_of_error e)) slots
          end).
Proof.
  intros Hne. unfold Roadmap.generate_roadmap. rewrite slice_to_3.
  destruct (firstn 3 missing_skills) as [|s0 rest] eqn:E.
  { destruct missing_skills; [contradiction|discriminate]. }
  rewrite submit_all_map.
  set (planned := s0 :: rest) in *.
  assert (Hperm : Permutation
                    (Roadmap.as_completed schedule
                       (map (slot_of invoke user_summary duration) planned))
                    (map (slot_of invoke user_summary duration) planned))
    by apply as_completed_perm.
  eexists. split; [reflexivity|]. split; [|split; [|split]].
  - rewrite <- E. rewrite length_firstn. lia.
  - rewrite (Permutation_length Hperm), length_map. reflexivity.
  - exact Hperm.
  - intros s Hs.
    assert (Hin : In (slot_of invoke user_summary duration s)
                    (Roadmap.as_completed schedule
                       (map (slot_of invoke user_summary duration) planned))).
    { apply (Permutation_in _ (Permutation_sym Hperm)), in_map, Hs. }
    unfold slot_of in Hin at 1.
    destruct (invoke (request_of user_summary duration s)); exact Hin.
Qed.

End RoadmapFacts.

Lemma roadmap_slots_are_independent_witness :
  Roadmap.generate_roadmap Sample.invoke_but_docker [2; 0]%nat "a data engineer"
    Sample.four_missing "90 days" []
  = (Ok [Roadmap.Plan (Sample.plan_for "aws"); Roadmap.Plan (Sample.plan_for "sql");
         Roadmap.ErrorPayload "Failed to generate roadmap for docker"
           "rate limit exceeded"],
     [Roadmap.mk_request "sql" 3 "a data engineer" "90 days";
      Roadmap.mk_request "docker" 1 "a data engineer" "90 days";
      Roadmap.mk_request "aws" 1 "a data engineer" "90 days"])
  /\ exists slots,
       fst (Roadmap.generate_roadmap Sample.invoke_but_docker [2; 0]%nat
              "a data engineer" Sample.four_missing "90 days" []) = Ok slots
       /\ In (Roadmap.ErrorPayload "Failed to generate roadmap for docker"
                "rate limit exceeded") slots
       /\ In (Roadmap.Plan (Sample.plan_for "sql")) slots.
Proof.
  split; [reflexivity|].
  destruct (roadmap_slots_are_independent Sample.invoke_but_docker [2; 0]%nat
              "a data engineer" Sample.four_missing "90 days" [] ltac:(discriminate))
    as (slots & Hrun & _ & _ & _ & Hslots).
  exists slots. split; [rewrite Hrun; reflexivity|]. split.
  - apply (Hslots ("docker", 1)). cbn. auto.
  - apply (Hslots ("sql", 3)). cbn. auto.
Defined.

(** With no missing skill the pool cannot be created; the endpoint does
    not call [generate_roadmap] in that case. *)
Example roadmap_of_nothing_raises :
  Roadmap.generate_roadmap Sample.invoke_but_docker [] "a data engineer" [] "90 days" []
  = (Raise (ValueError "max_workers must be greater than 0"), []).
Proof. reflexivity. Qed.

(* ------------------------------------------------------------------ *)
(** ** The gap query *)

(** *** [LIKE] against a pattern without metacharacters *)

Lemma like_percent (p t : string) :
  Db.like (String "%" p) t
  = Db.like p t
    || match t with
       | EmptyString => false
       | String _ t' => Db.like (String "%" p) t'
       end.
Proof. destruct t; reflexivity. Qed.

Lemma like_plain_char (c : ascii) (p t : string) :
  Ascii.eqb c "%" = false -> Ascii.eqb c "_" = false -> Ascii.eqb c "\" = false ->
  Db.like (String c p) t
  = match t with
    | EmptyString => false
    | String d t' => Ascii.eqb c d && Db.like p t'
    end.
Proof. intros H1 H2 H3. cbn [Db.like]. rewrite H1, H2, H3. reflexivity. Qed.

Lemma like_only_percent (t : string) : Db.like "%" t = true.
Proof.
  induction t as [|c t IH]; [reflexivity|].
  rewrite like_percent. rewrite IH. apply orb_true_r.
Qed.

Lemma like_plain_prefix (p : string) :
  plain p = true -> forall t, Db.like (p ++ "%") t = String.prefix p t.
Proof.
  induction p as [|c p IH]; intros Hp t.
  - cbn [String.append]. rewrite like_only_percent. destruct t; reflexivity.
  - cbn [plain] in Hp. apply andb_prop in Hp. destruct Hp as [Hc Hp].
    apply andb_prop in Hc. destruct Hc as [Hc H3].
    apply andb_prop in Hc. destruct Hc as [H1 H2].
    apply negb_true_iff in H1, H2, H3.
    cbn [String.append]. rewrite like_plain_char by assumption.
    destruct t as [|d t]; [reflexivity|]. cbn [String.prefix].
    rewrite (IH Hp). destruct (Ascii.eqb_spec c d) as [->|Hne].
    + destruct (ascii_dec d d); [reflexivity|contradiction].
    + destruct (ascii_dec c d); [contradiction|reflexivity].
Qed.

(** Between two [%], a pattern without metacharacters is a substring
    test. *)
Lemma like_plain_contains (p : string) :
  plain p = true ->
  forall t, Db.like ("%" ++ p ++ "%") t = Db.contains p t.
Proof.
  intros Hp t. cbn [String.append].
  induction t as [|c t IH]; rewrite like_percent, (like_plain_prefix p Hp).
  - destruct p; reflexivity.
  - rewrite IH. reflexivity.
Qed.



(** *** Joining, grouping and ordering *)


Lemma key_eqb_eq (a b : Z * string) : key_eqb a b = true <-> a = b.
Proof.
  destruct a as [i n], b as [i' n']. unfold key_eqb. cbn [fst snd].
  rewrite andb_true_iff, Z.eqb_eq, String.eqb_eq. split.
  - intros [-> ->]. reflexivity.
  - intros [= -> ->]. auto.
Qed.

Lemma key_eqb_refl (a : Z * string) : key_eqb a a = true.
Proof. apply key_eqb_eq. reflexivity. Qed.

Lemma key_eqb_neq (a b : Z * string) : key_eqb a b = false <-> a <> b.
Proof.
  rewrite <- key_eqb_eq. destruct (key_eqb a b); intuition congruence.
Qed.

Lemma count_row_test (g : Db.gap_entry) (sid : Z) (nm : string) :
  (Db.gap_id g =? sid) && String.eqb (Db.gap_name g) nm = key_eqb (gap_key g) (sid, nm).
Proof. reflexivity. Qed.

Lemma count_row_keys (sid : Z) (nm : string) (groups : list Db.gap_entry) (k : Z * string) :
  In k (map gap_key (Db.count_row sid nm groups))
  <-> k = (sid, nm) \/ In k (map gap_key groups).
Proof.
  induction groups as [|g groups IH]; cbn [Db.count_row].
  - cbn [map In]. change (gap_key (sid, nm, 1)) with (sid, nm).
    split; [intros [H|[]]; left; symmetry; exact H|].
    intros [H|[]]. left. symmetry. exact H.
  - rewrite count_row_test. destruct (key_eqb (gap_key g) (sid, nm)) eqn:E.
    + apply key_eqb_eq in E. cbn [map In]. rewrite E.
      change (gap_key (sid, nm, Db.gap_freq g + 1)) with (sid, nm).
      split; [intros [H|H]; [left; symmetry; exact H|right; right; exact H]|].
      intros [H|[H|H]]; [left; symmetry; exact H|left; exact H|right; exact H].
    + cbn [map In]. rewrite IH. tauto.
Qed.

Lemma count_row_nodup (sid : Z) (nm : string) (groups : list Db.gap_entry) :
  NoDup (map gap_key groups) -> NoDup (map gap_key (Db.count_row sid nm groups)).
Proof.
  induction groups as [|g groups IH]; cbn [Db.count_row]; intros H.
  - cbn. constructor; [tauto|constructor].
  - rewrite count_row_test. cbn [map] in H. inversion H as [|? ? Hg Hnd]; subst.
    destruct (key_eqb (gap_key g) (sid, nm)) eqn:E.
    + apply key_eqb_eq in E. cbn [map].
      change (gap_key (sid, nm, Db.gap_freq g + 1)) with (sid, nm).
      rewrite <- E. constructor; assumption.
    + apply key_eqb_neq in E. cbn [map]. constructor; [|auto].
      rewrite count_row_keys. intros [Hk|Hk]; [congruence|contradiction].
Qed.

(** Where an entry of [count_row] comes from. *)
Lemma count_row_in (sid : Z) (nm : string) (groups : list Db.gap_entry)
  (g : Db.gap_entry) :
  NoDup (map gap_key groups) ->
  In g (Db.count_row sid nm groups) ->
  (gap_key g = (sid, nm)
   /\ ((exists g0, In g0 groups /\ gap_key g0 = (sid, nm)
                   /\ Db.gap_freq g = Db.gap_freq g0 + 1)
       \/ (~ In (sid, nm) (map gap_key groups) /\ Db.gap_freq g = 1)))
  \/ (gap_key g <> (sid, nm) /\ In g groups).
Proof.
  induction groups as [|h groups IH]; cbn [Db.count_row]; intros Hnd Hin.
  - destruct Hin as [<-|[]]. left. split; [reflexivity|]. right. cbn. tauto.
  - rewrite count_row_test in Hin. cbn [map] in Hnd.
    inversion Hnd as [|? ? Hh Hnd']; subst.
    destruct (key_eqb (gap_key h) (sid, nm)) eqn:E.
    + apply key_eqb_eq in E. destruct Hin as [<-|Hin].
      * left. split; [reflexivity|]. left. exists h. cbn. auto.
      * right. split; [|right; exact Hin].
        intros Hk. apply Hh. rewrite E, <- Hk. apply in_map. exact Hin.
    + apply key_eqb_neq in E. destruct Hin as [<-|Hin].
      * right. split; [exact E|left; reflexivity].
      * destruct (IH Hnd' Hin) as [[Hk [(g0 & Hg0 & Hk0 & Hf)|[Hnew Hf]]]|[Hk Hg]].
        -- left. split; [exact Hk|]. left. exists g0. cbn. auto.
        -- left. split; [exact Hk|]. right. split; [|exact Hf].
           cbn [map In]. intros [Hh'|Hin']; [congruence|contradiction].
        -- right. split; [exact Hk|right; exact Hg].
Qed.


Lemma rows_of_key_app (k : Z * string) (p q : list (Db.skill_rec * Db.job_skill * Db.job)) :
  rows_of_key k (p ++ q) = (rows_of_key k p + rows_of_key k q)%nat.
Proof. unfold rows_of_key. rewrite filter_app, length_app. reflexivity. Qed.

Lemma rows_of_key_zero (k : Z * string) (p : list (Db.skill_rec * Db.job_skill * Db.job)) :
  (forall r, In r p -> row_key r <> k) -> rows_of_key k p = 0%nat.
Proof.
  intros H. unfold rows_of_key. rewrite filter_none; [reflexivity|].
  intros r Hr. apply key_eqb_neq. auto.
Qed.

Lemma counted_step (groups : list Db.gap_entry)
  (p : list (Db.skill_rec * Db.job_skill * Db.job))
  (r : Db.skill_rec * Db.job_skill * Db.job) :
  counted groups p ->
  counted (Db.count_row (fst (row_key r)) (snd (row_key r)) groups) (p ++ [r]).
Proof.
  intros (Hnd & Hfreq & Hkeys).
  destruct (row_key r) as [sid nm] eqn:Hk. cbn [fst snd].
  assert (Hone : rows_of_key (sid, nm) [r] = 1%nat).
  { unfold rows_of_key. cbn [filter]. rewrite Hk, key_eqb_refl. reflexivity. }
  split; [apply count_row_nodup; exact Hnd|]. split.
  - intros g Hg. rewrite rows_of_key_app.
    destruct (count_row_in sid nm groups g Hnd Hg)
      as [[Hgk [(g0 & Hg0 & Hk0 & Hf)|[Hnew Hf]]]|[Hgk Hin]].
    + rewrite Hgk, Hone. destruct (Hfreq g0 Hg0) as [Hf0 H1].
      rewrite Hk0 in Hf0, H1. lia.
    + rewrite Hgk, Hone.
      rewrite (rows_of_key_zero (sid, nm) p).
      * lia.
      * intros r' Hr' Hk'. apply Hnew. rewrite <- Hk'. auto.
    + destruct (Hfreq g Hin) as [Hf0 H1].
      assert (Hz : rows_of_key (gap_key g) [r] = 0%nat).
      { apply rows_of_key_zero. intros r' [<-|[]]. congruence. }
      rewrite Hz. lia.
  - intros r' Hr'. apply count_row_keys. apply in_app_or in Hr'.
    destruct Hr' as [Hr'|[<-|[]]]; [right; auto|left; exact Hk].
Qed.

Lemma counted_fold (rs : list (Db.skill_rec * Db.job_skill * Db.job)) :
  forall groups p,
    counted groups p ->
    counted (fold_left (fun groups r =>
                          Db.count_row (Db.s_skill_id (fst (fst r)))
                            (Db.s_name (fst (fst r))) groups) rs groups)
      (p ++ rs).
Proof.
  induction rs as [|r rs IH]; intros groups p H; cbn [fold_left].
  - rewrite app_nil_r. exact H.
  - replace (p ++ r :: rs) with ((p ++ [r]) ++ rs)
      by (rewrite <- app_assoc; reflexivity).
    apply IH. apply (counted_step groups p r H).
Qed.

Lemma group_count_counted (rs : list (Db.skill_rec * Db.job_skill * Db.job)) :
  counted (Db.group_count rs) rs.
Proof.
  apply (counted_fold rs [] []). split; [constructor|]. split; intros ? [].
Qed.

Section OrderFacts.

Variable tie_first : Db.gap_entry -> Db.gap_entry -> bool.

Lemma insert_freq_perm (g : Db.gap_entry) (l : list Db.gap_entry) :
  Permutation (Db.insert_freq tie_first g l) (g :: l).
Proof.
  induction l as [|h l IH]; cbn; [reflexivity|].
  destruct (Db.gap_freq g <? Db.gap_freq h).
  - rewrite IH. apply perm_swap.
  - destruct ((Db.gap_freq g =? Db.gap_freq h) && tie_first h g); [|reflexivity].
    rewrite IH. apply perm_swap.
Qed.

Lemma order_by_freq_perm (l : list Db.gap_entry) :
  Permutation (Db.order_by_freq tie_first l) l.
Proof.
  induction l as [|g l IH]; cbn; [reflexivity|].
  rewrite insert_freq_perm. constructor. exact IH.
Qed.

Lemma insert_freq_sorted (g : Db.gap_entry) (l : list Db.gap_entry) :
  StronglySorted by_freq l -> StronglySorted by_freq (Db.insert_freq tie_first g l).
Proof.
  induction l as [|h l IH]; intros Hs; cbn; [repeat constructor|].
  apply StronglySorted_inv in Hs. destruct Hs as [Hl Hh].
  rewrite Forall_forall in Hh.
  assert (Hunder : Db.gap_freq g <= Db.gap_freq h ->
                   StronglySorted by_freq (h :: Db.insert_freq tie_first g l)).
  { intros Hle. constructor; [apply IH; exact Hl|].
    apply Forall_forall. intros x Hx.
    apply (Permutation_in _ (insert_freq_perm g l)) in Hx.
    destruct Hx as [<-|Hx]; [unfold by_freq; lia|auto]. }
  destruct (Z.ltb_spec (Db.gap_freq g) (Db.gap_freq h)) as [Hlt|Hge].
  - apply Hunder. lia.
  - destruct (Z.eqb_spec (Db.gap_freq g) (Db.gap_freq h)) as [He|Hne]; cbn [andb].
    + destruct (tie_first h g); [apply Hunder; lia|].
      constructor; [constructor; [exact Hl|apply Forall_forall; exact Hh]|].
      constructor; [unfold by_freq; lia|].
      apply Forall_forall. intros x Hx.
      unfold by_freq in *. specialize (Hh x Hx). lia.
    + constructor; [constructor; [exact Hl|apply Forall_forall; exact Hh]|].
      constructor; [unfold by_freq; lia|].
      apply Forall_forall. intros x Hx.
      unfold by_freq in *. specialize (Hh x Hx). lia.
Qed.

Lemma order_by_freq_sorted (l : list Db.gap_entry) :
  StronglySorted by_freq (Db.order_by_freq tie_first l).
Proof.
  induction l as [|g l IH]; cbn; [constructor|]. apply insert_freq_sorted, IH.
Qed.

End OrderFacts.


Lemma filter_filter {A : Type} (p q : A -> bool) (l : list A) :
  filter p (filter q l) = filter (fun x => q x && p x) l.
Proof.
  induction l as [|x l IH]; cbn; [reflexivity|].
  destruct (q x); cbn; [destruct (p x)|]; rewrite IH; reflexivity.
Qed.



(** The scenario of the specification, and a user who has [sql]
    recorded. *)
Example gap_of_engineer :
  fst (Db.compute_gap Sample.group_order Sample.postings 5 "engineer" 2)
  = Ok [(2, "sql", 3); (1, "docker", 1)]
  /\ fst (Db.compute_gap Sample.group_order Sample.postings 6 "engineer" 2)
     = Ok [(1, "docker", 1)]
  /\ fst (Db.compute_gap Sample.group_order Sample.postings 5 "nurse" 2) = Ok [].
Proof. repeat split. Qed.

(** With a limit of one the most frequent skill is the row returned,
    under either order of ties. *)
Example gap_limit_keeps_the_most_frequent :
  fst (Db.compute_gap Sample.group_order Sample.postings 5 "engineer" 1)
  = Ok [(2, "sql", 3)]
  /\ fst (Db.compute_gap Sample.reverse_order Sample.postings 5 "engineer" 1)
     = Ok [(2, "sql", 3)].
Proof. repeat split. Qed.

(** A posting stored without a title is matched by no pattern. *)
Example gap_skips_untitled_postings :
  fst (Db.compute_gap Sample.group_order Sample.with_untitled 5 "" 15)
  = fst (Db.compute_gap Sample.group_order Sample.postings 5 "" 15).
Proof. reflexivity. Qed.


(** A negative [top_n] is refused by the datastore. *)
Example gap_negative_limit :
  fst (Db.compute_gap Sample.group_order Sample.postings 5 "engineer" (-1))
  = Raise (DatabaseError "syntax error near LIMIT").
Proof. reflexivity. Qed.

(* ================================================================== *)
(** * Further properties of the code *)

Import Terms.

(** ** The similarity matcher: scores *)

Lemma leb_refl (a : float) : F64.is_nan a = false -> F64.leb a a = true.
Proof.
  intros H. unfold F64.leb, SFleb.
  destruct a as [s|s| |s m e]; try discriminate; cbn; try (destruct s; reflexivity).
  fold_pos_compare. rewrite Z.compare_refl, Pos.compare_refl.
  destruct s; reflexivity.
Qed.

Lemma maximum_bounds (a b : float) :
  F64.is_nan (Np.maximum a b) = false ->
  F64.is_nan a = false /\ F64.is_nan b = false
  /\ F64.leb a (Np.maximum a b) = true /\ F64.leb b (Np.maximum a b) = true
  /\ (Np.maximum a b = a \/ Np.maximum a b = b).
Proof.
  unfold Np.maximum. destruct (F64.is_nan a) eqn:Ha; [congruence|].
  destruct (F64.ltb b a) eqn:E; intros H.
  - assert (Hb : F64.is_nan b = false).
    { apply ltb_leb, leb_not_nan in E. tauto. }
    repeat split; auto using leb_refl, ltb_leb.
  - repeat split; auto using leb_refl. apply not_ltb_leb; assumption.
Qed.

(** What a maximum that is not NaN says about the array. *)
Lemma fold_maximum_bounds (l : Np.vec) :
  forall x,
    F64.is_nan (fold_left Np.maximum l x) = false ->
    Forall (fun y => F64.leb y (fold_left Np.maximum l x) = true) (x :: l)
    /\ In (fold_left Np.maximum l x) (x :: l).
Proof.
  induction l as [|y l IH]; intros x H; cbn [fold_left] in *.
  - split; [constructor; [apply leb_refl; exact H|constructor]|left; reflexivity].
  - destruct (IH _ H) as [Hall Hin].
    inversion Hall as [|? ? Hm Hl]; subst.
    assert (Hnn : F64.is_nan (Np.maximum x y) = false).
    { apply leb_not_nan in Hm. tauto. }
    destruct (maximum_bounds x y Hnn) as (_ & _ & Hx & Hy & Hor).
    split.
    + constructor; [eapply leb_trans; eassumption|].
      constructor; [eapply leb_trans; eassumption|exact Hl].
    + destruct Hin as [Hin|Hin]; [|right; right; exact Hin].
      destruct Hor as [Hor|Hor]; [left|right; left];
        (etransitivity; [symmetry; exact Hor|exact Hin]).
Qed.

Lemma max_bounds (sims : Np.vec) (m : float) :
  Np.max sims = Ok m -> F64.is_nan m = false ->
  Forall (fun y => F64.leb y m = true) sims /\ In m sims.
Proof.
  destruct sims as [|x l]; cbn; [discriminate|].
  intros [= <-] H. apply fold_maximum_bounds, H.
Qed.

Lemma qualifies_best_sim (chunk_embeddings : Np.matrix) (thr : float) (s : skill) :
  qualifies chunk_embeddings thr s = true ->
  exists x emb sims,
    emb_array s = Some (x :: emb)
    /\ cosine_sims chunk_embeddings (x :: emb) = Ok sims
    /\ Np.max sims = Ok (match_score (match_of chunk_embeddings s))
    /\ F64.geb (match_score (match_of chunk_embeddings s)) thr = true.
Proof.
  unfold qualifies, match_of, match_score, best_sim. cbn [snd].
  destruct (emb_array s) as [[|x emb]|]; try discriminate.
  destruct (cosine_sims chunk_embeddings (x :: emb)) as [sims|e] eqn:Hs;
    [|discriminate].
  destruct (Np.max sims) as [m|e] eqn:Hm; [|discriminate].
  intros H. exists x, emb, sims. repeat split; auto.
Qed.

Lemma cosine_sims_length (m : Np.matrix) (emb sims : Np.vec) :
  cosine_sims m emb = Ok sims -> List.length sims = List.length m.
Proof.
  unfold cosine_sims, Np.dot.
  destruct (forallb (fun row => Nat.eqb (List.length row) (List.length emb)) m);
    cbn [bind]; [|discriminate].
  intros [= <-]. unfold Np.scale, Np.norm_rows.
  generalize (Np.norm emb). intros nrm.
  induction m as [|row m IH]; cbn; [reflexivity|]. f_equal. exact IH.
Qed.

(** Every score of a returned list passed the threshold test. *)
Theorem returned_scores_reach_threshold
  (encode : list string -> Np.matrix) (skill_rows : list skill) (text : string)
  (top_k : Z) (sim_threshold : float) (chunk_size chunk_overlap : Z)
  (out : list match_t) :
  extract_skills_from_text encode skill_rows text top_k sim_threshold
    chunk_size chunk_overlap = Ok out ->
  forall m, In m out -> F64.geb (match_score m) sim_threshold = true.
Proof.
  intros H m Hm. apply extract_inv in H.
  destruct H as [->|(c & chunks & _ & ->)]; [destruct Hm|].
  destruct (slice_to_firstn (ranked (encode (c :: chunks)) sim_threshold skill_rows)
              top_k) as [n Hn].
  rewrite Hn in Hm. apply in_firstn, ranked_source in Hm.
  destruct Hm as (s & _ & Hq & ->).
  destruct (qualifies_best_sim _ _ _ Hq) as (x & emb & sims & _ & _ & _ & Hge).
  exact Hge.
Qed.

Lemma returned_scores_reach_threshold_witness :
  F64.geb (match_score (2, "sql", S754_finite false 6369051672525772 (-53)))
    Sample.resume_threshold = true.
Proof.
  apply (returned_scores_reach_threshold Sample.encode_east Sample.one_name_two_ids
           "python django sql" 20 Sample.resume_threshold 100 20
           [(2, "sql", S754_finite false 6369051672525772 (-53))]).
  - vm_compute. reflexivity.
  - left. reflexivity.
Defined.

(** The score of a match is the best similarity of some vocabulary row
    of its id and name over the chunks: it is the similarity to one of
    the chunks and no chunk is more similar. *)
Theorem returned_score_is_best_chunk
  (encode : list string -> Np.matrix) (skill_rows : list skill) (text : string)
  (top_k : Z) (sim_threshold : float) (chunk_size chunk_overlap : Z)
  (chunks : list string) (out : list match_t) :
  chunk_text text chunk_size chunk_overlap = Ok chunks ->
  extract_skills_from_text encode skill_rows text top_k sim_threshold
    chunk_size chunk_overlap = Ok out ->
  forall m, In m out ->
    exists s emb sims,
      In s skill_rows /\ skill_id s = match_id m /\ name s = match_name m
      /\ emb_array s = Some emb
      /\ cosine_sims (encode chunks) emb = Ok sims
      /\ List.length sims = List.length (encode chunks)
      /\ In (match_score m) sims
      /\ Forall (fun x => F64.leb x (match_score m) = true) sims.
Proof.
  intros Hc H m Hm. apply extract_inv in H.
  destruct H as [->|(c & chunks' & Hc' & ->)]; [destruct Hm|].
  rewrite Hc in Hc'. injection Hc' as ->.
  destruct (slice_to_firstn (ranked (encode (c :: chunks')) sim_threshold skill_rows)
              top_k) as [n Hn].
  rewrite Hn in Hm. apply in_firstn, ranked_source in Hm.
  destruct Hm as (s & Hs & Hq & ->).
  destruct (qualifies_best_sim _ _ _ Hq) as (x & emb & sims & He & Hsims & Hmax & Hge).
  destruct (max_bounds sims _ Hmax (geb_not_nan _ _ Hge)) as [Hall Hin].
  exists s, (x :: emb), sims. repeat split; auto.
  apply (cosine_sims_length _ _ _ Hsims).
Qed.

Lemma returned_score_is_best_chunk_witness :
  exists s emb sims,
    In s Sample.one_name_two_ids /\ skill_id s = 2 /\ name s = "sql"
    /\ emb_array s = Some emb
    /\ cosine_sims (Sample.encode_east ["python django sql"]) emb = Ok sims
    /\ List.length sims = 1%nat
    /\ In (S754_finite false 6369051672525772 (-53)) sims.
Proof.
  destruct (returned_score_is_best_chunk Sample.encode_east Sample.one_name_two_ids
              "python django sql" 20 Sample.resume_threshold 100 20
              ["python django sql"]
              [(2, "sql", S754_finite false 6369051672525772 (-53))]
              eq_refl ltac:(vm_compute; reflexivity)
              (2, "sql", S754_finite false 6369051672525772 (-53))
              (or_introl eq_refl))
    as (s & emb & sims & H1 & H2 & H3 & H4 & H5 & H6 & H7 & _).
  exists s, emb, sims. repeat split; assumption.
Defined.

(** ** The similarity matcher: how the parameters act *)

Lemma slice_to_slice_to {A : Type} (l : list A) (k1 k2 : Z) :
  0 <= k1 <= k2 ->
  Py.slice_to l k1 = firstn (Z.to_nat k1) (Py.slice_to l k2).
Proof.
  intros Hk. unfold Py.slice_to, Py.clip.
  replace (k1 <? 0) with false by (symmetry; apply Z.ltb_ge; lia).
  replace (k2 <? 0) with false by (symmetry; apply Z.ltb_ge; lia).
  rewrite firstn_firstn.
  destruct (Z.le_ge_cases k1 (Z.of_nat (List.length l))) as [H|H].
  - rewrite (Z.min_l k1) by lia. f_equal. lia.
  - rewrite (Z.min_r k1) by lia. rewrite Nat2Z.id.
    rewrite !firstn_all2; [reflexivity| |lia].
    rewrite Nat.min_comm. lia.
Qed.

Lemma slice_to_nil {A : Type} (k : Z) : Py.slice_to (@nil A) k = [].
Proof. unfold Py.slice_to. apply firstn_nil. Qed.

(** A call differs from the call with another [top_k] in the last line
    only. *)
Lemma extract_cut (encode : list string -> Np.matrix) (skill_rows : list skill)
  (text : string) (top_k : Z) (thr : float) (chunk_size chunk_overlap : Z)
  (out : list match_t) :
  extract_skills_from_text encode skill_rows text top_k thr chunk_size chunk_overlap
  = Ok out ->
  exists full,
    out = Py.slice_to full top_k
    /\ forall k,
         extract_skills_from_text encode skill_rows text k thr
           chunk_size chunk_overlap = Ok (Py.slice_to full k).
Proof.
  unfold extract_skills_from_text.
  destruct (String.eqb text "");
    [intros [= <-]; exists []; split; [|intros k]; rewrite slice_to_nil; reflexivity|].
  destruct skill_rows as [|s rows];
    [intros [= <-]; exists []; split; [|intros k]; rewrite slice_to_nil; reflexivity|].
  destruct (chunk_text text chunk_size chunk_overlap) as [[|c chunks]|e];
    cbn [bind];
    [intros [= <-]; exists []; split; [|intros k]; rewrite slice_to_nil; reflexivity
    | |discriminate].
  destruct (score_skills (encode (c :: chunks)) thr (s :: rows) []) as [d|e];
    cbn [bind]; [|discriminate].
  intros [= <-]. eexists. split; [reflexivity|]. intros k. reflexivity.
Qed.

(** For [0 <= k1 <= k2], the list returned with [top_k = k1] is the first
    [k1] matches of the list returned with [top_k = k2]. *)
Theorem smaller_top_k_is_a_prefix
  (encode : list string -> Np.matrix) (skill_rows : list skill) (text : string)
  (k1 k2 : Z) (sim_threshold : float) (chunk_size chunk_overlap : Z)
  (out2 : list match_t) :
  0 <= k1 <= k2 ->
  extract_skills_from_text encode skill_rows text k2 sim_threshold
    chunk_size chunk_overlap = Ok out2 ->
  extract_skills_from_text encode skill_rows text k1 sim_threshold
    chunk_size chunk_overlap = Ok (firstn (Z.to_nat k1) out2).
Proof.
  intros Hk H. apply extract_cut in H. destruct H as (full & -> & Hall).
  rewrite Hall. f_equal. apply slice_to_slice_to, Hk.
Qed.

Lemma smaller_top_k_is_a_prefix_witness :
  extract_skills_from_text Sample.encode_east Sample.three_east
    "python django sql" 2 Sample.resume_threshold 100 20
  = Ok (firstn 2 [(1, "python", Sample.one); (2, "sql", Sample.one);
                  (3, "docker", Sample.one)]).
Proof.
  apply (smaller_top_k_is_a_prefix Sample.encode_east Sample.three_east
           "python django sql" 2 30 Sample.resume_threshold 100 20).
  - lia.
  - vm_compute. reflexivity.
Defined.

(** Rows whose embedding is absent or empty are skipped. *)
Lemma score_skills_usable (chunk_embeddings : Np.matrix) (thr : float)
  (skill_rows : list skill) :
  forall d,
    score_skills chunk_embeddings thr (filter usable skill_rows) d
    = score_skills chunk_embeddings thr skill_rows d.
Proof.
  induction skill_rows as [|s rows IH]; intros d; [reflexivity|].
  cbn [filter]. unfold usable at 1.
  destruct (emb_array s) as [[|x emb]|] eqn:He; cbn [score_skills]; rewrite He;
    try apply IH.
  destruct (cosine_sims chunk_embeddings (x :: emb)) as [sims|e]; [|reflexivity].
  cbn [bind]. destruct (Np.max sims) as [m|e]; [|reflexivity].
  cbn [bind]. destruct (F64.geb m thr); apply IH.
Qed.

Lemma score_skills_none_usable (chunk_embeddings : Np.matrix) (thr : float)
  (skill_rows : list skill) (d : Py.dict sim_entry) :
  filter usable skill_rows = [] ->
  score_skills chunk_embeddings thr skill_rows d = Ok d.
Proof.
  intros H. rewrite <- score_skills_usable, H. reflexivity.
Qed.

(** Vocabulary rows without a usable embedding (absent, malformed or
    empty) do not influence the result: a call that returns returns the
    same list on the vocabulary without those rows. *)
Theorem rows_without_embedding_are_ignored
  (encode : list string -> Np.matrix) (skill_rows : list skill) (text : string)
  (top_k : Z) (sim_threshold : float) (chunk_size chunk_overlap : Z)
  (out : list match_t) :
  extract_skills_from_text encode skill_rows text top_k sim_threshold
    chunk_size chunk_overlap = Ok out ->
  extract_skills_from_text encode (filter usable skill_rows) text top_k
    sim_threshold chunk_size chunk_overlap = Ok out.
Proof.
  unfold extract_skills_from_text.
  destruct (String.eqb text ""); [auto|].
  destruct skill_rows as [|s rows]; [auto|].
  destruct (chunk_text text chunk_size chunk_overlap) as [[|c chunks]|e];
    cbn [bind]; [intros [= <-]; destruct (filter usable (s :: rows)); reflexivity
                | |discriminate].
  destruct (filter usable (s :: rows)) as [|s' rows'] eqn:Hf.
  - rewrite (score_skills_none_usable _ _ _ _ Hf). cbn [bind].
    intros [= <-]. cbn [Py.sorted_desc map]. rewrite slice_to_nil. reflexivity.
  - rewrite <- Hf, score_skills_usable. auto.
Qed.

Lemma rows_without_embedding_are_ignored_witness :
  extract_skills_from_text Sample.encode_east
    (filter usable [mk_skill 8 "rust" None; mk_skill 1 "python" (Some [Sample.one; F64.zero]);
                    mk_skill 9 "go" (Some [])])
    "python django sql" 20 Sample.resume_threshold 100 20
  = Ok [(1, "python", Sample.one)].
Proof.
  apply rows_without_embedding_are_ignored. vm_compute. reflexivity.
Defined.

Lemma qualifies_lower_threshold (chunk_embeddings : Np.matrix) (t1 t2 : float)
  (s : skill) :
  F64.leb t1 t2 = true ->
  qualifies chunk_embeddings t2 s = true -> qualifies chunk_embeddings t1 s = true.
Proof.
  unfold qualifies. intros Ht.
  destruct (best_sim chunk_embeddings s) as [m|]; [|auto].
  unfold F64.geb. intros H. eapply leb_trans; eassumption.
Qed.

(** Whether the loop raises does not depend on the threshold. *)
Lemma score_skills_any_threshold (chunk_embeddings : Np.matrix) (t1 t2 : float)
  (skill_rows : list skill) :
  forall d1 d1' d2,
    score_skills chunk_embeddings t1 skill_rows d1 = Ok d1' ->
    exists d2', score_skills chunk_embeddings t2 skill_rows d2 = Ok d2'.
Proof.
  induction skill_rows as [|s rows IH]; intros d1 d1' d2 H; cbn [score_skills] in *.
  - eauto.
  - destruct (emb_array s) as [[|x emb]|]; try (eapply IH; exact H).
    destruct (cosine_sims chunk_embeddings (x :: emb)) as [sims|e];
      cbn [bind] in *; [|discriminate].
    destruct (Np.max sims) as [m|e]; cbn [bind] in *; [|discriminate].
    destruct (F64.geb m t1), (F64.geb m t2); eapply IH; exact H.
Qed.

Lemma last_qualifying_exists (chunk_embeddings : Np.matrix) (thr : float)
  (skill_rows : list skill) (s : skill) :
  In s skill_rows -> qualifies chunk_embeddings thr s = true ->
  exists s', last_qualifying chunk_embeddings thr skill_rows (name s) = Some s'.
Proof.
  intros Hs Hq. unfold last_qualifying.
  destruct (find _ (rev skill_rows)) as [s'|] eqn:E; [eauto|].
  apply in_rev in Hs. apply (find_none _ _ E s) in Hs.
  rewrite Hq, String.eqb_refl in Hs. discriminate.
Qed.

(** Raising the threshold never brings in a new skill.  For thresholds
    [t1 <= t2] and a [top_k] that does not cut, a call that returns at
    [t1] returns at [t2] too, every name matched at [t2] is matched at
    [t1], and when the names of the vocabulary are distinct every match
    at [t2] is a match at [t1]. *)
Theorem higher_threshold_matches_fewer
  (encode : list string -> Np.matrix) (skill_rows : list skill) (text : string)
  (top_k : Z) (t1 t2 : float) (chunk_size chunk_overlap : Z)
  (out1 : list match_t) :
  F64.leb t1 t2 = true ->
  Z.of_nat (List.length skill_rows) <= top_k ->
  extract_skills_from_text encode skill_rows text top_k t1 chunk_size chunk_overlap
  = Ok out1 ->
  exists out2,
    extract_skills_from_text encode skill_rows text top_k t2
      chunk_size chunk_overlap = Ok out2
    /\ incl (map match_name out2) (map match_name out1)
    /\ (NoDup (map name skill_rows) -> incl out2 out1).
Proof.
  intros Ht Hk H. unfold extract_skills_from_text in *.
  destruct (String.eqb text "");
    [exists []; repeat split; auto using incl_nil_l|].
  destruct skill_rows as [|s0 rows0];
    [exists []; repeat split; auto using incl_nil_l|].
  set (rows := s0 :: rows0) in *.
  destruct (chunk_text text chunk_size chunk_overlap) as [[|c chunks]|e];
    cbn [bind] in *;
    [exists []; repeat split; auto using incl_nil_l| |discriminate].
  set (ce := encode (c :: chunks)) in *.
  destruct (score_skills ce t1 rows []) as [d1|e] eqn:E1; cbn [bind] in H;
    [|discriminate].
  destruct (score_skills_any_threshold ce t1 t2 rows [] d1 [] E1) as [d2 E2].
  rewrite E2. cbn [bind]. injection H as <-.
  apply score_skills_fill in E1, E2. subst d1 d2.
  fold (ranked ce t1 rows). fold (ranked ce t2 rows).
  assert (Hlen : forall t, Z.of_nat (List.length (ranked ce t rows)) <= top_k).
  { intros t. pose proof (ranked_length ce t rows).
    pose proof (filter_length_le (qualifies ce t) rows). lia. }
  rewrite !slice_to_all by apply Hlen.
  eexists. split; [reflexivity|]. split.
  - intros k Hkn. apply in_map_iff in Hkn. destruct Hkn as (m & <- & Hm).
    apply ranked_source in Hm. destruct Hm as (s & Hs & Hq & ->).
    apply (qualifies_lower_threshold ce t1 t2 s Ht) in Hq.
    destruct (last_qualifying_exists ce t1 rows s Hs Hq) as [s' Hs'].
    apply in_map_iff. exists (match_of ce s'). split.
    + apply last_qualifying_some in Hs'. cbn. tauto.
    + apply ranked_in. exists s'. split; [|reflexivity].
      apply last_qualifying_some in Hs' as Hn. destruct Hn as (_ & _ & Hn).
      change (match_name (match_of ce s')) with (name s'). rewrite Hn. exact Hs'.
  - intros Hnames m Hm.
    apply ranked_source in Hm. destruct Hm as (s & Hs & Hq & ->).
    apply (qualifies_lower_threshold ce t1 t2 s Ht) in Hq.
    destruct (last_qualifying_exists ce t1 rows s Hs Hq) as [s' Hs'].
    apply ranked_in. exists s. split; [|reflexivity].
    change (match_name (match_of ce s)) with (name s). rewrite Hs'. f_equal.
    apply last_qualifying_some in Hs'. destruct Hs' as (Hin & _ & Hn).
    apply (NoDup_map_eq name rows s' s Hnames Hin Hs Hn).
Qed.

Lemma higher_threshold_matches_fewer_witness :
  exists out2,
    extract_skills_from_text Sample.encode_east Sample.rising
      "python django sql" 20 (F64.ratio 9 10) 100 20 = Ok out2
    /\ incl out2 [(2, "python", Sample.one);
                  (1, "sql", S754_finite false 6369051672525772 (-53))].
Proof.
  destruct (higher_threshold_matches_fewer Sample.encode_east Sample.rising
              "python django sql" 20 Sample.resume_threshold (F64.ratio 9 10) 100 20
              [(2, "python", Sample.one);
               (1, "sql", S754_finite false 6369051672525772 (-53))])
    as (out2 & H1 & _ & H3).
  - vm_compute. reflexivity.
  - cbn. lia.
  - vm_compute. reflexivity.
  - exists out2. split; [exact H1|]. apply H3.
    cbn. repeat constructor; cbn; intuition discriminate.
Defined.

(* ------------------------------------------------------------------ *)
(** ** The chunker: what the chunks contain *)

Lemma no_space_app (a b : string) :
  no_space (a ++ b)%string = no_space a && no_space b.
Proof.
  induction a as [|c a IH]; cbn; [reflexivity|]. rewrite IH, andb_assoc. reflexivity.
Qed.

Lemma string_app_assoc (a b c : string) : ((a ++ b) ++ c = a ++ (b ++ c))%string.
Proof. induction a as [|x a IH]; cbn; [reflexivity|]. rewrite IH. reflexivity. Qed.

Lemma string_app_nil_r (a : string) : (a ++ "")%string = a.
Proof. induction a as [|x a IH]; cbn; [reflexivity|]. rewrite IH. reflexivity. Qed.

Lemma string_app_nil (a b : string) : (a ++ b)%string = "" -> a = "" /\ b = "".
Proof. destruct a; cbn; [auto|discriminate]. Qed.

(** Reading a run of non-whitespace characters extends the word being
    read. *)
Lemma split_from_word (w : string) :
  no_space w = true ->
  forall acc rest,
    Py.split_from acc (w ++ rest) = Py.split_from (acc ++ w) rest.
Proof.
  induction w as [|c w IH]; intros Hw acc rest.
  - rewrite string_app_nil_r. reflexivity.
  - cbn in Hw. apply andb_prop in Hw. destruct Hw as [Hc Hw].
    apply negb_true_iff in Hc.
    cbn [String.append Py.split_from]. rewrite Hc, (IH Hw), string_app_assoc.
    reflexivity.
Qed.

(** The words [str.split] gives are not empty and hold no whitespace. *)
Lemma split_from_words (s : string) :
  forall acc, no_space acc = true -> Forall is_word (Py.split_from acc s).
Proof.
  induction s as [|c s IH]; intros acc Hacc; cbn [Py.split_from].
  - destruct (String.eqb_spec acc ""); constructor; [split; assumption|constructor].
  - destruct (Py.isspace c) eqn:Hc.
    + destruct (String.eqb_spec acc ""); [apply IH; reflexivity|].
      constructor; [split; assumption|apply IH; reflexivity].
    + apply IH. rewrite no_space_app, Hacc. cbn. rewrite Hc. reflexivity.
Qed.

Lemma split_words (text : string) : Forall is_word (Py.split text).
Proof. apply split_from_words. reflexivity. Qed.

Lemma split_single_word (w : string) : is_word w -> Py.split w = [w].
Proof.
  intros [Hne Hw]. unfold Py.split.
  rewrite <- (string_app_nil_r w) at 1. rewrite (split_from_word w Hw).
  cbn. destruct (String.eqb_spec w ""); [contradiction|reflexivity].
Qed.

(** Joining words by spaces and splitting again gives the words back. *)
Lemma split_join (ws : list string) :
  Forall is_word ws -> Py.split (Py.join " " ws) = ws.
Proof.
  induction 1 as [|w ws Hw Hws IH]; [reflexivity|].
  destruct ws as [|w2 ws]; [apply split_single_word, Hw|].
  change (Py.join " " (w :: w2 :: ws))
    with (w ++ String " " (Py.join " " (w2 :: ws)))%string.
  destruct Hw as [Hne Hns]. unfold Py.split.
  rewrite (split_from_word w Hns). cbn [String.append Py.split_from].
  change (Py.isspace " ") with true. cbv iota.
  destruct (String.eqb_spec w ""); [contradiction|].
  f_equal. exact IH.
Qed.

Lemma Forall_firstn {A : Type} (P : A -> Prop) (n : nat) (l : list A) :
  Forall P l -> Forall P (firstn n l).
Proof.
  intros H. rewrite Forall_forall in *. intros x Hx. apply in_firstn in Hx. auto.
Qed.

Lemma Forall_skipn {A : Type} (P : A -> Prop) (n : nat) (l : list A) :
  Forall P l -> Forall P (skipn n l).
Proof.
  revert l. induction n as [|n IH]; intros l H; [exact H|].
  destruct l as [|x l]; [constructor|]. inversion H; subst. cbn. auto.
Qed.

Lemma in_window (A : Type) (d : A) (a c : nat) (l : list A) :
  forall i, (a <= i)%nat -> (i < a + c)%nat -> (i < List.length l)%nat ->
            In (nth i l d) (firstn c (skipn a l)).
Proof.
  revert l. induction a as [|a IH]; intros l i Ha Hc Hl.
  - cbn [skipn]. revert c i Hc Hl Ha.
    induction l as [|x l IHl]; intros c i Hc Hl _; cbn in Hl; [lia|].
    destruct c as [|c]; [lia|]. destruct i as [|i]; cbn; [auto|].
    right. apply IHl; lia.
  - destruct l as [|x l]; cbn in Hl; [lia|].
    destruct i as [|i]; [lia|]. cbn [skipn nth]. apply IH; lia.
Qed.

(** The chunks in closed form, on windows of [firstn]/[skipn]. *)
Lemma chunk_text_windows (text : string) (chunk_size chunk_overlap : Z) :
  0 < chunk_size -> chunk_overlap < chunk_size ->
  let words := Py.split text in
  let step := Z.to_nat (chunk_size - chunk_overlap) in
  let n := Z.to_nat (ceil_div (Z.of_nat (List.length words))
                       (chunk_size - chunk_overlap)) in
  chunk_text text chunk_size chunk_overlap
  = Ok (map (fun k => Py.join " "
                        (firstn (Z.to_nat chunk_size) (skipn (k * step) words)))
          (seq 0 n))
  /\ (forall k, (k < n)%nat -> (k * step < List.length words)%nat)
  /\ (List.length words <= n * step)%nat.
Proof.
  intros Hc Ho words step n.
  pose proof (ceil_div_is_ceiling (Z.of_nat (List.length words))
                (chunk_size - chunk_overlap) ltac:(lia)) as Hce.
  assert (Hn : Z.of_nat n = ceil_div (Z.of_nat (List.length words))
                              (chunk_size - chunk_overlap)).
  { unfold n. rewrite Z2Nat.id; [reflexivity|].
    unfold ceil_div. apply Z.div_pos; lia. }
  assert (Hstep : Z.of_nat step = chunk_size - chunk_overlap)
    by (unfold step; lia).
  assert (Hlt : forall k, (k < n)%nat -> (k * step < List.length words)%nat).
  { intros k Hk. apply Nat2Z.inj_lt. rewrite Nat2Z.inj_mul, Hstep. nia. }
  split; [|split; [exact Hlt|]].
  - rewrite chunk_text_closed by exact Ho. fold words. fold n. f_equal.
    apply map_ext_in. intros k Hk. apply in_seq in Hk.
    specialize (Hlt k ltac:(lia)).
    assert (Hks : Z.of_nat (k * step) = Z.of_nat k * (chunk_size - chunk_overlap))
      by (rewrite Nat2Z.inj_mul, Hstep; reflexivity).
    rewrite <- Hks. clear Hks. revert Hlt. generalize (k * step)%nat.
    intros p Hp. rewrite slice_window; [rewrite Nat2Z.id; reflexivity| |exact Hc].
    split; [apply Nat2Z.is_nonneg|]. apply Nat2Z.inj_le. apply Nat.lt_le_incl, Hp.
  - apply Nat2Z.inj_le. rewrite Nat2Z.inj_mul, Hstep, Hn. lia.
Qed.

(** With [0 <= chunk_overlap < chunk_size] no word is lost: every word
    of the text stands in the window of some chunk. *)
Theorem every_word_is_in_a_chunk
  (text : string) (chunk_size chunk_overlap : Z) :
  0 <= chunk_overlap < chunk_size ->
  let words := Py.split text in
  exists chunks,
    chunk_text text chunk_size chunk_overlap = Ok chunks
    /\ forall i, (i < List.length words)%nat ->
         exists k ws,
           (k < List.length chunks)%nat
           /\ nth k chunks "" = Py.join " " ws
           /\ ws = firstn (Z.to_nat chunk_size)
                     (skipn (k * Z.to_nat (chunk_size - chunk_overlap)) words)
           /\ In (nth i words "") ws.
Proof.
  intros Ho words.
  destruct (chunk_text_windows text chunk_size chunk_overlap ltac:(lia) ltac:(lia))
    as (Hchunks & Hlt & Hcover).
  fold words in Hchunks, Hlt, Hcover.
  set (step := Z.to_nat (chunk_size - chunk_overlap)) in *.
  set (n := Z.to_nat (ceil_div (Z.of_nat (List.length words))
                        (chunk_size - chunk_overlap))) in *.
  eexists. split; [exact Hchunks|].
  intros i Hi. rewrite length_map, length_seq.
  assert (Hstep : (0 < step)%nat) by (unfold step; lia).
  exists (i / step)%nat. eexists.
  assert (Hk : (i / step < n)%nat).
  { apply Nat.Div0.div_lt_upper_bound. lia. }
  split; [exact Hk|]. split; [rewrite nth_map_seq by exact Hk; reflexivity|].
  split; [reflexivity|].
  pose proof (Nat.div_mod_eq i step) as Hdm.
  pose proof (Nat.mod_upper_bound i step ltac:(lia)) as Hm.
  apply in_window; [nia| |exact Hi].
  unfold step in *. nia.
Qed.

Lemma every_word_is_in_a_chunk_witness :
  exists chunks,
    chunk_text "a b  c d e" 2 1 = Ok chunks
    /\ exists k ws,
         (k < List.length chunks)%nat /\ nth k chunks "" = Py.join " " ws
         /\ In "d" ws.
Proof.
  destruct (every_word_is_in_a_chunk "a b  c d e" 2 1 ltac:(lia))
    as (chunks & Hc & H).
  exists chunks. split; [exact Hc|].
  assert (H3 : (3 < List.length (Py.split "a b  c d e"))%nat)
    by (vm_compute; lia).
  destruct (H 3%nat H3) as (k & ws & Hk & Hj & _ & Hin).
  exists k, ws. split; [exact Hk|]. split; [exact Hj|exact Hin].
Defined.

(** With [0 < chunk_size] and [chunk_overlap < chunk_size], every chunk
    splits back into its window of words: it holds at least one word and
    at most [chunk_size]. *)
Theorem chunks_split_back_to_windows
  (text : string) (chunk_size chunk_overlap : Z) :
  0 < chunk_size -> chunk_overlap < chunk_size ->
  let words := Py.split text in
  exists chunks,
    chunk_text text chunk_size chunk_overlap = Ok chunks
    /\ forall k, (k < List.length chunks)%nat ->
         Py.split (nth k chunks "")
         = firstn (Z.to_nat chunk_size)
             (skipn (k * Z.to_nat (chunk_size - chunk_overlap)) words)
         /\ (1 <= List.length (Py.split (nth k chunks "")))%nat
         /\ Z.of_nat (List.length (Py.split (nth k chunks ""))) <= chunk_size.
Proof.
  intros Hc Ho words.
  destruct (chunk_text_windows text chunk_size chunk_overlap Hc Ho)
    as (Hchunks & Hlt & _).
  fold words in Hchunks, Hlt.
  set (step := Z.to_nat (chunk_size - chunk_overlap)) in *.
  set (n := Z.to_nat (ceil_div (Z.of_nat (List.length words))
                        (chunk_size - chunk_overlap))) in *.
  eexists. split; [exact Hchunks|].
  intros k Hk. rewrite length_map, length_seq in Hk.
  rewrite nth_map_seq by exact Hk.
  rewrite split_join
    by (apply Forall_firstn, Forall_skipn, split_words).
  split; [reflexivity|].
  specialize (Hlt k Hk). rewrite length_firstn, length_skipn. lia.
Qed.

Lemma chunks_split_back_to_windows_witness :
  exists chunks,
    chunk_text "a b  c d e" 2 1 = Ok chunks
    /\ Py.split (nth 3 chunks "") = ["d"; "e"].
Proof.
  destruct (chunks_split_back_to_windows "a b  c d e" 2 1 ltac:(lia) ltac:(lia))
    as (chunks & Hc & H).
  exists chunks. split; [exact Hc|].
  assert (H3 : (3 < List.length chunks)%nat).
  { vm_compute in Hc. injection Hc as <-. cbn. lia. }
  destruct (H 3%nat H3) as (Hs & _). rewrite Hs. reflexivity.
Defined.

Lemma windows_tile {A : Type} (c : nat) (n : nat) :
  forall l : list A,
    (List.length l <= n * c)%nat ->
    List.concat (map (fun k => firstn c (skipn (k * c) l)) (seq 0 n)) = l.
Proof.
  induction n as [|n IH]; intros l Hl.
  - destruct l; [reflexivity|cbn in Hl; lia].
  - cbn [seq map List.concat]. rewrite <- seq_shift, map_map.
    rewrite (map_ext _ (fun k => firstn c (skipn (k * c) (skipn c l)))).
    + rewrite IH; [apply firstn_skipn|]. rewrite length_skipn. lia.
    + intros k. rewrite skipn_skipn. do 2 f_equal. lia.
Qed.

(** With [chunk_overlap = 0] the chunks tile the text: split again and
    put end to end, they give the words of the text, each once and in
    order. *)
Theorem chunks_without_overlap_tile_the_text (text : string) (chunk_size : Z) :
  0 < chunk_size ->
  exists chunks,
    chunk_text text chunk_size 0 = Ok chunks
    /\ List.concat (map Py.split chunks) = Py.split text.
Proof.
  intros Hc.
  destruct (chunk_text_windows text chunk_size 0 Hc ltac:(lia))
    as (Hchunks & _ & Hcover).
  rewrite Z.sub_0_r in *.
  eexists. split; [exact Hchunks|].
  rewrite map_map.
  rewrite (map_ext_in _ (fun k => firstn (Z.to_nat chunk_size)
                                    (skipn (k * Z.to_nat chunk_size) (Py.split text)))).
  - apply windows_tile. exact Hcover.
  - intros k _. apply split_join, Forall_firstn, Forall_skipn, split_words.
Qed.

Lemma chunks_without_overlap_tile_the_text_witness :
  exists chunks,
    chunk_text "a b  c d e" 2 0 = Ok chunks
    /\ List.concat (map Py.split chunks) = ["a"; "b"; "c"; "d"; "e"].
Proof.
  apply (chunks_without_overlap_tile_the_text "a b  c d e" 2). lia.
Defined.

(* ------------------------------------------------------------------ *)
(** ** Linking a posting to the vocabulary *)

Import Tables.

Lemma isspace_lower_char (c : ascii) : Py.isspace (Py.lower_char c) = Py.isspace c.
Proof. destruct c as [[] [] [] [] [] [] [] []]; reflexivity. Qed.

Lemma all_space_lower (s : string) : Py.all_space (Py.lower s) = Py.all_space s.
Proof.
  induction s as [|c s IH]; cbn; [reflexivity|].
  rewrite isspace_lower_char, IH. reflexivity.
Qed.

Lemma all_space_app (a b : string) :
  Py.all_space (a ++ b)%string = Py.all_space a && Py.all_space b.
Proof.
  induction a as [|c a IH]; cbn; [reflexivity|].
  rewrite IH. apply andb_assoc.
Qed.

(** A posting whose title and description (as [str] renders them) hold
    only white space gets no link, whatever the vocabulary and the
    encoder: the encoder is not even asked. *)
Theorem blank_posting_gets_no_links (encode : list string -> Np.matrix)
  (vdot : Np.vec -> Np.vec -> float) (vnorm : Np.vec -> float)
  (skills : list skill) (job_id : Z) (title description : string) (thr : float) :
  Py.all_space title = true ->
  Py.all_space description = true ->
  Ingest.link_job encode vdot vnorm skills job_id title description thr = [].
Proof.
  intros Ht Hd. unfold Ingest.link_job, Ingest.job_text.
  rewrite all_space_lower, !all_space_app, Ht, Hd. reflexivity.
Qed.

Lemma blank_posting_gets_no_links_witness :
  Ingest.link_job Sample.encode_east Np.dot1 Np.norm Sample.python_java 7 "  " ""
    Sample.job_threshold
  = [].
Proof.
  apply blank_posting_gets_no_links; reflexivity.
Defined.

(** Every link written for a posting carries the posting's id and the id
    of a vocabulary row with a non-empty embedding; its weight is a
    number, not NaN, and reaches the threshold.  There is at most one
    link per vocabulary row, and vocabulary rows of distinct ids give
    links of distinct skill ids, so [INSERT IGNORE] has nothing to
    skip.  This holds however the vector routines round. *)
Theorem links_of_a_posting_are_sound (encode : list string -> Np.matrix)
  (vdot : Np.vec -> Np.vec -> float) (vnorm : Np.vec -> float)
  (skills : list skill) (job_id : Z) (title description : string) (thr : float) :
  (forall l,
     In l (Ingest.link_job encode vdot vnorm skills job_id title description thr) ->
     link_job_id l = job_id
     /\ F64.geb (link_weight l) thr = true
     /\ F64.is_nan (link_weight l) = false
     /\ exists s, In s skills /\ usable s = true /\ skill_id s = link_skill_id l)
  /\ (List.length
        (Ingest.link_job encode vdot vnorm skills job_id title description thr)
      <= List.length skills)%nat
  /\ (NoDup (map skill_id skills) ->
      NoDup (map link_skill_id
               (Ingest.link_job encode vdot vnorm skills job_id title description
                  thr))).
Proof.
  unfold Ingest.link_job.
  destruct (Py.all_space (Ingest.job_text title description)).
  { cbn. split; [intros l []|split; [lia|intros _; constructor]]. }
  destruct (encode [Ingest.job_text title description]) as [|row rest].
  { cbn. split; [intros l []|split; [lia|intros _; constructor]]. }
  rewrite link_skills_filter. split; [|split].
  - intros l H. apply in_map_iff in H. destruct H as [s [<- Hs]].
    apply filter_In in Hs. destruct Hs as [Hin Hq].
    apply linked_inv in Hq.
    destruct Hq as (x & emb & sim & He & _ & Hsim & _ & Hg).
    unfold link_job_id, link_weight, link_of. cbn [fst snd]. rewrite Hsim.
    split; [reflexivity|]. split; [exact Hg|].
    split; [exact (geb_not_nan _ _ Hg)|].
    exists s. split; [exact Hin|]. split; [|reflexivity].
    unfold usable. rewrite He. reflexivity.
  - rewrite length_map. apply filter_length_le.
  - intros Hnd. rewrite map_map. cbn.
    induction skills as [|s skills IH]; cbn; [constructor|].
    inversion Hnd as [|? ? Hnot Hnd']; subst.
    destruct (linked vdot vnorm row thr s); [|apply IH; exact Hnd'].
    cbn. constructor; [|apply IH; exact Hnd'].
    intros Hc. apply Hnot. apply in_map_iff in Hc. destruct Hc as [s' [He Hs']].
    apply filter_In in Hs'. destruct Hs' as [Hs' _].
    apply in_map_iff. exists s'. split; [exact He|exact Hs'].
Qed.

(* ------------------------------------------------------------------ *)
(** ** Saved skills and the gap *)

Section SaveFacts.

Variable accepts : Db.statement -> list Db.user_skill -> bool.

(** A save that returns has replaced the user's rows. *)
Lemma save_ok_replaced (u : Z) (matched : list match_t)
  (t t' : list Db.user_skill) (seen : list (list Db.user_skill)) :
  Db.save_user_skills accepts u matched t = (Ok tt, t', seen) ->
  t' = Db.replaced u matched t.
Proof.
  intros H. unfold Db.save_user_skills, Db.transaction in H.
  cbn [Db.run_statements] in H. unfold Db.execute in H.
  destruct (accepts (Db.DeleteUserSkills u) t); [|discriminate].
  destruct (Db.run_statements accepts (map (Db.insert_of u) matched) t
              (filter (fun r => negb (Db.us_user_id r =? u)) t))
    as [[w|e] seen1] eqn:E; [|discriminate].
  injection H as <- _. apply run_inserts_ok in E. exact E.
Qed.

(** A save that raises leaves the table as it was. *)
Lemma save_raise_unchanged (u : Z) (matched : list match_t) (e : py_error)
  (t t' : list Db.user_skill) (seen : list (list Db.user_skill)) :
  Db.save_user_skills accepts u matched t = (Raise e, t', seen) -> t' = t.
Proof.
  intros H. unfold Db.save_user_skills, Db.transaction in H.
  destruct (Db.run_statements accepts
              (Db.DeleteUserSkills u :: map (Db.insert_of u) matched) t t)
    as [[w|e'] seen1]; [discriminate|].
  injection H as _ <- _. reflexivity.
Qed.

Lemma filter_other_rows (u : Z) (matched : list match_t) :
  filter (fun r => negb (Db.us_user_id r =? u)) (map (Db.row_of u) matched) = [].
Proof.
  apply filter_none. intros r Hr. apply in_map_iff in Hr.
  destruct Hr as [m [<- _]]. cbn. rewrite Z.eqb_refl. reflexivity.
Qed.

Lemma replaced_replaced (u : Z) (matched : list match_t) (t : list Db.user_skill) :
  Db.replaced u matched (Db.replaced u matched t) = Db.replaced u matched t.
Proof.
  unfold Db.replaced. rewrite filter_app, filter_other_rows, app_nil_r.
  rewrite filter_filter. f_equal. apply filter_ext. intros r.
  destruct (negb (Db.us_user_id r =? u)); reflexivity.
Qed.

(** Saving the same matches again changes nothing: after a save that
    returned, the table is the same after a second save of the same
    matches, whether that one returns or raises. *)
Theorem saving_again_changes_nothing (u : Z) (matched : list match_t)
  (t t1 : list Db.user_skill) (seen : list (list Db.user_skill)) :
  Db.save_user_skills accepts u matched t = (Ok tt, t1, seen) ->
  snd (fst (Db.save_user_skills accepts u matched t1)) = t1.
Proof.
  intros H. apply save_ok_replaced in H.
  destruct (Db.save_user_skills accepts u matched t1) as [[[[]|e] t2] seen2] eqn:E;
    cbn [fst snd].
  - apply save_ok_replaced in E. subst. apply replaced_replaced.
  - apply save_raise_unchanged in E. exact E.
Qed.

(** What a save leaves of the rows of other users: all of them, in
    their order, whatever the outcome. *)
Lemma save_keeps_other_rows (u v : Z) (matched : list match_t)
  (r : result unit) (t t' : list Db.user_skill) (seen : list (list Db.user_skill)) :
  Db.save_user_skills accepts u matched t = (r, t', seen) ->
  v <> u ->
  skills_of v t' = skills_of v t.
Proof.
  intros H Hv. destruct r as [[]|e].
  - apply save_ok_replaced in H. subst t'. unfold skills_of, Db.replaced.
    rewrite filter_app, filter_filter.
    rewrite (filter_none (fun r => Db.us_user_id r =? v) (map (Db.row_of u) matched)).
    + rewrite app_nil_r. apply filter_ext. intros x.
      destruct (Z.eqb_spec (Db.us_user_id x) v) as [->|Hx].
      * destruct (Z.eqb_spec v u); [contradiction|reflexivity].
      * apply andb_false_r.
    + intros x Hx. apply in_map_iff in Hx. destruct Hx as [m [<- _]]. cbn.
      apply Z.eqb_neq. congruence.
  - apply save_raise_unchanged in H. subst. reflexivity.
Qed.

End SaveFacts.

Lemma saving_again_changes_nothing_witness :
  snd (fst (Db.save_user_skills Sample.primary_key 5
              [(1, "python", Sample.one); (4, "sql", Sample.half)]
              [Db.mk_user_skill 6 2 Sample.one; Db.mk_user_skill 5 1 Sample.one;
               Db.mk_user_skill 5 4 Sample.half]))
  = [Db.mk_user_skill 6 2 Sample.one; Db.mk_user_skill 5 1 Sample.one;
     Db.mk_user_skill 5 4 Sample.half].
Proof.
  apply (saving_again_changes_nothing Sample.primary_key 5
           [(1, "python", Sample.one); (4, "sql", Sample.half)] Sample.stored _
           [Sample.stored; Sample.stored; Sample.stored]).
  vm_compute. reflexivity.
Defined.

(** [NOT IN] reads only the rows of the user asked for. *)
Lemma not_recorded_skills_of (db : Db.database) (t : list Db.user_skill) (v sid : Z) :
  skills_of v t = skills_of v (Db.user_skills db) ->
  Db.not_recorded (with_user_skills db t) v sid = Db.not_recorded db v sid.
Proof.
  intros H. unfold Db.not_recorded. cbn [with_user_skills Db.user_skills].
  f_equal.
  assert (Hx : forall l,
             existsb (fun us => (Db.us_user_id us =? v) && (Db.us_skill_id us =? sid)) l
             = existsb (fun us => Db.us_skill_id us =? sid) (skills_of v l)).
  { induction l as [|x l IH]; cbn; [reflexivity|].
    destruct (Db.us_user_id x =? v); cbn; rewrite IH; reflexivity. }
  rewrite !Hx, H. reflexivity.
Qed.

(** The result of the gap query depends on [user_skills] only through
    the rows of the user asked for. *)
Lemma compute_gap_skills_of (tie_first : Db.gap_entry -> Db.gap_entry -> bool)
  (db : Db.database) (t : list Db.user_skill) (v : Z) (role : string) (n : Z) :
  skills_of v t = skills_of v (Db.user_skills db) ->
  fst (Db.compute_gap tie_first (with_user_skills db t) v role n)
  = fst (Db.compute_gap tie_first db v role n).
Proof.
  intros H. unfold Db.compute_gap. destruct (n <? 0); [reflexivity|].
  cbn [fst]. do 4 f_equal.
  change (Db.joined (with_user_skills db t)) with (Db.joined db).
  apply filter_ext. intros r. unfold Db.selected.
  rewrite (not_recorded_skills_of db t v _ H). reflexivity.
Qed.

(** Two lists in descending frequency that hold the same rows show the
    same frequencies, position by position. *)
Lemma sorted_perm_freqs (l1 : list Db.gap_entry) :
  forall l2, Permutation l1 l2 ->
             StronglySorted by_freq l1 -> StronglySorted by_freq l2 ->
             map Db.gap_freq l1 = map Db.gap_freq l2.
Proof.
  induction l1 as [|a l1 IH]; intros l2 Hp H1 H2.
  - apply Permutation_nil in Hp. subst. reflexivity.
  - destruct l2 as [|b l2]; [apply Permutation_sym, Permutation_nil in Hp; discriminate|].
    apply StronglySorted_inv in H1. destruct H1 as [H1 Ha].
    apply StronglySorted_inv in H2. destruct H2 as [H2 Hb].
    rewrite Forall_forall in Ha, Hb.
    assert (Hab : Db.gap_freq b <= Db.gap_freq a).
    { assert (Hin : In b (a :: l1))
        by (apply (Permutation_in _ (Permutation_sym Hp)); left; reflexivity).
      destruct Hin as [<-|Hin]; [lia|]. exact (Ha b Hin). }
    assert (Hba : Db.gap_freq a <= Db.gap_freq b).
    { assert (Hin : In a (b :: l2))
        by (apply (Permutation_in _ Hp); left; reflexivity).
      destruct Hin as [<-|Hin]; [lia|]. exact (Hb a Hin). }
    assert (Hfreqs : Permutation (map Db.gap_freq l1) (map Db.gap_freq l2)).
    { apply Permutation_map with (f := Db.gap_freq) in Hp. cbn in Hp.
      replace (Db.gap_freq b) with (Db.gap_freq a) in Hp by lia.
      apply Permutation_cons_inv in Hp. exact Hp. }
    cbn. f_equal; [lia|].
    clear IH Hp Ha Hb Hab Hba a b.
    revert l2 H2 Hfreqs. induction l1 as [|a l1 IH]; intros l2 H2 Hp.
    + apply Permutation_nil in Hp. symmetry. exact Hp.
    + destruct l2 as [|b l2];
        [apply Permutation_sym, Permutation_nil in Hp; discriminate|].
      apply StronglySorted_inv in H1. destruct H1 as [H1 Ha].
      apply StronglySorted_inv in H2. destruct H2 as [H2 Hb].
      rewrite Forall_forall in Ha, Hb. cbn in Hp.
      assert (Hab : Db.gap_freq b <= Db.gap_freq a).
      { assert (Hin : In (Db.gap_freq b) (Db.gap_freq a :: map Db.gap_freq l1))
          by (apply (Permutation_in _ (Permutation_sym Hp)); left; reflexivity).
        destruct Hin as [Hin|Hin]; [lia|].
        apply in_map_iff in Hin. destruct Hin as [x [Hx Hin]].
        specialize (Ha x Hin). unfold by_freq in Ha. lia. }
      assert (Hba : Db.gap_freq a <= Db.gap_freq b).
      { assert (Hin : In (Db.gap_freq a) (Db.gap_freq b :: map Db.gap_freq l2))
          by (apply (Permutation_in _ Hp); left; reflexivity).
        destruct Hin as [Hin|Hin]; [lia|].
        apply in_map_iff in Hin. destruct Hin as [x [Hx Hin]].
        specialize (Hb x Hin). unfold by_freq in Hb. lia. }
      cbn. f_equal; [lia|]. apply IH; [exact H1|exact H2|].
      replace (Db.gap_freq b) with (Db.gap_freq a) in Hp by lia.
      apply Permutation_cons_inv in Hp. exact Hp.
Qed.

(** Whatever order the datastore gives to ties, a query returns the same
    frequencies, position by position. *)
Lemma gap_freqs_any_order (tie1 tie2 : Db.gap_entry -> Db.gap_entry -> bool)
  (db : Db.database) (u : Z) (role : string) (n : Z) (rows1 : list Db.gap_entry) :
  fst (Db.compute_gap tie1 db u role n) = Ok rows1 ->
  exists rows2,
    fst (Db.compute_gap tie2 db u role n) = Ok rows2
    /\ map Db.gap_freq rows2 = map Db.gap_freq rows1.
Proof.
  unfold Db.compute_gap. destruct (n <? 0); [discriminate|]. cbn [fst].
  intros H. injection H as <-. eexists. split; [reflexivity|].
  rewrite <- !firstn_map. f_equal.
  apply sorted_perm_freqs; try apply order_by_freq_sorted.
  rewrite !order_by_freq_perm. reflexivity.
Qed.

(** Saving the skills of one user, whether it returns or raises, leaves
    the gap of every other user as it was: the same rows when the
    datastore orders ties as before, and the same frequencies, position
    by position, whatever it does with ties. *)
Theorem save_keeps_the_gap_of_other_users
  (tie_first : Db.gap_entry -> Db.gap_entry -> bool)
  (accepts : Db.statement -> list Db.user_skill -> bool) (db : Db.database)
  (u v : Z) (matched : list match_t) (r : result unit)
  (t' : list Db.user_skill) (seen : list (list Db.user_skill))
  (role : string) (n : Z) :
  Db.save_user_skills accepts u matched (Db.user_skills db) = (r, t', seen) ->
  v <> u ->
  fst (Db.compute_gap tie_first (with_user_skills db t') v role n)
  = fst (Db.compute_gap tie_first db v role n)
  /\ forall tie_after rows,
       fst (Db.compute_gap tie_first db v role n) = Ok rows ->
       exists rows',
         fst (Db.compute_gap tie_after (with_user_skills db t') v role n) = Ok rows'
         /\ map Db.gap_freq rows' = map Db.gap_freq rows.
Proof.
  intros H Hv.
  assert (Heq : forall tie,
             fst (Db.compute_gap tie (with_user_skills db t') v role n)
             = fst (Db.compute_gap tie db v role n)).
  { intros tie. apply compute_gap_skills_of.
    eapply save_keeps_other_rows; eassumption. }
  split; [apply Heq|].
  intros tie_after rows Hrows. rewrite Heq.
  apply (gap_freqs_any_order tie_first tie_after). exact Hrows.
Qed.

Lemma save_keeps_the_gap_of_other_users_witness :
  fst (Db.compute_gap Sample.group_order
         (with_user_skills Sample.postings
            [Db.mk_user_skill 6 2 Sample.one; Db.mk_user_skill 5 2 Sample.one])
         6 "engineer" 15)
  = fst (Db.compute_gap Sample.group_order Sample.postings 6 "engineer" 15)
  /\ forall tie_after rows,
       fst (Db.compute_gap Sample.group_order Sample.postings 6 "engineer" 15)
       = Ok rows ->
       exists rows',
         fst (Db.compute_gap tie_after
                (with_user_skills Sample.postings
                   [Db.mk_user_skill 6 2 Sample.one; Db.mk_user_skill 5 2 Sample.one])
                6 "engineer" 15) = Ok rows'
         /\ map Db.gap_freq rows' = map Db.gap_freq rows.
Proof.
  apply (save_keeps_the_gap_of_other_users Sample.group_order Sample.primary_key
           Sample.postings 5 6 [(2, "sql", Sample.one)] (Ok tt) _
           [[Db.mk_user_skill 6 2 Sample.one]; [Db.mk_user_skill 6 2 Sample.one]]).
  - vm_compute. reflexivity.
  - lia.
Defined.

(** Every row of the gap comes from a joined row that passed the
    [WHERE] clause. *)
Lemma compute_gap_in (tie_first : Db.gap_entry -> Db.gap_entry -> bool)
  (db : Db.database) (u : Z) (role : string) (n : Z)
  (rows : list Db.gap_entry) (g : Db.gap_entry) :
  fst (Db.compute_gap tie_first db u role n) = Ok rows ->
  In g rows ->
  Db.gap_freq g
  = Z.of_nat (rows_of_key (gap_key g)
                (filter (Db.selected db ("%" ++ Py.lower role ++ "%") u)
                   (Db.joined db)))
  /\ exists r,
       In r (Db.joined db)
       /\ Db.selected db ("%" ++ Py.lower role ++ "%") u r = true
       /\ row_key r = gap_key g.
Proof.
  unfold Db.compute_gap. destruct (n <? 0); [discriminate|]. cbn [fst].
  intros H Hg. injection H as <-. apply in_firstn in Hg.
  apply (Permutation_in _ (order_by_freq_perm _ _)) in Hg.
  destruct (group_count_counted
              (filter (Db.selected db ("%" ++ Py.lower role ++ "%") u) (Db.joined db)))
    as (_ & Hfreq & _).
  destruct (Hfreq g Hg) as [Hf Hone]. split; [exact Hf|].
  unfold rows_of_key in Hone.
  destruct (filter (fun r => key_eqb (row_key r) (gap_key g))
              (filter (Db.selected db ("%" ++ Py.lower role ++ "%") u) (Db.joined db)))
    as [|r rest] eqn:E; [cbn in Hone; lia|].
  assert (Hr : In r (r :: rest)) by (left; reflexivity).
  rewrite <- E in Hr. apply filter_In in Hr. destruct Hr as [Hr Hk].
  apply filter_In in Hr. destruct Hr as [Hj Hs].
  exists r. split; [exact Hj|]. split; [exact Hs|].
  apply key_eqb_eq. exact Hk.
Qed.

(** After a save that returned, no skill of the saved matches is in the
    user's gap, for any role and any limit. *)
Theorem saved_skills_leave_the_gap
  (tie_first : Db.gap_entry -> Db.gap_entry -> bool)
  (accepts : Db.statement -> list Db.user_skill -> bool) (db : Db.database)
  (u : Z) (matched : list match_t) (t' : list Db.user_skill)
  (seen : list (list Db.user_skill)) (role : string) (n : Z)
  (rows : list Db.gap_entry) :
  Db.save_user_skills accepts u matched (Db.user_skills db) = (Ok tt, t', seen) ->
  fst (Db.compute_gap tie_first (with_user_skills db t') u role n) = Ok rows ->
  forall m, In m matched -> ~ In (match_id m) (map Db.gap_id rows).
Proof.
  intros Hs Hg m Hm Hin. apply save_ok_replaced in Hs.
  apply in_map_iff in Hin. destruct Hin as [g [Hid Hin]].
  destruct (compute_gap_in _ _ _ _ _ _ _ Hg Hin) as (_ & r & _ & Hsel & Hk).
  unfold Db.selected in Hsel. apply andb_prop in Hsel. destruct Hsel as [_ Hn].
  assert (Hsid : Db.s_skill_id (fst (fst r)) = match_id m).
  { unfold row_key, gap_key in Hk. injection Hk as Hk _. congruence. }
  rewrite Hsid in Hn. unfold Db.not_recorded in Hn.
  apply negb_true_iff in Hn.
  assert (Hex : existsb (fun us => (Db.us_user_id us =? u)
                                   && (Db.us_skill_id us =? match_id m))
                  (Db.user_skills (with_user_skills db t')) = true).
  { apply existsb_exists. exists (Db.row_of u m). split.
    - cbn [with_user_skills Db.user_skills]. subst t'. unfold Db.replaced.
      apply in_or_app. right. apply in_map. exact Hm.
    - cbn. rewrite !Z.eqb_refl. reflexivity. }
  congruence.
Qed.

Lemma saved_skills_leave_the_gap_witness :
  fst (Db.compute_gap Sample.group_order
         (with_user_skills Sample.postings
            [Db.mk_user_skill 6 2 Sample.one; Db.mk_user_skill 5 2 Sample.one])
         5 "engineer" 15)
  = Ok [(1, "docker", 1)]
  /\ ~ In (match_id (2, "sql", Sample.one)) (map Db.gap_id [(1, "docker", 1)]).
Proof.
  split; [vm_compute; reflexivity|].
  apply (saved_skills_leave_the_gap Sample.group_order Sample.primary_key
           Sample.postings 5 [(2, "sql", Sample.one)]
           [Db.mk_user_skill 6 2 Sample.one; Db.mk_user_skill 5 2 Sample.one]
           [[Db.mk_user_skill 6 2 Sample.one]; [Db.mk_user_skill 6 2 Sample.one]]
           "engineer" 15 [(1, "docker", 1)]).
  - vm_compute. reflexivity.
  - vm_compute. reflexivity.
  - left. reflexivity.
Defined.

(** With a smaller limit the query returns, position by position, the
    frequencies of the head of what it returns with a larger limit,
    whatever order the datastore gives to rows of one frequency in either
    execution.  The skills at tied positions can differ. *)
Theorem gap_limits_agree_on_frequencies
  (tie1 tie2 : Db.gap_entry -> Db.gap_entry -> bool) (db : Db.database) (u : Z)
  (role : string) (n1 n2 : Z) (rows2 : list Db.gap_entry) :
  0 <= n1 <= n2 ->
  fst (Db.compute_gap tie2 db u role n2) = Ok rows2 ->
  exists rows1,
    fst (Db.compute_gap tie1 db u role n1) = Ok rows1
    /\ map Db.gap_freq rows1 = firstn (Z.to_nat n1) (map Db.gap_freq rows2).
Proof.
  intros Hn. unfold Db.compute_gap.
  destruct (Z.ltb_spec n2 0) as [|_]; [lia|].
  destruct (Z.ltb_spec n1 0) as [|_]; [lia|].
  cbn [fst]. intros H. injection H as <-. eexists. split; [reflexivity|].
  rewrite <- !firstn_map, firstn_firstn.
  replace (Nat.min (Z.to_nat n1) (Z.to_nat n2)) with (Z.to_nat n1) by lia.
  f_equal. apply sorted_perm_freqs; try apply order_by_freq_sorted.
  rewrite !order_by_freq_perm. reflexivity.
Qed.

Lemma gap_limits_agree_on_frequencies_witness :
  exists rows1,
    fst (Db.compute_gap Sample.reverse_order Sample.postings 5 "" 2) = Ok rows1
    /\ map Db.gap_freq rows1
       = firstn (Z.to_nat 2)
           (map Db.gap_freq [(2, "sql", 4); (1, "docker", 1); (3, "excel", 1)]).
Proof.
  apply (gap_limits_agree_on_frequencies Sample.reverse_order Sample.group_order
           Sample.postings 5 "" 2 15).
  - lia.
  - vm_compute. reflexivity.
Defined.

(** The rows at tied positions depend on the datastore: with a limit of
    two, one order of ties returns [docker], the other [excel]. *)
Example gap_ties_depend_on_the_datastore :
  fst (Db.compute_gap Sample.group_order Sample.postings 5 "" 2)
  = Ok [(2, "sql", 4); (1, "docker", 1)]
  /\ fst (Db.compute_gap Sample.reverse_order Sample.postings 5 "" 2)
     = Ok [(2, "sql", 4); (3, "excel", 1)].
Proof. split; reflexivity. Qed.

(** With an empty role the pattern is [%%], which every title matches
    but no [NULL]: the frequency of a returned skill is then the number
    of all its links to postings that have a title. *)
Theorem empty_role_counts_every_titled_posting
  (tie_first : Db.gap_entry -> Db.gap_entry -> bool) (db : Db.database) (u : Z)
  (n : Z) (rows : list Db.gap_entry) :
  fst (Db.compute_gap tie_first db u "" n) = Ok rows ->
  forall g, In g rows ->
    Db.gap_freq g
    = Z.of_nat (rows_of_key (gap_key g) (filter titled (Db.joined db))).
Proof.
  intros H g Hg.
  destruct (compute_gap_in _ _ _ _ _ _ _ H Hg) as (Hf & r & _ & Hsel & Hk).
  rewrite Hf. f_equal. unfold rows_of_key. rewrite !filter_filter. f_equal.
  apply filter_ext_in. intros x _.
  destruct (key_eqb (row_key x) (gap_key g)) eqn:Ex; [|rewrite !andb_false_r; reflexivity].
  rewrite !andb_true_r. apply key_eqb_eq in Ex.
  unfold Db.selected in *. apply andb_prop in Hsel. destruct Hsel as [_ Hn].
  assert (Hid : Db.s_skill_id (fst (fst x)) = Db.s_skill_id (fst (fst r))).
  { unfold row_key in *. rewrite <- Hk in Ex. injection Ex as Ex _. exact Ex. }
  rewrite Hid, Hn, andb_true_r.
  unfold Db.title_like, titled. destruct (Db.title (snd x)) as [t|]; [|reflexivity].
  change ("%" ++ Py.lower "" ++ "%")%string with ("%" ++ "" ++ "%")%string.
  rewrite (like_plain_contains "" eq_refl). unfold Db.contains.
  destruct (Py.lower t); reflexivity.
Qed.

Lemma empty_role_counts_every_titled_posting_witness :
  fst (Db.compute_gap Sample.group_order Sample.with_untitled 5 "" 15)
  = Ok [(2, "sql", 4); (1, "docker", 1); (3, "excel", 1)]
  /\ Db.gap_freq (1, "docker", 1)
     = Z.of_nat (rows_of_key (gap_key (1, "docker", 1))
                   (filter titled (Db.joined Sample.with_untitled))).
Proof.
  split; [vm_compute; reflexivity|].
  apply (empty_role_counts_every_titled_posting Sample.group_order
           Sample.with_untitled 5 15
           [(2, "sql", 4); (1, "docker", 1); (3, "excel", 1)]).
  - vm_compute. reflexivity.
  - right. left. reflexivity.
Defined.

(* ------------------------------------------------------------------ *)
(** ** Seeding the vocabulary *)

Lemma lower_char_lower_char (c : ascii) :
  Py.lower_char (Py.lower_char c) = Py.lower_char c.
Proof. destruct c as [[] [] [] [] [] [] [] []]; reflexivity. Qed.

Lemma lower_lower (s : string) : Py.lower (Py.lower s) = Py.lower s.
Proof.
  induction s as [|c s IH]; cbn; [reflexivity|].
  rewrite lower_char_lower_char, IH. reflexivity.
Qed.

Lemma lstrip_lower (s : string) : Etl.lstrip (Py.lower s) = Py.lower (Etl.lstrip s).
Proof.
  induction s as [|c s IH]; cbn; [reflexivity|].
  rewrite isspace_lower_char. destruct (Py.isspace c); [exact IH|reflexivity].
Qed.

Lemma rstrip_lower (s : string) : Etl.rstrip (Py.lower s) = Py.lower (Etl.rstrip s).
Proof.
  induction s as [|c s IH]; cbn; [reflexivity|].
  rewrite IH, isspace_lower_char.
  destruct (Etl.rstrip s); cbn; [destruct (Py.isspace c)|]; reflexivity.
Qed.

Lemma strip_lower (s : string) : Etl.strip (Py.lower s) = Py.lower (Etl.strip s).
Proof. unfold Etl.strip. rewrite lstrip_lower. apply rstrip_lower. Qed.

Lemma rstrip_rstrip (s : string) : Etl.rstrip (Etl.rstrip s) = Etl.rstrip s.
Proof.
  induction s as [|c s IH]; cbn; [reflexivity|].
  destruct (Etl.rstrip s) as [|d r] eqn:E.
  - destruct (Py.isspace c) eqn:Ec; cbn; [reflexivity|]. rewrite Ec. reflexivity.
  - cbn [Etl.rstrip]. cbn [Etl.rstrip] in IH. rewrite IH. reflexivity.
Qed.

(** What [lstrip] returns is empty or starts with a character that is
    not white space, and [rstrip] keeps such a head. *)
Lemma lstrip_head (s : string) (c : ascii) (r : string) :
  Etl.lstrip s = String c r -> Py.isspace c = false.
Proof.
  induction s as [|d s IH]; cbn; [discriminate|].
  destruct (Py.isspace d) eqn:E; [exact IH|].
  intros H. injection H as <- _. exact E.
Qed.

Lemma rstrip_head (c : ascii) (r : string) :
  Py.isspace c = false -> exists r', Etl.rstrip (String c r) = String c r'.
Proof.
  intros H. cbn. rewrite H.
  destruct (Etl.rstrip r); eexists; reflexivity.
Qed.

Lemma rstrip_nil (s : string) : s = "" -> Etl.rstrip s = "".
Proof. intros ->. reflexivity. Qed.

Lemma lstrip_strip (s : string) : Etl.lstrip (Etl.strip s) = Etl.strip s.
Proof.
  unfold Etl.strip. destruct (Etl.lstrip s) as [|c r] eqn:E; [reflexivity|].
  pose proof (lstrip_head _ _ _ E) as Hc.
  destruct (rstrip_head c r Hc) as [r' ->]. cbn. rewrite Hc. reflexivity.
Qed.

Lemma strip_strip (s : string) : Etl.strip (Etl.strip s) = Etl.strip s.
Proof.
  unfold Etl.strip at 1. rewrite lstrip_strip. unfold Etl.strip.
  apply rstrip_rstrip.
Qed.

Lemma existsb_eqb_in (x : string) (l : list string) :
  existsb (String.eqb x) l = true <-> In x l.
Proof.
  rewrite existsb_exists. split.
  - intros [y [Hy He]]. apply String.eqb_eq in He. subst. exact Hy.
  - intros H. exists x. split; [exact H|apply String.eqb_refl].
Qed.

Lemma unique_from_in (l : list string) :
  forall seen x, In x (Etl.unique_from seen l) <-> In x l /\ ~ In x seen.
Proof.
  induction l as [|y l IH]; intros seen x; cbn.
  - tauto.
  - destruct (existsb (String.eqb y) seen) eqn:E.
    + apply existsb_eqb_in in E. rewrite IH. split.
      * intros [H1 H2]. tauto.
      * intros [[->|H1] H2]; [contradiction|tauto].
    + assert (Hy : ~ In y seen).
      { intros H. apply existsb_eqb_in in H. congruence. }
      cbn. rewrite IH. cbn. split.
      * intros [->|[H1 H2]]; [tauto|]. split; [tauto|]. intros H. apply H2. tauto.
      * intros [[->|H1] H2]; [tauto|].
        destruct (string_dec y x) as [->|Hn]; [tauto|]. right. split; [exact H1|].
        intros [H|H]; [contradiction|contradiction].
Qed.

Lemma unique_from_nodup (l : list string) :
  forall seen, NoDup (Etl.unique_from seen l).
Proof.
  induction l as [|y l IH]; intros seen; cbn; [constructor|].
  destruct (existsb (String.eqb y) seen); [apply IH|].
  constructor; [|apply IH].
  intros H. apply unique_from_in in H. destruct H as [_ H]. apply H. left. reflexivity.
Qed.

Lemma unique_from_fixed (l : list string) :
  forall seen, NoDup l -> (forall x, In x l -> ~ In x seen) ->
               Etl.unique_from seen l = l.
Proof.
  induction l as [|y l IH]; intros seen Hnd Hs; cbn; [reflexivity|].
  inversion Hnd as [|? ? Hy Hnd']; subst.
  destruct (existsb (String.eqb y) seen) eqn:E.
  - apply existsb_eqb_in in E. exfalso. apply (Hs y); [left; reflexivity|exact E].
  - f_equal. apply IH; [exact Hnd'|].
    intros x Hx [<-|H]; [contradiction|]. apply (Hs x); [right; exact Hx|exact H].
Qed.

Lemma dropna_in (cells : list (option string)) (c : string) :
  In c (Etl.dropna cells) <-> In (Some c) cells.
Proof.
  induction cells as [|[d|] cells IH]; cbn; [tauto| |].
  - rewrite IH. split; (intros [H|H]; [left; congruence|right; exact H]).
  - rewrite IH. split; [tauto|]. intros [H|H]; [discriminate|exact H].
Qed.

Lemma dropna_some (l : list string) : Etl.dropna (map Some l) = l.
Proof. induction l as [|x l IH]; cbn; [|rewrite IH]; reflexivity. Qed.

Lemma clean_skills_in (cells : list (option string)) (x : string) :
  In x (Etl.clean_skills cells)
  <-> exists c, In (Some c) cells /\ x = Py.lower (Etl.strip c).
Proof.
  unfold Etl.clean_skills, Etl.unique. rewrite unique_from_in.
  rewrite map_map, in_map_iff. split.
  - intros [[c [<- Hc]] _]. exists c. split; [apply dropna_in; exact Hc|reflexivity].
  - intros [c [Hc ->]]. split; [|intros []].
    exists c. split; [reflexivity|apply dropna_in; exact Hc].
Qed.

Lemma clean_skills_normal (cells : list (option string)) (x : string) :
  In x (Etl.clean_skills cells) -> Etl.strip x = x /\ Py.lower x = x.
Proof.
  intros Hx. apply clean_skills_in in Hx. destruct Hx as [c [_ ->]]. split.
  - rewrite strip_lower, strip_strip. reflexivity.
  - apply lower_lower.
Qed.

Lemma clean_skills_nodup (cells : list (option string)) :
  NoDup (Etl.clean_skills cells).
Proof. apply unique_from_nodup. Qed.

(** The names [seed_skills] takes from the column: every cell that is
    not missing gives its trimmed, lower-cased text, a blank cell the
    empty name; no name comes twice, none has white space at either end
    or a capital letter. *)
Theorem cleaned_names_are_distinct_and_normalised (cells : list (option string)) :
  NoDup (Etl.clean_skills cells)
  /\ (forall x, In x (Etl.clean_skills cells)
                <-> exists c, In (Some c) cells /\ x = Py.lower (Etl.strip c))
  /\ (forall x, In x (Etl.clean_skills cells) ->
                Etl.strip x = x /\ Py.lower x = x).
Proof.
  split; [apply clean_skills_nodup|].
  split; [apply clean_skills_in|apply clean_skills_normal].
Qed.

(** Cleaning is idempotent: the cleaned names, read as a column again,
    clean to themselves, in the same order. *)
Theorem cleaning_is_idempotent (cells : list (option string)) :
  Etl.clean_skills (map Some (Etl.clean_skills cells)) = Etl.clean_skills cells.
Proof.
  pose proof (clean_skills_nodup cells) as Hnd.
  pose proof (clean_skills_normal cells) as Hfix.
  unfold Etl.clean_skills at 1. rewrite dropna_some, map_map.
  rewrite (map_ext_in _ (fun x => x)), map_id.
  - apply unique_from_fixed; [exact Hnd|]. intros x _ [].
  - intros x Hx. destruct (Hfix x Hx) as [Hs Hl]. rewrite Hs. exact Hl.
Qed.

Section SeedFacts.

Variable encode : list string -> result Np.matrix.
Variable json_dumps : Np.vec -> string.
Variable accepts : Etl.statement -> Etl.skills_table -> bool.
Variable ignores : string -> Etl.skills_table -> bool.
Variable burns_id : bool.

Local Abbreviation execute_all_ := (Etl.execute_all accepts ignores burns_id).
Local Abbreviation seed_ := (Etl.seed_skills encode json_dumps accepts ignores burns_id).

(** The rows a run of [INSERT IGNORE]s appends: each from one of the
    pairs, under keys that rise from the counter on. *)
Lemma inserts_run (pairs : list (string * Np.vec)) :
  forall t t',
    execute_all_
      (map (fun p => Etl.InsertIgnoreSkill (fst p) (json_dumps (snd p))) pairs) t
    = Ok t' ->
    exists new,
      Etl.table_rows t' = Etl.table_rows t ++ new
      /\ Etl.next_skill_id t <= Etl.next_skill_id t'
      /\ (forall r, In r new ->
            Etl.next_skill_id t <= Cache.row_skill_id r < Etl.next_skill_id t'
            /\ exists p, In p pairs /\ Cache.row_name r = fst p
                         /\ Cache.row_embedding r = Some (json_dumps (snd p)))
      /\ StronglySorted Z.lt (map Cache.row_skill_id new)
      /\ (NoDup (map fst pairs) -> NoDup (map Cache.row_name new))
      /\ (List.length new <= List.length pairs)%nat
      /\ ((forall nm tbl, ignores nm tbl = false) ->
          map Cache.row_name new = map fst pairs).
Proof.
  induction pairs as [|p pairs IH]; intros t t' H; cbn [map Etl.execute_all] in H.
  - injection H as <-. exists []. rewrite app_nil_r.
    split; [reflexivity|]. split; [lia|]. split; [intros r []|].
    split; [constructor|]. split; [intros _; constructor|].
    split; [cbn; lia|]. intros _. reflexivity.
  - destruct (Etl.execute accepts ignores burns_id
                (Etl.InsertIgnoreSkill (fst p) (json_dumps (snd p))) t)
      as [t1|e] eqn:E; cbn [bind] in H; [|discriminate].
    unfold Etl.execute in E.
    destruct (accepts (Etl.InsertIgnoreSkill (fst p) (json_dumps (snd p))) t);
      [|discriminate].
    destruct (IH t1 t' H) as (new & Hrows & Hnext & Hin & Hsort & Hnd & Hlen & Hall).
    destruct (ignores (fst p) t) eqn:Ei; injection E as <-;
      cbn [Etl.table_rows Etl.next_skill_id] in *.
    + exists new. split; [exact Hrows|].
      split; [destruct burns_id; lia|]. split.
      { intros r Hr. destruct (Hin r Hr) as [Hid (q & Hq & Hname & Hemb)].
        split; [destruct burns_id; lia|].
        exists q. split; [right; exact Hq|]. split; assumption. }
      split; [exact Hsort|]. split.
      { intros Hp. apply Hnd. inversion Hp; assumption. }
      split; [cbn; lia|].
      intros Hnever. rewrite Hnever in Ei. discriminate.
    + exists (Cache.mk_row (Etl.next_skill_id t) (fst p) (Some (json_dumps (snd p)))
              :: new).
      split; [rewrite Hrows, <- app_assoc; reflexivity|].
      split; [lia|]. split.
      { intros r [<-|Hr].
        - cbn. split; [lia|]. exists p. split; [left; reflexivity|]. split; reflexivity.
        - destruct (Hin r Hr) as [Hid (q & Hq & Hname & Hemb)].
          split; [lia|]. exists q. split; [right; exact Hq|]. split; assumption. }
      split.
      { cbn. constructor; [exact Hsort|]. apply Forall_forall. intros i Hi.
        apply in_map_iff in Hi. destruct Hi as [r [<- Hr]].
        destruct (Hin r Hr) as [Hid _]. lia. }
      split.
      { intros Hp. cbn in Hp. inversion Hp as [|? ? Hnot Hp']; subst.
        cbn. constructor; [|apply Hnd; exact Hp'].
        intros Hc. apply Hnot. apply in_map_iff in Hc. destruct Hc as [r [Hname Hr]].
        destruct (Hin r Hr) as [_ (q & Hq & Hname' & _)].
        apply in_map_iff. exists q. split; [congruence|exact Hq]. }
      split; [cbn; lia|].
      intros Hnever. cbn. f_equal. apply Hall. exact Hnever.
Qed.

Lemma combine_fst_nodup {A B : Type} (l : list A) (l' : list B) :
  NoDup l -> NoDup (map fst (combine l l')).
Proof.
  revert l'. induction l as [|x l IH]; intros l' H; [constructor|].
  destruct l' as [|y l']; [constructor|]. cbn. inversion H as [|? ? Hx Hl]; subst.
  constructor; [|apply IH; exact Hl].
  intros Hc. apply Hx. apply in_map_iff in Hc. destruct Hc as [[a b] [Ha Hab]].
  cbn in Ha. subst a. eapply in_combine_l. exact Hab.
Qed.

(** What a seeding that returned with names has done. *)
Lemma seed_ok_inv (cells : list (option string)) (t t' : Etl.skills_table) :
  seed_ (Etl.Table (Some (Etl.Objects cells))) t = (Ok tt, t') ->
  Etl.clean_skills cells <> [] ->
  exists embeddings,
    encode (Etl.clean_skills cells) = Ok embeddings
    /\ execute_all_
         (map (fun p => Etl.InsertIgnoreSkill (fst p) (json_dumps (snd p)))
            (combine (Etl.clean_skills cells) embeddings))
         (Etl.mk_table [] (Etl.next_skill_id t))
       = Ok t'.
Proof.
  intros H Hne. unfold Etl.seed_skills in H.
  destruct (Etl.clean_skills cells) as [|nm names] eqn:Ec; [contradiction|].
  destruct (encode (nm :: names)) as [embeddings|e]; [|discriminate].
  exists embeddings. split; [reflexivity|].
  cbn [Etl.execute_all] in H. unfold Etl.execute at 1 in H.
  destruct (accepts Etl.DeleteSkills t); cbn [bind] in H; [|discriminate].
  unfold Etl.inserts in H.
  destruct (execute_all_ _ _) as [t1|e] eqn:E in H; [|discriminate].
  injection H as <-. exact E.
Qed.

(** After a seeding that returned with names, the table holds new rows
    only: each has a key from the counter on (keys rise along the
    table), the name of one cleaned cell and the serialized embedding
    the encoder gave for that name; no name comes twice, there are no
    more rows than names, and exactly one per name, in the order of the
    names, when the datastore skips none and the encoder gives a vector
    for each. *)
Theorem seeding_replaces_the_table (cells : list (option string))
  (t t' : Etl.skills_table) :
  seed_ (Etl.Table (Some (Etl.Objects cells))) t = (Ok tt, t') ->
  Etl.clean_skills cells <> [] ->
  exists embeddings,
    encode (Etl.clean_skills cells) = Ok embeddings
    /\ (forall r, In r (Etl.table_rows t') ->
          Etl.next_skill_id t <= Cache.row_skill_id r < Etl.next_skill_id t'
          /\ exists nm v,
               In (nm, v) (combine (Etl.clean_skills cells) embeddings)
               /\ Cache.row_name r = nm
               /\ Cache.row_embedding r = Some (json_dumps v))
    /\ StronglySorted Z.lt (map Cache.row_skill_id (Etl.table_rows t'))
    /\ NoDup (map Cache.row_name (Etl.table_rows t'))
    /\ (List.length (Etl.table_rows t') <= List.length (Etl.clean_skills cells))%nat
    /\ ((forall nm tbl, ignores nm tbl = false) ->
        List.length embeddings = List.length (Etl.clean_skills cells) ->
        map Cache.row_name (Etl.table_rows t') = Etl.clean_skills cells).
Proof.
  intros H Hne. destruct (seed_ok_inv cells t t' H Hne) as (embeddings & He & Hrun).
  exists embeddings. split; [exact He|].
  destruct (inserts_run _ _ _ Hrun)
    as (new & Hrows & _ & Hin & Hsort & Hnd & Hlen & Hall).
  cbn [Etl.table_rows Etl.next_skill_id app] in Hrows, Hin. rewrite Hrows.
  split.
  { intros r Hr. destruct (Hin r Hr) as [Hid ([nm v] & Hp & Hname & Hemb)].
    split; [exact Hid|]. exists nm, v. split; [exact Hp|]. split; assumption. }
  split; [exact Hsort|]. split.
  { apply Hnd. apply combine_fst_nodup. apply clean_skills_nodup. }
  split.
  { rewrite length_combine in Hlen. lia. }
  intros Hnever Hl. rewrite (Hall Hnever).
  clear - Hl. revert embeddings Hl.
  induction (Etl.clean_skills cells) as [|x l IH]; intros [|y l'] Hl;
    cbn in *; try reflexivity; try discriminate.
  f_equal. apply IH. lia.
Qed.

End SeedFacts.

Lemma seeding_replaces_the_table_witness :
  exists embeddings,
    Fixture.encode_axes (Etl.clean_skills Fixture.skills_column) = Ok embeddings
    /\ (forall r,
          In r [Cache.mk_row 2 "python" (Some "[1.0, 0.0]");
                Cache.mk_row 3 "sql" (Some "[0.0, 1.0]")] ->
          2 <= Cache.row_skill_id r < 4
          /\ exists nm v,
               In (nm, v) (combine (Etl.clean_skills Fixture.skills_column) embeddings)
               /\ Cache.row_name r = nm
               /\ Cache.row_embedding r = Some (Fixture.dumps v))
    /\ StronglySorted Z.lt [2; 3]
    /\ NoDup ["python"; "sql"]
    /\ (2 <= List.length (Etl.clean_skills Fixture.skills_column))%nat
    /\ ((forall nm tbl, Fixture.never_ignores nm tbl = false) ->
        List.length embeddings = List.length (Etl.clean_skills Fixture.skills_column) ->
        ["python"; "sql"] = Etl.clean_skills Fixture.skills_column).
Proof.
  apply (seeding_replaces_the_table Fixture.encode_axes Fixture.dumps Fixture.willing
           Fixture.never_ignores true Fixture.skills_column Fixture.old_table
           (Etl.mk_table [Cache.mk_row 2 "python" (Some "[1.0, 0.0]");
                          Cache.mk_row 3 "sql" (Some "[0.0, 1.0]")] 4)).
  - vm_compute. reflexivity.
  - vm_compute. discriminate.
Defined.

(** Seeding and loading fit together: when the parser reads back what
    the serializer wrote for the encoder's vectors, the rows that
    [get_skills_with_embeddings] loads from a freshly seeded table have
    distinct ids and distinct names, and each carries the vector the
    encoder gave for its name. *)
Theorem seeded_vocabulary_loads_back
  (encode : list string -> result Np.matrix) (json_dumps : Np.vec -> string)
  (json_loads : string -> option Np.vec)
  (accepts : Etl.statement -> Etl.skills_table -> bool)
  (ignores : string -> Etl.skills_table -> bool) (burns_id : bool)
  (cells : list (option string)) (t t' : Etl.skills_table)
  (embeddings : Np.matrix) :
  encode (Etl.clean_skills cells) = Ok embeddings ->
  (forall v, In v embeddings ->
             json_dumps v <> "" /\ json_loads (json_dumps v) = Some v) ->
  Etl.clean_skills cells <> [] ->
  Etl.seed_skills encode json_dumps accepts ignores burns_id
    (Etl.Table (Some (Etl.Objects cells))) t = (Ok tt, t') ->
  exists v st,
    Cache.get_skills_with_embeddings json_loads (fun _ => Ok (Etl.table_rows t'))
      Cache.fresh = (Ok v, st)
    /\ NoDup (map skill_id (Cache.rows v))
    /\ NoDup (map name (Cache.rows v))
    /\ (forall s, In s (Cache.rows v) ->
          exists e, In (name s, e) (combine (Etl.clean_skills cells) embeddings)
                    /\ emb_array s = Some e).
Proof.
  intros He Hjson Hne H.
  destruct (seed_ok_inv _ _ _ _ _ _ _ _ H Hne) as (embeddings' & He' & Hrun).
  rewrite He in He'. injection He' as <-.
  destruct (inserts_run _ _ _ _ _ _ _ Hrun)
    as (new & Hrows & _ & Hin & Hsort & Hnd & _ & _).
  cbn [Etl.table_rows Etl.next_skill_id app] in Hrows, Hin.
  eexists. eexists. split; [reflexivity|].
  cbn [Cache.rows]. rewrite Hrows. split; [|split].
  - rewrite map_map. cbn [Cache.process_row skill_id].
    clear - Hsort. induction new as [|r new IH]; cbn; [constructor|].
    cbn in Hsort. apply StronglySorted_inv in Hsort. destruct Hsort as [Hs Hall].
    constructor; [|apply IH; exact Hs].
    intros Hc. rewrite Forall_forall in Hall. apply Hall in Hc. lia.
  - rewrite map_map. cbn [Cache.process_row name].
    apply Hnd. apply combine_fst_nodup. apply clean_skills_nodup.
  - intros s Hs. apply in_map_iff in Hs. destruct Hs as [r [<- Hr]].
    destruct (Hin r Hr) as [_ ([nm v] & Hp & Hname & Hemb)]. cbn [fst snd] in *.
    exists v. cbn [Cache.process_row name emb_array]. rewrite Hname.
    split; [exact Hp|]. rewrite Hemb.
    destruct (Hjson v (in_combine_r _ _ _ _ Hp)) as [Hd Hl].
    destruct (String.eqb_spec (json_dumps v) ""); [contradiction|exact Hl].
Qed.

Lemma seeded_vocabulary_loads_back_witness :
  exists v st,
    Cache.get_skills_with_embeddings Fixture.loads
      (fun _ => Ok [Cache.mk_row 2 "python" (Some "[1.0, 0.0]");
                    Cache.mk_row 3 "sql" (Some "[0.0, 1.0]")])
      Cache.fresh = (Ok v, st)
    /\ NoDup (map skill_id (Cache.rows v))
    /\ NoDup (map name (Cache.rows v))
    /\ (forall s, In s (Cache.rows v) ->
          exists e,
            In (name s, e)
              (combine (Etl.clean_skills Fixture.skills_column)
                 [[Sample.one; F64.zero]; [F64.zero; Sample.one]])
            /\ emb_array s = Some e).
Proof.
  apply (seeded_vocabulary_loads_back Fixture.encode_axes Fixture.dumps Fixture.loads
           Fixture.willing Fixture.never_ignores true Fixture.skills_column
           Fixture.old_table
           (Etl.mk_table [Cache.mk_row 2 "python" (Some "[1.0, 0.0]");
                          Cache.mk_row 3 "sql" (Some "[0.0, 1.0]")] 4)).
  - vm_compute. reflexivity.
  - intros v [<-|[<-|[]]]; split; (vm_compute; (discriminate || reflexivity)).
  - vm_compute. discriminate.
  - vm_compute. reflexivity.
Defined.

(* ------------------------------------------------------------------ *)
(** ** The endpoints *)

Lemma chunk_text_blank (text : string) :
  Py.all_space text = true ->
  chunk_text text App.default_chunk_size App.default_chunk_overlap = Ok [].
Proof.
  intros H. unfold chunk_text, Py.split. rewrite (split_from_all_space _ H).
  reflexivity.
Qed.

Lemma extract_blank (encode : list string -> Np.matrix) (skill_rows : list skill)
  (text : string) (top_k : Z) (thr : float) :
  Py.all_space text = true ->
  extract_skills_from_text encode skill_rows text top_k thr
    App.default_chunk_size App.default_chunk_overlap = Ok [].
Proof.
  intros H. apply extract_no_chunks. apply chunk_text_blank. exact H.
Qed.

Lemma extract_at_most (encode : list string -> Np.matrix) (skill_rows : list skill)
  (text : string) (top_k : Z) (thr : float) (chunk_size chunk_overlap : Z)
  (out : list match_t) :
  0 <= top_k ->
  extract_skills_from_text encode skill_rows text top_k thr chunk_size chunk_overlap
  = Ok out ->
  Z.of_nat (List.length out) <= top_k.
Proof.
  intros Hk H. apply extract_inv in H. destruct H as [->|(c & chunks & _ & ->)].
  - cbn. exact Hk.
  - apply slice_to_length. exact Hk.
Qed.

Lemma skills_of_replaced (u : Z) (matched : list match_t) (t : list Db.user_skill) :
  skills_of u (Db.replaced u matched t) = map (Db.row_of u) matched.
Proof.
  unfold skills_of, Db.replaced. rewrite filter_app, filter_filter.
  rewrite (filter_none _ t).
  - cbn. apply forallb_filter_id. apply forallb_forall. intros r Hr.
    apply in_map_iff in Hr. destruct Hr as [m [<- _]]. cbn. apply Z.eqb_refl.
  - intros r _. destruct (Db.us_user_id r =? u); reflexivity.
Qed.

Section UploadFacts.

Variable encode : list string -> Np.matrix.
Variable json_loads : string -> option Np.vec.
Variable datastore : nat -> result (list Cache.skill_row).
Variable accepts : Db.statement -> list Db.user_skill -> bool.
Variable ignores_user : string -> list App.user -> bool.
Variable burns_user_id : bool.
Variable accepts_user : string -> string -> list App.user -> bool.
Variable accepts_resume : App.resume -> list App.resume -> bool.

Local Abbreviation upload_ :=
  (App.upload_resume encode json_loads datastore accepts ignores_user
     burns_user_id accepts_user accepts_resume).
Local Abbreviation find_or_create_ :=
  (App.create_or_find_user ignores_user burns_user_id accepts_user).
Local Abbreviation store_ :=
  (App.store_resume ignores_user burns_user_id accepts_user accepts_resume).
Local Abbreviation extract_ :=
  (fun text st =>
     Cache.extract_skills_in_process json_loads datastore encode text 30
       App.default_sim_threshold App.default_chunk_size App.default_chunk_overlap
       (App.process st)).

(** Step 1 touches the [users] table only; the id it returns is the id
    of the first row under the email. *)
Lemma create_or_find_user_inv (name e : string) (st st1 : App.state) (uid : Z) :
  find_or_create_ name e st = (Ok uid, st1) ->
  App.resumes st1 = App.resumes st
  /\ App.user_skills st1 = App.user_skills st
  /\ App.recommendations st1 = App.recommendations st
  /\ App.process st1 = App.process st
  /\ App.sent st1 = App.sent st
  /\ (exists u, App.find_user e (App.users st1) = Some u /\ App.user_id u = uid)
  /\ (App.users st1 = App.users st
      \/ App.users st1 = App.users st ++ [App.mk_user (App.next_user_id st) name e]).
Proof.
  unfold App.create_or_find_user. intros H.
  destruct (accepts_user name e (App.users st)); [|discriminate].
  destruct (ignores_user e (App.users st)).
  - cbn [App.users] in H.
    destruct (App.find_user e (App.users st)) as [u|] eqn:Ef; [|discriminate].
    injection H as <- <-. cbn. repeat (split; [reflexivity|]).
    split; [exists u; split; [exact Ef|reflexivity]|left; reflexivity].
  - cbn [App.users] in H.
    destruct (App.find_user e (App.users st ++ [App.mk_user (App.next_user_id st) name e]))
      as [u|] eqn:Ef; [|discriminate].
    injection H as <- <-. cbn. repeat (split; [reflexivity|]).
    split; [exists u; split; [exact Ef|reflexivity]|right; reflexivity].
Qed.

(** A failed step 1 leaves the state as it was. *)
Lemma create_or_find_user_raise (name e : string) (st st1 : App.state)
  (err : py_error) :
  find_or_create_ name e st = (Raise err, st1) -> st1 = st.
Proof.
  unfold App.create_or_find_user. intros H.
  destruct (accepts_user name e (App.users st)).
  - destruct (App.find_user e _); [discriminate|].
    injection H as _ <-. reflexivity.
  - injection H as _ <-. reflexivity.
Qed.

(** Steps 1 to 3, when they go through, add the row of [resumes] and
    touch nothing but the two tables [users] and [resumes]. *)
Lemma store_resume_inv (name e fname : string) (temp_file : result unit)
  (pages : result (list string)) (st st2 : App.state) (uid : Z) :
  store_ name e fname temp_file pages st = (Ok uid, st2) ->
  exists st1,
    find_or_create_ name e st = (Ok uid, st1)
    /\ App.users st2 = App.users st1
    /\ App.resumes st2
       = App.resumes st ++ [App.mk_resume uid fname (App.parse_pdf_text pages)]
    /\ App.user_skills st2 = App.user_skills st
    /\ App.process st2 = App.process st.
Proof.
  unfold App.store_resume. intros H.
  destruct (find_or_create_ name e st) as [[uid0|err] st1] eqn:Ecf; [|discriminate].
  destruct (create_or_find_user_inv _ _ _ _ _ Ecf) as (Hr & Hu & _ & Hp & _).
  destruct temp_file as [[]|err]; [|discriminate].
  destruct (accepts_resume _ _); [|discriminate].
  injection H as <- <-. exists st1. cbn.
  split; [reflexivity|]. split; [reflexivity|].
  split; [rewrite Hr; reflexivity|]. split; [exact Hu|exact Hp].
Qed.

(** Steps 1 to 3, when they fail, have stored no row of [resumes] and
    touched no recorded skill. *)
Lemma store_resume_raise (name e fname : string) (temp_file : result unit)
  (pages : result (list string)) (st st2 : App.state) (err : py_error) :
  store_ name e fname temp_file pages st = (Raise err, st2) ->
  App.resumes st2 = App.resumes st /\ App.user_skills st2 = App.user_skills st.
Proof.
  unfold App.store_resume. intros H.
  destruct (find_or_create_ name e st) as [[uid0|err0] st1] eqn:Ecf.
  - destruct (create_or_find_user_inv _ _ _ _ _ Ecf) as (Hr & Hu & _).
    destruct temp_file as [[]|err1].
    + destruct (accepts_resume _ _); [discriminate|].
      injection H as _ <-. split; assumption.
    + injection H as _ <-. split; assumption.
  - apply create_or_find_user_raise in Ecf. subst st1.
    injection H as _ <-. split; reflexivity.
Qed.

(** What an upload that returned has done. *)
Lemma upload_ok_inv (name e fname : string) (temp_file : result unit)
  (pages : result (list string))
  (st st' : App.state) (uid : Z) (ms : list (string * float)) :
  upload_ name e fname temp_file pages st = (Ok (App.Uploaded uid ms), st') ->
  exists st1 matched proc',
    find_or_create_ name e st = (Ok uid, st1)
    /\ extract_ (App.parse_pdf_text pages) st = (Ok matched, proc')
    /\ ms = map (fun m => (match_name m, match_score m)) matched
    /\ App.user_skills st' = Db.replaced uid matched (App.user_skills st)
    /\ App.resumes st'
       = App.resumes st ++ [App.mk_resume uid fname (App.parse_pdf_text pages)]
    /\ App.users st' = App.users st1
    /\ App.process st' = proc'.
Proof.
  unfold App.upload_resume. intros H.
  destruct (store_ name e fname temp_file pages st) as [[uid0|err] st2] eqn:Est;
    [|discriminate].
  destruct (store_resume_inv _ _ _ _ _ _ _ _ Est) as (st1 & Hcf & Hus & Hr & Hu & Hp).
  cbn [App.process App.user_skills App.resumes App.users] in H.
  rewrite Hp in H.
  destruct (Cache.extract_skills_in_process json_loads datastore encode
              (App.parse_pdf_text pages) 30 App.default_sim_threshold
              App.default_chunk_size App.default_chunk_overlap (App.process st))
    as [[matched|err] proc'] eqn:Ex; [|discriminate].
  destruct (Db.save_user_skills accepts uid0 matched (App.user_skills st2))
    as [[[[]|err] saved] seen] eqn:Es; [|discriminate].
  injection H as <- <- <-. apply save_ok_replaced in Es.
  exists st1, matched, proc'. cbn.
  split; [exact Hcf|]. split; [reflexivity|]. split; [reflexivity|].
  split; [rewrite Es, Hu; reflexivity|]. split; [exact Hr|].
  split; [exact Hus|reflexivity].
Qed.

(** An upload that returns has recorded what it answers: the response
    lists the matches, at most 30, in rank order; the stored skills of
    the user are exactly these matches, in the same order, and replace
    whatever the user had; the rows of every other user are as before;
    one resume row was added, with the parsed text; and the id answered
    is the id of the first user row under the email. *)
Theorem upload_records_the_matches (name e fname : string)
  (temp_file : result unit) (pages : result (list string)) (st st' : App.state)
  (uid : Z) (ms : list (string * float)) :
  upload_ name e fname temp_file pages st = (Ok (App.Uploaded uid ms), st') ->
  (List.length ms <= 30)%nat
  /\ (exists matched,
        ms = map (fun m => (match_name m, match_score m)) matched
        /\ skills_of uid (App.user_skills st') = map (Db.row_of uid) matched)
  /\ (forall v, v <> uid ->
        skills_of v (App.user_skills st') = skills_of v (App.user_skills st))
  /\ App.resumes st'
     = App.resumes st ++ [App.mk_resume uid fname (App.parse_pdf_text pages)]
  /\ exists u, App.find_user e (App.users st') = Some u /\ App.user_id u = uid.
Proof.
  intros H.
  destruct (upload_ok_inv _ _ _ _ _ _ _ _ _ H)
    as (st1 & matched & proc' & Hcf & Hex & Hms & Hsk & Hres & Hus & _).
  split.
  { subst ms. rewrite length_map.
    unfold Cache.extract_skills_in_process in Hex.
    destruct (Cache.get_skills_with_embeddings json_loads datastore (App.process st))
      as [[v|err] st2]; cbn [bind] in Hex; [|discriminate].
    injection Hex as Hex _. apply extract_at_most in Hex; lia. }
  split.
  { exists matched. split; [exact Hms|]. rewrite Hsk. apply skills_of_replaced. }
  split.
  { intros v Hv. rewrite Hsk. unfold skills_of, Db.replaced.
    rewrite filter_app, filter_filter.
    rewrite (filter_none (fun r => Db.us_user_id r =? v) (map (Db.row_of uid) matched)).
    - rewrite app_nil_r. apply filter_ext. intros x.
      destruct (Z.eqb_spec (Db.us_user_id x) v) as [->|Hx].
      + destruct (Z.eqb_spec v uid); [contradiction|reflexivity].
      + apply andb_false_r.
    - intros x Hx. apply in_map_iff in Hx. destruct Hx as [m [<- _]]. cbn.
      apply Z.eqb_neq. congruence. }
  split; [exact Hres|].
  rewrite Hus.
  destruct (create_or_find_user_inv _ _ _ _ _ Hcf) as (_ & _ & _ & _ & _ & Hu & _).
  exact Hu.
Qed.

(** A resume without readable text (a file the PDF reader rejects, or
    pages with white space only) is answered with no match, and every
    skill the user had recorded before is deleted. *)
Theorem unreadable_resume_clears_the_skills (name e fname : string)
  (temp_file : result unit) (pages : result (list string)) (st st' : App.state)
  (uid : Z) (ms : list (string * float)) :
  Py.all_space (App.parse_pdf_text pages) = true ->
  upload_ name e fname temp_file pages st = (Ok (App.Uploaded uid ms), st') ->
  ms = [] /\ skills_of uid (App.user_skills st') = [].
Proof.
  intros Hb H.
  destruct (upload_ok_inv _ _ _ _ _ _ _ _ _ H)
    as (st1 & matched & proc' & _ & Hex & Hms & Hsk & _).
  assert (Hm : matched = []).
  { unfold Cache.extract_skills_in_process in Hex.
    destruct (Cache.get_skills_with_embeddings json_loads datastore (App.process st))
      as [[v|err] st2]; cbn [bind] in Hex; [|discriminate].
    injection Hex as Hex _. rewrite (extract_blank _ _ _ _ _ Hb) in Hex.
    injection Hex as <-. reflexivity. }
  subst matched. split; [exact Hms|].
  rewrite Hsk. apply skills_of_replaced.
Qed.

(** An upload that raises has not touched the recorded skills.  The
    endpoint is not one transaction: when steps 1 to 3 (user, temporary
    file, [INSERT INTO resumes]) went through and the failure came
    afterwards (the cache load, the matcher or the save), the row of
    [resumes] stays stored; when one of steps 1 to 3 failed, no row of
    [resumes] was stored. *)
Theorem failed_upload_keeps_the_skills (name e fname : string)
  (temp_file : result unit) (pages : result (list string))
  (st st' : App.state) (err : py_error) :
  upload_ name e fname temp_file pages st = (Raise err, st') ->
  App.user_skills st' = App.user_skills st
  /\ (forall uid st2,
        store_ name e fname temp_file pages st = (Ok uid, st2) ->
        App.resumes st'
        = App.resumes st ++ [App.mk_resume uid fname (App.parse_pdf_text pages)])
  /\ (forall err2 st2,
        store_ name e fname temp_file pages st = (Raise err2, st2) ->
        App.resumes st' = App.resumes st).
Proof.
  unfold App.upload_resume. intros H.
  destruct (store_ name e fname temp_file pages st) as [[uid0|err0] st2] eqn:Est.
  - destruct (store_resume_inv _ _ _ _ _ _ _ _ Est) as (st1 & _ & _ & Hr & Hu & _).
    assert (Hst : App.user_skills st' = App.user_skills st
                  /\ App.resumes st' = App.resumes st2).
    { destruct (Cache.extract_skills_in_process json_loads datastore encode
                  (App.parse_pdf_text pages) 30 App.default_sim_threshold
                  App.default_chunk_size App.default_chunk_overlap (App.process st2))
        as [[matched|err1] proc'].
      - cbn [App.user_skills] in H.
        destruct (Db.save_user_skills accepts uid0 matched (App.user_skills st2))
          as [[[[]|err2] saved] seen]; [discriminate|].
        injection H as _ <-. cbn. split; [exact Hu|reflexivity].
      - injection H as _ <-. cbn. split; [exact Hu|reflexivity]. }
    destruct Hst as [Hsk Hres]. split; [exact Hsk|]. split.
    + intros uid st3 Heq. injection Heq as <- _. rewrite Hres. exact Hr.
    + intros err2 st3 Heq. discriminate.
  - injection H as _ <-.
    destruct (store_resume_raise _ _ _ _ _ _ _ _ Est) as [Hr Hu].
    split; [exact Hu|]. split.
    + intros uid st3 Heq. discriminate.
    + intros err2 st3 _. exact Hr.
Qed.

(** A second upload under the same email finds the same user, and its
    matches replace those of the first: the skills of the user do not
    pile up. *)
Theorem second_upload_replaces_the_first (name1 name2 e fname1 fname2 : string)
  (temp_file1 temp_file2 : result unit)
  (pages1 pages2 : result (list string)) (st st1 st2 : App.state)
  (uid1 uid2 : Z) (ms1 ms2 : list (string * float)) :
  upload_ name1 e fname1 temp_file1 pages1 st = (Ok (App.Uploaded uid1 ms1), st1) ->
  upload_ name2 e fname2 temp_file2 pages2 st1 = (Ok (App.Uploaded uid2 ms2), st2) ->
  uid2 = uid1
  /\ List.length (skills_of uid1 (App.user_skills st2)) = List.length ms2.
Proof.
  intros H1 H2.
  destruct (upload_ok_inv _ _ _ _ _ _ _ _ _ H1)
    as (sa & matched1 & proc1 & Hcf1 & _ & _ & _ & _ & Hus1 & _).
  destruct (upload_ok_inv _ _ _ _ _ _ _ _ _ H2)
    as (sb & matched2 & proc2 & Hcf2 & _ & Hms2 & Hsk2 & _).
  destruct (create_or_find_user_inv _ _ _ _ _ Hcf1)
    as (_ & _ & _ & _ & _ & (u1 & Hf1 & Hid1) & _).
  destruct (create_or_find_user_inv _ _ _ _ _ Hcf2)
    as (_ & _ & _ & _ & _ & (u2 & Hf2 & Hid2) & Husers).
  assert (Hsame : uid2 = uid1).
  { rewrite <- Hus1 in Hf1. destruct Husers as [Hu|Hu]; rewrite Hu in Hf2.
    - congruence.
    - unfold App.find_user in Hf2. rewrite find_app in Hf2.
      unfold App.find_user in Hf1. rewrite Hf1 in Hf2. congruence. }
  split; [exact Hsame|]. rewrite Hsame in Hsk2.
  rewrite Hsk2, skills_of_replaced, Hms2, !length_map. reflexivity.
Qed.

End UploadFacts.

Lemma upload_records_the_matches_witness :
  (List.length [("python", Sample.one)] <= 30)%nat
  /\ (exists matched,
        [("python", Sample.one)]
        = map (fun m => (match_name m, match_score m)) matched
        /\ skills_of 1 (App.user_skills Scenario.after_upload)
           = map (Db.row_of 1) matched)
  /\ (forall v, v <> 1 ->
        skills_of v (App.user_skills Scenario.after_upload)
        = skills_of v (App.user_skills Scenario.start))
  /\ App.resumes Scenario.after_upload
     = App.resumes Scenario.start
       ++ [App.mk_resume 1 "cv.pdf" (App.parse_pdf_text Scenario.cv)]
  /\ exists u, App.find_user "ada@example.org" (App.users Scenario.after_upload)
               = Some u /\ App.user_id u = 1.
Proof.
  apply (upload_records_the_matches Sample.encode_east Fixture.loads
           Scenario.datastore Sample.primary_key Scenario.unique_email true
           Scenario.any_user Scenario.any_resume
           "Ada" "ada@example.org" "cv.pdf" (Ok tt) Scenario.cv Scenario.start).
  vm_compute. reflexivity.
Defined.

Lemma unreadable_resume_clears_the_skills_witness :
  @nil (string * float) = []
  /\ skills_of 1 (App.user_skills Scenario.after_scan) = [].
Proof.
  apply (unreadable_resume_clears_the_skills Sample.encode_east Fixture.loads
           Scenario.datastore Sample.primary_key Scenario.unique_email true
           Scenario.any_user Scenario.any_resume
           "Ada L." "ada@example.org" "scan.pdf" (Ok tt) Scenario.scan
           Scenario.after_upload).
  - vm_compute. reflexivity.
  - vm_compute. reflexivity.
Defined.

Lemma failed_upload_keeps_the_skills_witness :
  App.user_skills Scenario.after_failure = App.user_skills Scenario.start
  /\ (forall uid st2,
        App.store_resume Scenario.unique_email true Scenario.any_user
          Scenario.any_resume "Ada" "ada@example.org" "cv.pdf" (Ok tt) Scenario.cv
          Scenario.start = (Ok uid, st2) ->
        App.resumes Scenario.after_failure
        = App.resumes Scenario.start
          ++ [App.mk_resume uid "cv.pdf" (App.parse_pdf_text Scenario.cv)])
  /\ (forall err2 st2,
        App.store_resume Scenario.unique_email true Scenario.any_user
          Scenario.any_resume "Ada" "ada@example.org" "cv.pdf" (Ok tt) Scenario.cv
          Scenario.start = (Raise err2, st2) ->
        App.resumes Scenario.after_failure = App.resumes Scenario.start).
Proof.
  apply (failed_upload_keeps_the_skills Sample.encode_east Fixture.loads
           Sample.datastore_down_once Sample.primary_key Scenario.unique_email true
           Scenario.any_user Scenario.any_resume
           "Ada" "ada@example.org" "cv.pdf" (Ok tt) Scenario.cv Scenario.start _
           (DatabaseError "connection refused")).
  vm_compute. reflexivity.
Defined.

(** The two cases on the sample deployment: with the vocabulary query
    down the row of [resumes] is stored and the upload fails; with a
    read-only [resumes] table nothing is stored. *)
Example failed_upload_with_and_without_resume :
  fst (Scenario.upload_offline "Ada" "ada@example.org" "cv.pdf" Scenario.cv
         Scenario.start) = Raise (DatabaseError "connection refused")
  /\ App.resumes Scenario.after_failure
     = [App.mk_resume 1 "cv.pdf" "python developer"]
  /\ fst (Scenario.upload_read_only "Ada" "ada@example.org" "cv.pdf" Scenario.cv
           Scenario.start) = Raise (DatabaseError "statement refused")
  /\ App.resumes Scenario.after_refusal = [].
Proof. vm_compute. repeat split. Qed.

Lemma second_upload_replaces_the_first_witness :
  1 = 1
  /\ List.length (skills_of 1 (App.user_skills Scenario.after_scan))
     = List.length (@nil (string * float)).
Proof.
  apply (second_upload_replaces_the_first Sample.encode_east Fixture.loads
           Scenario.datastore Sample.primary_key Scenario.unique_email true
           Scenario.any_user Scenario.any_resume
           "Ada" "Ada L." "ada@example.org" "cv.pdf" "scan.pdf" (Ok tt) (Ok tt)
           Scenario.cv Scenario.scan Scenario.start Scenario.after_upload
           Scenario.after_scan 1 1 [("python", Sample.one)] []).
  - vm_compute. reflexivity.
  - vm_compute. reflexivity.
Defined.

Section RoadmapEndpoint.

Variable invoke : Roadmap.request -> result Roadmap.Roadmap.
Variable tie_first : Db.gap_entry -> Db.gap_entry -> bool.
Variable accepts_recommendation : App.recommendation -> bool.

(** The gap query of the endpoints, with its default limit, returns. *)
Lemma default_gap_returns (db : Db.database) (uid : Z) (role : string) :
  exists rows, fst (Db.compute_gap tie_first db uid role App.default_top_n) = Ok rows.
Proof.
  unfold Db.compute_gap. change (App.default_top_n <? 0) with false.
  eexists. reflexivity.
Qed.

(** [generate_roadmap] on the formatted head of a gap that is not
    empty. *)
Lemma generate_roadmap_of_gap (schedule : list nat) (user_summary duration : string)
  (rows : list Db.gap_entry) (sent : list Roadmap.request) :
  rows <> [] ->
  Roadmap.generate_roadmap invoke schedule user_summary
    (map (fun m => (Db.gap_name m, Db.gap_freq m)) (Py.slice_to rows 3))
    duration sent
  = (Ok (Roadmap.as_completed schedule
           (map (fun g => slot_of invoke user_summary duration
                            (Db.gap_name g, Db.gap_freq g))
              (firstn 3 rows))),
     sent ++ map (fun g => Roadmap.mk_request (Db.gap_name g) (Db.gap_freq g)
                             user_summary duration)
               (firstn 3 rows)).
Proof.
  intros Hne. unfold Roadmap.generate_roadmap.
  rewrite !slice_to_3, <- firstn_map, firstn_firstn.
  change (Nat.min 3 3) with 3%nat. rewrite firstn_map.
  destruct rows as [|g rest]; [contradiction|].
  cbn [firstn map]. rewrite submit_all_map.
  cbn [map]. rewrite !map_map. reflexivity.
Qed.

(** The roadmap endpoint: it asks the model for the first three rows of
    the user's gap, in the order of the gap and with their frequency as
    importance, and for nothing when the gap is empty, so that the pool
    of zero workers never arises; what it answers holds one slot per
    request, and it stores the same slots as one recommendation.  The
    recorded skills are not touched. *)
Theorem roadmap_asks_for_the_head_of_the_gap (schedule : list nat)
  (catalog : Db.database) (uid : Z) (role summary duration : string)
  (st st' : App.state) (r : result App.response) :
  App.roadmap invoke tie_first accepts_recommendation schedule catalog uid role
    summary duration st = (r, st') ->
  exists rows,
    fst (Db.compute_gap tie_first (App.gap_database catalog st) uid role
           App.default_top_n)
    = Ok rows
    /\ App.sent st'
       = App.sent st
         ++ map (fun g => Roadmap.mk_request (Db.gap_name g) (Db.gap_freq g)
                            (App.summary_or_default summary role) duration)
              (firstn 3 rows)
    /\ (rows = [] -> r = Ok App.NoRoadmap /\ st' = st)
    /\ (forall msg, r <> Raise (ValueError msg))
    /\ (forall plan, r = Ok (App.RoadmapMade plan) ->
          Permutation plan
            (map (fun g => slot_of invoke (App.summary_or_default summary role)
                             duration (Db.gap_name g, Db.gap_freq g))
               (firstn 3 rows))
          /\ App.recommendations st'
             = App.recommendations st
               ++ [App.mk_recommendation uid
                     ("Roadmap for " ++ role ++ " (" ++ duration ++ ")") plan])
    /\ App.user_skills st' = App.user_skills st.
Proof.
  intros H. unfold App.roadmap in H.
  destruct (default_gap_returns (App.gap_database catalog st) uid role) as [rows Hg].
  rewrite Hg in H. exists rows. split; [exact Hg|].
  destruct rows as [|g rest].
  - injection H as <- <-. cbn [firstn map]. rewrite app_nil_r.
    split; [reflexivity|]. split; [intros _; split; reflexivity|].
    split; [intros msg; discriminate|]. split; [intros plan; discriminate|].
    reflexivity.
  - rewrite (generate_roadmap_of_gap schedule _ duration (g :: rest) (App.sent st))
      in H by discriminate.
    destruct (accepts_recommendation _) in H; injection H as <- <-;
      cbn [App.sent App.recommendations App.user_skills].
    + split; [reflexivity|]. split; [discriminate|].
      split; [intros msg; discriminate|]. split; [|reflexivity].
      intros plan Hp. injection Hp as <-. split; [|reflexivity].
      apply as_completed_perm.
    + split; [reflexivity|]. split; [discriminate|].
      split; [intros msg; discriminate|]. split; [|reflexivity].
      intros plan; discriminate.
Qed.

End RoadmapEndpoint.

Lemma roadmap_asks_for_the_head_of_the_gap_witness :
  exists rows,
    fst (Db.compute_gap Sample.group_order
           (App.gap_database Sample.postings Scenario.start) 1
           "engineer" App.default_top_n)
    = Ok rows
    /\ App.sent Scenario.after_roadmap
       = App.sent Scenario.start
         ++ map (fun g => Roadmap.mk_request (Db.gap_name g) (Db.gap_freq g)
                            (App.summary_or_default "" "engineer") "90 days")
              (firstn 3 rows)
    /\ (rows = [] ->
        fst (Scenario.roadmap Sample.postings 1 "engineer" "" "90 days"
               Scenario.start) = Ok App.NoRoadmap
        /\ Scenario.after_roadmap = Scenario.start)
    /\ (forall msg,
          fst (Scenario.roadmap Sample.postings 1 "engineer" "" "90 days"
                 Scenario.start) <> Raise (ValueError msg))
    /\ (forall plan,
          fst (Scenario.roadmap Sample.postings 1 "engineer" "" "90 days"
                 Scenario.start) = Ok (App.RoadmapMade plan) ->
          Permutation plan
            (map (fun g => slot_of Sample.invoke_but_docker
                             (App.summary_or_default "" "engineer") "90 days"
                             (Db.gap_name g, Db.gap_freq g))
               (firstn 3 rows))
          /\ App.recommendations Scenario.after_roadmap
             = App.recommendations Scenario.start
               ++ [App.mk_recommendation 1
                     ("Roadmap for " ++ "engineer" ++ " (" ++ "90 days" ++ ")") plan])
    /\ App.user_skills Scenario.after_roadmap = App.user_skills Scenario.start.
Proof.
  apply (roadmap_asks_for_the_head_of_the_gap Sample.invoke_but_docker
           Sample.group_order Scenario.any_recommendation [1%nat] Sample.postings 1 "engineer" ""
           "90 days" Scenario.start).
  vm_compute. reflexivity.
Defined.

(** An upload that returns leaves the vocabulary cached; it asked the
    datastore for it at most once, and not at all when the cache was
    filled before, in which case the process is left as it was. *)
Theorem upload_loads_the_vocabulary_at_most_once
  (encode : list string -> Np.matrix) (json_loads : string -> option Np.vec)
  (datastore : nat -> result (list Cache.skill_row))
  (accepts : Db.statement -> list Db.user_skill -> bool)
  (ignores_user : string -> list App.user -> bool) (burns_user_id : bool)
  (accepts_user : string -> string -> list App.user -> bool)
  (accepts_resume : App.resume -> list App.resume -> bool)
  (name e fname : string) (temp_file : result unit)
  (pages : result (list string)) (st st' : App.state)
  (uid : Z) (ms : list (string * float)) :
  App.upload_resume encode json_loads datastore accepts ignores_user burns_user_id
    accepts_user accepts_resume name e fname temp_file pages st
  = (Ok (App.Uploaded uid ms), st') ->
  Cache.cache (App.process st') <> None
  /\ (Cache.fetches (App.process st') <= S (Cache.fetches (App.process st)))%nat
  /\ (Cache.cache (App.process st) <> None -> App.process st' = App.process st).
Proof.
  intros H.
  destruct (upload_ok_inv _ _ _ _ _ _ _ _ _ _ _ _ _ _ _ _ _ H)
    as (st1 & matched & proc' & _ & Hex & _ & _ & _ & _ & Hp).
  rewrite Hp. clear Hp H. unfold Cache.extract_skills_in_process in Hex.
  destruct (Cache.cache (App.process st)) as [v|] eqn:Ec.
  - rewrite (get_hit json_loads datastore _ v Ec) in Hex.
    injection Hex as _ <-. rewrite Ec.
    split; [discriminate|]. split; [lia|]. intros _. reflexivity.
  - rewrite (get_miss json_loads datastore _ Ec) in Hex.
    destruct (datastore (Cache.fetches (App.process st))) as [rs|err];
      cbn [bind] in Hex; [|discriminate].
    injection Hex as _ <-. cbn.
    split; [discriminate|]. split; [lia|]. intros Hc. contradiction.
Qed.

Lemma upload_loads_the_vocabulary_at_most_once_witness :
  Cache.cache (App.process Scenario.after_scan) <> None
  /\ (Cache.fetches (App.process Scenario.after_scan)
      <= S (Cache.fetches (App.process Scenario.after_upload)))%nat
  /\ (Cache.cache (App.process Scenario.after_upload) <> None ->
      App.process Scenario.after_scan = App.process Scenario.after_upload).
Proof.
  apply (upload_loads_the_vocabulary_at_most_once Sample.encode_east Fixture.loads
           Scenario.datastore Sample.primary_key Scenario.unique_email true
           Scenario.any_user Scenario.any_resume
           "Ada L." "ada@example.org" "scan.pdf" (Ok tt) Scenario.scan
           Scenario.after_upload
           Scenario.after_scan 1 []).
  vm_compute. reflexivity.
Defined.
